(** * SolarPredictive: annual energy estimator and axis-tilt optimizer

    A shallow embedding of [basic_predictor.py], [optimizer.py], [pvtune.py],
    [SnowHeight/monthly_snow.py] and [Albedo_TimeSeries/monthly_albedo.py].

    Conventions.
    - Python floats that take part in the energy algebra are idealised as
      rationals ([Q]); the places where a non-finite numpy value can arise
      (the weighted average of [pvtune.py], the row heights derived from it)
      use [npfloat], rationals extended with the IEEE special values.
    - A naive [pd.Timestamp] is the number of minutes since 1970-01-01 00:00
      on the wall clock; a timezone-aware one is the number of minutes since
      the epoch in UTC, read through its zone.
    - The external physics (pvlib solar position, clear sky, tracker
      orientation, pvfactors, ModelChain) is one black box, [PowerModel]: a
      function from what the loop body hands to pvlib to the AC power
      trace.  An exception raised inside pvlib is not modelled.
    - What the functions read from files and services is an argument: the
      monthly albedo table, the lines of the layout survey, the frame of
      daily weather records, and the random state the sampler starts from.
    - Every computation returns the list of the passes of the loop body it
      has made, next to its result or its exception.
    - A pandas column built from the answers of a Python lambda is numeric
      as soon as one answer is a number and a column of Python objects when
      every answer is [None]; [Pvtune] follows the two cases where the code
      behaves differently in them. *)

From Stdlib Require Import ZArith QArith Qfield Qround Qabs Lia Lqa List String Bool.
From stdpp Require Import base option list sorting gmap strings.

Local Open Scope Z_scope.

(** ** Calendar arithmetic behind [pd.Timestamp] *)

Module Calendar.

Record civil := { year : Z; month : Z; day : Z }.

(** Days since 1970-01-01 of a proleptic Gregorian date. *)
Definition days_from_civil (y m d : Z) : Z :=
  let y' := if m <=? 2 then y - 1 else y in
  let era := y' / 400 in
  let yoe := y' - era * 400 in
  let mp := if m <=? 2 then m + 9 else m - 3 in
  let doy := (153 * mp + 2) / 5 + d - 1 in
  let doe := yoe * 365 + yoe / 4 - yoe / 100 + doy in
  era * 146097 + doe - 719468.

Definition civil_from_days (n : Z) : civil :=
  let z := n + 719468 in
  let era := z / 146097 in
  let doe := z - era * 146097 in
  let yoe := (doe - doe / 1460 + doe / 36524 - doe / 146096) / 365 in
  let doy := doe - (365 * yoe + yoe / 4 - yoe / 100) in
  let mp := (5 * doy + 2) / 153 in
  let d := doy - (153 * mp + 2) / 5 + 1 in
  let m := if mp <? 10 then mp + 3 else mp - 9 in
  {| year := if m <=? 2 then yoe + era * 400 + 1 else yoe + era * 400;
     month := m; day := d |}.

Definition minutes_per_day : Z := 1440.

(** [pd.Timestamp('Y-M-D')]: naive midnight of that date. *)
Definition Timestamp (y m d : Z) : Z := days_from_civil y m d * minutes_per_day.

(** [pd.Timedelta(days=n)]. *)
Definition Timedelta_days (n : Z) : Z := n * minutes_per_day.

Definition is_leap (y : Z) : bool :=
  ((y mod 4 =? 0) && negb (y mod 100 =? 0)) || (y mod 400 =? 0).

Definition days_in_month (y m : Z) : Z :=
  if m =? 2 then (if is_leap y then 29 else 28)
  else if (m =? 4) || (m =? 6) || (m =? 9) || (m =? 11) then 30
  else 31.

(** The day after a date, by the lengths of the months. *)
Definition next_day (c : civil) : civil :=
  if day c <? days_in_month (year c) (month c)
  then {| year := year c; month := month c; day := day c + 1 |}
  else if month c <? 12
       then {| year := year c; month := month c + 1; day := 1 |}
       else {| year := year c + 1; month := 1; day := 1 |}.

(** The calendar date shown by a wall clock reading. *)
Definition date_of (wall : Z) : civil := civil_from_days (wall / minutes_per_day).

Definition ymd (wall : Z) : Z * Z * Z :=
  let c := date_of wall in (year c, month c, day c).

End Calendar.

(** ** Time zones and [pd.date_range] *)

Module Tz.

(** A zone is its base UTC offset (minutes east of Greenwich) and the list
    of its transitions, oldest first: from UTC minute [fst] on, the offset
    is [snd]. *)
Record tzinfo := { base_offset : Z; transitions : list (Z * Z) }.

Definition fixed (off : Z) : tzinfo := {| base_offset := off; transitions := [] |}.
Definition UTC : tzinfo := fixed 0.

Definition utcoffset (tz : tzinfo) (utc : Z) : Z :=
  fold_left (fun off tr => if fst tr <=? utc then snd tr else off)
            (transitions tz) (base_offset tz).

(** Wall clock reading of an aware timestamp. *)
Definition to_wall (tz : tzinfo) (utc : Z) : Z := utc + utcoffset tz utc.

(** [month] attribute of an aware timestamp. *)
Definition month_of (tz : tzinfo) (utc : Z) : Z :=
  Calendar.month (Calendar.date_of (to_wall tz utc)).

Definition offsets (tz : tzinfo) : list Z :=
  base_offset tz :: map snd (transitions tz).

(** The UTC instants whose wall clock reads [wall]. *)
Definition candidates (tz : tzinfo) (wall : Z) : list Z :=
  remove_dups
    (filter (fun u => to_wall tz u = wall) (map (fun off => wall - off) (offsets tz))).

Inductive localize_error := AmbiguousTimeError | NonExistentTimeError.

(** [Timestamp.tz_localize(tz)] with pandas' default
    [ambiguous='raise', nonexistent='raise']. *)
Definition tz_localize (tz : tzinfo) (wall : Z) : localize_error + Z :=
  match candidates tz wall with
  | [u] => inr u
  | [] => inl NonExistentTimeError
  | _ => inl AmbiguousTimeError
  end.

(** The instants [s, s + freq, ...] that are [<= e]; both ends included,
    as [pd.date_range] does by default. *)
Definition regular_range (s e freq : Z) : list Z :=
  if (0 <? freq) && (s <=? e)
  then map (fun i => s + freq * Z.of_nat i) (seq 0 (Z.to_nat ((e - s) / freq) + 1))
  else [].

(** [pd.date_range(start, end, freq=<freq> minutes, tz=tz)] for naive
    [start] and [end]: both are localized, and the range is regular on the
    UTC time line. *)
Definition date_range (start end_ freq : Z) (tz : tzinfo) : localize_error + list Z :=
  match tz_localize tz start, tz_localize tz end_ with
  | inr s, inr e => inr (regular_range s e freq)
  | inl err, _ => inl err
  | _, inl err => inl err
  end.

(** US/Mountain during 2021: MST (UTC-7), MDT (UTC-6) from 2021-03-14
    09:00 UTC to 2021-11-07 08:00 UTC. *)
Definition US_Mountain_2021 : tzinfo :=
  {| base_offset := -420;
     transitions :=
       [ (Calendar.Timestamp 2021 3 14 + 9 * 60, -360);
         (Calendar.Timestamp 2021 11 7 + 8 * 60, -420) ] |}.

End Tz.

(** ** Python values and exceptions *)

Inductive exn :=
| ValueError (msg : string)
| KeyError (key : string)
| TypeError (msg : string)
| ZeroDivisionError
| LocalizeError (e : Tz.localize_error).

(** A numpy [float64] whose finite values are idealised as rationals. *)
Inductive npfloat :=
| Finite (q : Q)
| Infinite (negative : bool)
| NaN.

Definition Qneg (q : Q) : bool := (Qnum q <? 0)%Z.
Definition Qzero (q : Q) : bool := (Qnum q =? 0)%Z.

Definition np_sub (a b : npfloat) : npfloat :=
  match a, b with
  | NaN, _ | _, NaN => NaN
  | Finite x, Finite y => Finite (x - y)
  | Infinite s, Finite _ => Infinite s
  | Finite _, Infinite s => Infinite (negb s)
  | Infinite s, Infinite t => if Bool.eqb s t then NaN else Infinite s
  end.

(** numpy scalar division: a zero divisor gives [nan] or [inf] (and a
    RuntimeWarning), it does not raise. *)
Definition np_truediv (a b : npfloat) : npfloat :=
  match a, b with
  | NaN, _ | _, NaN => NaN
  | Finite x, Finite y =>
      if Qzero y then (if Qzero x then NaN else Infinite (Qneg x))
      else Finite (x / y)
  | Infinite s, Finite y => Infinite (xorb s (Qneg y))
  | Finite _, Infinite _ => Finite 0
  | Infinite _, Infinite _ => NaN
  end.

(** Python's [/] on two Python numbers raises on a zero divisor. *)
Definition py_truediv (a b : Q) : exn + Q :=
  if Qzero b then inl ZeroDivisionError else inr (a / b)%Q.

(** ** The plant and the physics black box *)

Record PlantConfig := {
  lat : Q;
  lon : Q;
  tz : Tz.tzinfo;
  gcr : Q;
  max_angle : Q;
  pvrow_width : Q;
  bifaciality : Q;
  temp_model_parameters : gmap string Q;
  cec_module : gmap string Q;
  cec_inverter : gmap string Q;
  site_name : string
}.

(** Everything one pass of the loop body hands to pvlib: the tracker mount,
    the arguments of [pvfactors_timeseries] and the system of the
    ModelChain. *)
Record model_inputs := {
  in_times : list Z;
  in_axis_tilt : Q;
  in_axis_azimuth : Z;
  in_backtrack : bool;
  in_pvrow_height : npfloat;
  in_albedo : list Q;
  in_n_pvrows : Z;
  in_index_observed_pvrow : Z;
  in_plant : PlantConfig
}.

(** [mc_bifi.results.ac] for those inputs, one sample per timestamp; [None]
    is a NaN sample. *)
Class PowerModel := { ac_power : model_inputs -> list (option Q) }.

(** One executed pass of the loop body: the naive start date of the pass and
    what it gave the physics. *)
Record day_run := { run_start : Z; run_inputs : model_inputs }.

(** ** Computations that log their simulations and may raise *)

Definition M (A : Type) : Type := (list day_run * (exn + A))%type.

Definition ret {A} (a : A) : M A := ([], inr a).
Definition raise {A} (e : exn) : M A := ([], inl e).
Definition bind {A B} (m : M A) (k : A -> M B) : M B :=
  match m with
  | (log, inl e) => (log, inl e)
  | (log, inr a) => let '(log', r) := k a in (log ++ log', r)
  end.
Definition lift {A} (r : exn + A) : M A := ([], r).

Notation "'let*' x ':=' m 'in' k" := (bind m (fun x => k))
  (at level 10, x pattern, m at level 100, k at level 200).

Definition runs {A} (m : M A) : list day_run := fst m.
Definition outcome {A} (m : M A) : exn + A := snd m.

(** The sum of a sequence of numbers, accumulated from the left. *)
Definition sum_Q (xs : list Q) : Q := fold_left Qplus xs 0%Q.

(** [Series.sum()]: NaN samples are skipped. *)
Definition series_sum (xs : list (option Q)) : Q :=
  fold_left (fun acc x => acc + default 0 x)%Q xs 0%Q.

(** ** SnowHeight/monthly_snow.py *)

Module MonthlySnow.

Inductive cell := CNaN | CFloat (q : Q) | CInt (z : Z).

(** A frame of daily records: its datetime index and its named columns. *)
Record DataFrame := { index : list Z; columns : gmap string (list cell) }.

Definition fillna0 (c : cell) : cell :=
  match c with CNaN => CFloat 0 | _ => c end.

Definition cell_value (c : cell) : option Q :=
  match c with CNaN => None | CFloat q => Some q | CInt z => Some (inject_Z z) end.

Definition cell_key (c : cell) : option Z :=
  match c with CInt z => Some z | _ => None end.

(** [Series.mean()] of the non-NaN values. *)
Definition mean (xs : list Q) : npfloat :=
  match xs with
  | [] => NaN
  | _ => Finite (fold_left Qplus xs 0%Q / inject_Z (Z.of_nat (length xs)))
  end.

(** [data.groupby(key)[val].mean().reset_index()]: one row per key, keys
    ascending. *)
Definition groupby_mean (keys vals : list cell) : list (Z * npfloat) :=
  let rows := zip keys vals in
  let ks := merge_sort Z.le (remove_dups (omap cell_key keys)) in
  map (fun k =>
         (k, mean (omap (fun r => if decide (cell_key (fst r) = Some k)
                                  then cell_value (snd r) else None) rows)))
      ks.

(** What the call leaves behind: the lines it printed and the frame of
    [(month, adjusted_row_height)] rows it returned. *)
Record returned := { printed : list string; frame : list (Z * npfloat) }.

(** [fetched] is the frame that [Daily(location, start, end).fetch()]
    delivered. *)
Definition calculate_new_row_height (fetched : DataFrame) (row_height : npfloat)
  : exn + returned :=
  let data := {| index := index fetched;
                 columns := <["month" := map (fun t => CInt (Calendar.month (Calendar.date_of t)))
                                             (index fetched)]> (columns fetched) |} in
  match columns data !! "snow" with
  | None => inl (KeyError "snow")
  | Some snow =>
      let data := {| index := index data;
                     columns := <["snow" := map fillna0 snow]> (columns data) |} in
      if bool_decide ("snow" ∈ dom (columns data)) then
        match columns data !! "month", columns data !! "snow" with
        | Some month, Some snow =>
            let average_snowfall :=
              map (fun r => (fst r, np_truediv (snd r) (Finite 1000)))
                  (groupby_mean month snow) in
            inr {| printed := [];
                   frame := map (fun r => (fst r, np_sub row_height (snd r)))
                                average_snowfall |}
        | None, _ => inl (KeyError "month")
        | _, None => inl (KeyError "snow")
        end
      else
        inr {| printed := ["No 'snow' data found."]; frame := [] |}
  end.

End MonthlySnow.

(** ** Albedo_TimeSeries/monthly_albedo.py *)

Module MonthlyAlbedo.

(** One data line of an NSRDB export, with the columns the function reads:
    [Year] and [Month] hold integers, [Surface Albedo] a number; [None] is
    an empty (NaN) field.  A file without one of the three columns, which
    makes [groupby] raise, is outside the embedding. *)
Record line := { Year : option Z; Month : option Z; Surface_Albedo : option Q }.

(** An entry of the folder: its name and the data lines that
    [pd.read_csv(file_path, skiprows=2)] finds in it; only entries whose
    name ends in [.csv] are read. *)
Record csv_file := { file_name : string; lines : list line }.

(** [s.endswith(suffix)]. *)
Definition endswith (s suffix : string) : bool :=
  let n := String.length s in
  let k := String.length suffix in
  (k <=? n)%nat && String.eqb (String.substring (n - k) k s) suffix.

(** [Series.mean()]: the mean of the values that are not NaN, NaN when
    there is none. *)
Definition mean (xs : list Q) : option Q :=
  match xs with
  | [] => None
  | _ => Some (sum_Q xs / inject_Z (Z.of_nat (length xs)))%Q
  end.

(** The key of a line in [groupby(['Year', 'Month'])]; a line with a NaN in
    its key is dropped. *)
Definition year_month (l : line) : option (Z * Z) :=
  match Year l, Month l with
  | Some y, Some m => Some (y, m)
  | _, _ => None
  end.

Definition ym_le (a b : Z * Z) : Prop :=
  fst a < fst b \/ (fst a = fst b /\ snd a <= snd b).

#[local] Instance ym_le_dec : RelDecision ym_le.
Proof. intros a b. unfold ym_le. apply _. Defined.

(** One line of [monthly_avg_albedo]. *)
Record monthly := { m_Year : Z; m_Month : Z; m_Surface_Albedo : option Q }.

(** [df.groupby(['Year', 'Month'])['Surface Albedo'].mean().reset_index()]:
    one line per key, keys ascending. *)
Definition groupby_year_month (df : list line) : list monthly :=
  map (fun k =>
         {| m_Year := fst k; m_Month := snd k;
            m_Surface_Albedo :=
              mean (omap Surface_Albedo (filter (fun l => year_month l = Some k) df)) |})
      (merge_sort ym_le (remove_dups (omap year_month df))).

(** [pd.concat(objs)] refuses an empty list. *)
Definition pd_concat {A} (objs : list (list A)) : exn + list A :=
  match objs with
  | [] => inl (ValueError "No objects to concatenate")
  | _ => inr (concat objs)
  end.

(** [combined_data.groupby('Month')['Surface Albedo'].mean().reset_index()]. *)
Definition groupby_month (combined_data : list monthly) : list (Z * option Q) :=
  map (fun m =>
         (m, mean (omap m_Surface_Albedo (filter (fun r => m_Month r = m) combined_data))))
      (merge_sort Z.le (remove_dups (map m_Month combined_data))).

(** [folder] is what [os.listdir(folder_path)] lists, in its order. *)
Definition calculate_monthly_avg_albedo (folder : list csv_file)
  : exn + list (Z * option Q) :=
  let all_yearly_data :=
    fold_left (fun all_yearly_data f =>
                 if endswith (file_name f) ".csv"
                 then all_yearly_data ++ [groupby_year_month (lines f)]
                 else all_yearly_data)
              folder [] in
  match pd_concat all_yearly_data with
  | inl e => inl e
  | inr combined_data => inr (groupby_month combined_data)
  end.

End MonthlyAlbedo.

(** ** pvtune.py *)

Module Pvtune.

(** One line of the PVTune export, with the columns the function reads;
    [None] is an empty (NaN) field. *)
Record csv_row := {
  Tracker_Row_Id : Z;
  Description : string;
  N : option Q;
  Reveal_Height : option Q;
  E : option Q;
  Z_Existing_Grade : option Q
}.

Definition Qlt_bool (a b : Q) : bool := negb (Qle_bool b a).

Definition group (df : list csv_row) (id : Z) : list csv_row :=
  filter (fun r => Tracker_Row_Id r = id) df.

(** Keys of [df.groupby('Tracker Row Id')], ascending. *)
Definition tracker_ids (df : list csv_row) : list Z :=
  merge_sort Z.le (remove_dups (map Tracker_Row_Id df)).

Definition is_array_end (r : csv_row) : bool :=
  String.eqb (Description r) "Ext_Array_END" || String.eqb (Description r) "Int_Array_END".

(** What the lambda of [abs_diff_n] answers for one tracker row: Python's
    [None] when the row has fewer than two array-end lines, otherwise a
    float, NaN when one of the two northings is missing. *)
Inductive span := NoSpan | Span (d : option Q).

Definition array_end_df (df : list csv_row) : list csv_row :=
  filter (fun r => is_array_end r = true) df.

Definition abs_diff_n (df : list csv_row) : list (Z * span) :=
  map (fun id =>
         (id, match map N (group (array_end_df df) id) with
              | a :: b :: _ =>
                  Span (match a, b with
                        | Some a, Some b => Some (Qabs (a - b))
                        | _, _ => None
                        end)
              | _ => NoSpan
              end))
      (tracker_ids (array_end_df df)).

(** pandas builds the series [abs_diff_n] from the answers of the lambda:
    a float64 series, with NaN for [None], as soon as one answer is a float,
    but a series of Python objects when every answer is [None]. *)
Definition spans_are_objects (df : list csv_row) : bool :=
  match abs_diff_n df with
  | [] => false
  | spans => forallb (fun s => match snd s with NoSpan => true | Span _ => false end) spans
  end.

(** The float read in column [Difference in N] on the lines of tracker row
    [id], when that column is a float64 column: NaN for a row without
    span. *)
Definition difference_in_N (df : list csv_row) (id : Z) : option Q :=
  match filter (fun s => fst s = id) (abs_diff_n df) with
  | (_, Span d) :: _ => d
  | _ => None
  end.

Definition number_of_modules (x : option Q) : option Z :=
  match x with
  | Some x =>
      if Qlt_bool 250 x && Qlt_bool x 270 then Some 78
      else if Qlt_bool 380 x && Qlt_bool x 400 then Some 104
      else None
  | None => None
  end.

Definition Qmax_list (xs : list Q) : option Q :=
  match xs with
  | [] => None
  | x :: xs => Some (fold_left (fun m y => if Qlt_bool m y then y else m) xs x)
  end.

(** [0.75 + np.ceil(max_reveal_height * 4) / 4]. *)
Definition rounded_reveal_height (max_reveal_height : Q) : Q :=
  ((3 # 4) + inject_Z (Qceiling (max_reveal_height * 4)) / 4)%Q.

Definition max_reveal_height (df : list csv_row) (id : Z) : option Q :=
  rounded_reveal_height <$> Qmax_list (omap Reveal_Height (group df id)).

Definition contains (sub s : string) : bool :=
  match String.index 0 sub s with Some _ => true | None => false end.

(** One line of [new_df]. *)
Record tracker := {
  t_Tracker_Row_Id : Z;
  t_Max_Reveal_Height : option Q;
  t_Number_of_Modules : option Z;
  t_E : option Q;
  t_Z_Existing_Grade : option Q;
  t_Description : string
}.

Definition new_df (df : list csv_row) : list tracker :=
  map (fun id =>
         let g := group df id in
         {| t_Tracker_Row_Id := id;
            t_Max_Reveal_Height := max_reveal_height df id;
            t_Number_of_Modules :=
              head (omap (fun _ => number_of_modules (difference_in_N df id)) g);
            t_E := head (omap E g);
            t_Z_Existing_Grade := head (omap Z_Existing_Grade g);
            t_Description :=
              if existsb (fun r => contains "Ext" (Description r)) g then "Ext" else "Int" |})
      (tracker_ids df).

(** One line of [summary_df]. *)
Record summary_row := {
  Max_Reveal_Height : Q;
  s_Description : string;
  Number_of_Rows : Z;
  Number_of_Total_Modules : Z;
  Weighted_Height : Q
}.

Definition key_eqb (a b : Q * string) : bool :=
  Qeq_bool (fst a) (fst b) && String.eqb (snd a) (snd b).

Definition key_le (a b : Q * string) : Prop :=
  Qlt_bool (fst a) (fst b) || (Qeq_bool (fst a) (fst b) && String.leb (snd a) (snd b)) = true.

#[local] Instance key_le_dec : RelDecision key_le.
Proof. intros a b. unfold key_le. apply _. Defined.

Fixpoint distinct_keys (ks : list (Q * string)) : list (Q * string) :=
  match ks with
  | [] => []
  | k :: ks => k :: filter (fun k' => key_eqb k k' = false) (distinct_keys ks)
  end.

Definition tracker_key (t : tracker) : option (Q * string) :=
  (fun h => (h, t_Description t)) <$> t_Max_Reveal_Height t.

(** Lines without a height have a NaN key and are dropped by [groupby]. *)
Definition in_group (k : Q * string) (t : tracker) : bool :=
  match tracker_key t with Some k' => key_eqb k k' | None => false end.

Definition sum_Z (xs : list Z) : Z := fold_left Z.add xs 0.

(** [new_df.groupby(['Max Reveal Height', 'Description']).agg(...)] with
    the [Weighted Height] column added. *)
Definition summary_df (trackers : list tracker) : list summary_row :=
  map (fun k =>
         let g := filter (fun t => in_group k t = true) trackers in
         let modules := sum_Z (omap t_Number_of_Modules g) in
         {| Max_Reveal_Height := fst k;
            s_Description := snd k;
            Number_of_Rows := Z.of_nat (length g);
            Number_of_Total_Modules := modules;
            Weighted_Height := (fst k * inject_Z modules)%Q |})
      (merge_sort key_le (distinct_keys (omap tracker_key trackers))).

Definition total_modules (summary : list summary_row) : Z :=
  sum_Z (map Number_of_Total_Modules summary).

Definition weighted_average (summary : list summary_row) : npfloat :=
  np_truediv (Finite (sum_Q (map Weighted_Height summary)))
             (Finite (inject_Z (total_modules summary))).

(** The column [Number of Modules] is built from the answers 78, 104 and
    [None] of a lambda: a numeric column, with NaN for [None], as soon as one
    answer is a number, but a column of Python objects when every answer is
    [None].  The counts summed from a column of objects, the weighted heights
    and their sums are then Python numbers. *)
Definition modules_are_objects (df : list csv_row) : bool :=
  match df with
  | [] => false
  | _ => forallb (fun r => match number_of_modules (difference_in_N df (Tracker_Row_Id r)) with
                           | None => true
                           | Some _ => false
                           end) df
  end.

(** [df] is the content of the CSV at [file_path].  On a column of objects
    the lambda of [Number of Modules] compares 250 with [None], which Python
    refuses.  The final [/] is Python's on Python numbers and numpy's on
    numpy scalars. *)
Definition process_pvtune_output (df : list csv_row) : exn + (list summary_row * npfloat) :=
  if spans_are_objects df
  then inl (TypeError "'<' not supported between instances of 'int' and 'NoneType'")
  else
    let summary := summary_df (new_df df) in
    if modules_are_objects df
    then
      match py_truediv (sum_Q (map Weighted_Height summary))
                       (inject_Z (total_modules summary)) with
      | inl e => inl e
      | inr q => inr (summary, Finite q)
      end
    else inr (summary, weighted_average summary).

End Pvtune.

(** ** The year loop

    [basic_predictor.calculate_total_energy] and the
    [calculate_total_energy] nested in [optimizer.optimize_axistilt] repeat
    the same closures and the same loop body.  The embedding has them once,
    with what differs between the two files as arguments: the row count
    given to pvfactors, the axis tilt and the height used when a month has
    no adjustment.  The nested function of optimizer.py is also translated on
    its own, in [OptimizerNested], and shown equal to the shared one. *)

Module Simulation.

Definition default_albedo : Q := 2 # 10.

(** [get_albedo(date)] for an aware timestamp of zone [zone];
    [albedo_data] holds the [(Month, Surface Albedo)] lines. *)
Definition get_albedo (albedo_data : list (Z * Q)) (zone : Tz.tzinfo) (date : Z) : Q :=
  let month := Tz.month_of zone date in
  let albedo_row := filter (fun r => fst r = month) albedo_data in
  match albedo_row with
  | r :: _ => snd r
  | [] => default_albedo
  end.

(** [get_adjusted_row_height(date)] for the naive start date;
    [adjusted_heights_df] holds the [(month, adjusted_row_height)] lines. *)
Definition get_adjusted_row_height (adjusted_heights_df : list (Z * npfloat))
           (height : npfloat) (date : Z) : npfloat :=
  let month := Calendar.month (Calendar.date_of date) in
  let height_row := filter (fun r => fst r = month) adjusted_heights_df in
  match height_row with
  | r :: _ => snd r
  | [] => height
  end.

Record loop_state := { start_date : Z; total_energy_bi : Q; count : Z }.

Definition date_range_20min (start : Z) (zone : Tz.tzinfo) : M (list Z) :=
  match Tz.date_range start (start + Calendar.Timedelta_days 1) 20 zone with
  | inl e => raise (LocalizeError e)
  | inr times => ret times
  end.

(** The start dates of the first [n] passes of a loop entered at [start]. *)
Definition sample_dates (start : Z) (n : nat) : list Z :=
  map (fun i => start + Calendar.Timedelta_days 10 * Z.of_nat i) (seq 0 n).

(** Whether the bounds of the pass that starts at [start] localize. *)
Definition day_localizes (zone : Tz.tzinfo) (start : Z) : bool :=
  match Tz.date_range start (start + Calendar.Timedelta_days 1) 20 zone with
  | inr _ => true
  | inl _ => false
  end.

(** The timestamps of the pass that starts at [start]. *)
Definition times_of (zone : Tz.tzinfo) (start : Z) : list Z :=
  match Tz.date_range start (start + Calendar.Timedelta_days 1) 20 zone with
  | inr times => times
  | inl _ => []
  end.

Section Loop.
Context `{PowerModel}.
Variable plant : PlantConfig.
Variable albedo_data : list (Z * Q).
Variable adjusted_heights_df : list (Z * npfloat).
Variable height : npfloat.
Variable n_pvrows : Z.
Variable axis_tilt : Q.

(** Solar position, clear sky, orientation, pvfactors and ModelChain for
    one pass; the pass is logged. *)
Definition run_model (start : Z) (x : model_inputs) : M (list (option Q)) :=
  ([ {| run_start := start; run_inputs := x |} ], inr (ac_power x)).

Definition day_inputs (start : Z) (times : list Z) : model_inputs :=
  {| in_times := times;
     in_axis_tilt := axis_tilt;
     in_axis_azimuth := 180;
     in_backtrack := true;
     in_pvrow_height := get_adjusted_row_height adjusted_heights_df height start;
     in_albedo := map (get_albedo albedo_data (tz plant)) times;
     in_n_pvrows := n_pvrows;
     in_index_observed_pvrow := 1;
     in_plant := plant |}.

(** The body of the [while]. *)
Definition loop_body (st : loop_state) : M loop_state :=
  let* times := date_range_20min (start_date st) (tz plant) in
  let* ac_power := run_model (start_date st) (day_inputs (start_date st) times) in
  let energy_kwh := (series_sum ac_power / 3000)%Q in
  ret {| start_date := start_date st + Calendar.Timedelta_days 10;
         total_energy_bi := (total_energy_bi st + energy_kwh)%Q;
         count := count st + 1 |}.

(** [while start_date <= end_date: ...], at most [fuel] passes. *)
Fixpoint while_loop (fuel : nat) (end_date : Z) (st : loop_state) : M loop_state :=
  match fuel with
  | O => ret st
  | S fuel' =>
      if start_date st <=? end_date
      then let* st' := loop_body st in while_loop fuel' end_date st'
      else ret st
  end.

(** What the pass that starts at [start] logs and the energy it adds. *)
Definition run_of (start : Z) : day_run :=
  {| run_start := start; run_inputs := day_inputs start (times_of (tz plant) start) |}.

Definition day_energy (start : Z) : Q :=
  (series_sum (ac_power (day_inputs start (times_of (tz plant) start))) / 3000)%Q.

(** Passes the loop makes from [start] to [end_date]. *)
Definition passes (start end_date : Z) : nat :=
  if start <=? end_date
  then Z.to_nat ((end_date - start) / Calendar.Timedelta_days 10 + 1)
  else O.

(** The loop and the scaling that follows it, between any two dates. *)
Definition simulate_year (start end_date : Z) : M Q :=
  let* st := while_loop (passes start end_date) end_date
               {| start_date := start; total_energy_bi := 0; count := 0 |} in
  let* scale := lift (py_truediv 365 (inject_Z (count st))) in
  ret (total_energy_bi st * scale)%Q.

End Loop.

End Simulation.

(** ** basic_predictor.py *)

Module BasicPredictor.

Section Estimator.
Context `{PowerModel}.

(** [albedo_data] is what [calculate_monthly_avg_albedo] read at
    [albedodata_filepath]; [fetched] is what the weather service
    delivered to [calculate_new_row_height]. *)
Definition calculate_total_energy (height : npfloat) (ext_or_int : string)
           (opt_tilt : Q) (albedo_data : list (Z * Q)) (plant : PlantConfig)
           (fetched : MonthlySnow.DataFrame) : M Q :=
  let* n_pvrows :=
    if String.eqb ext_or_int "Ext" then ret 2
    else if String.eqb ext_or_int "Int" then ret 3
    else raise (ValueError "Invalid value for ext_or_int. Must be 'Ext' or 'Int'.") in
  let* adjusted_heights_df := lift (MonthlySnow.calculate_new_row_height fetched height) in
  Simulation.simulate_year plant albedo_data (MonthlySnow.frame adjusted_heights_df)
    height n_pvrows opt_tilt
    (Calendar.Timestamp 2021 1 1) (Calendar.Timestamp 2021 12 31).

End Estimator.

End BasicPredictor.

(** ** optimizer.py *)

Module Optuna.

(** A completed trial of the study; its value is a finite number. *)
Record FrozenTrial := { number : Z; axis_tilt : Q; value : Q }.

(** A sampler: the random state a seed stands for and, given the bounds,
    the finished trials and its random state, the next suggestion and
    state. *)
Class Sampler := {
  rng : Type;
  seed_rng : Z -> rng;
  suggest_float : Q -> Q -> list FrozenTrial -> rng -> Q * rng
}.

(** The initial random state of a sampler built with [seed=seed]: fixed by
    the seed when there is one, otherwise drawn from the operating system,
    [entropy] being that draw. *)
Definition sampler_init `{Sampler} (seed : option Z) (entropy : rng) : rng :=
  match seed with
  | Some n => seed_rng n
  | None => entropy
  end.

(** [suggest_float(name, low, high)] answers within [[low, high]]. *)
Class RespectsBounds (S : Sampler) : Prop :=
  suggest_float_in_range :
    forall low high history s, (low <= high)%Q ->
      (low <= fst (suggest_float low high history s) <= high)%Q.

Record Study := { trials : list FrozenTrial; best_trial : option FrozenTrial }.

Definition Qlt_bool (a b : Q) : bool := negb (Qle_bool b a).

(** Record a completed trial of a [direction='maximize'] study: the best
    trial changes only for a strictly greater value. *)
Definition tell (study : Study) (t : FrozenTrial) : Study :=
  {| trials := trials study ++ [t];
     best_trial :=
       match best_trial study with
       | None => Some t
       | Some b => if Qlt_bool (value b) (value t) then Some t else Some b
       end |}.

End Optuna.

Module Optimizer.
Import Optuna.

Record state `{Sampler} := {
  study : Study;
  sampler_state : rng;
  trial_axis_tilts : list Q;
  trial_energies : list Q
}.

Section Optimize.
Context `{PowerModel} `{Sampler}.
Variable plant : PlantConfig.
Variable albedo_data : list (Z * Q).
Variable fetched : MonthlySnow.DataFrame.
Variable weighted_avg_reveal_height : npfloat.

(** The nested [calculate_total_energy(axis_tilt)].  It asks the weather
    service again at every call; [fetched] is what the service delivers,
    the same each time. *)
Definition calculate_total_energy (axis_tilt : Q) : M Q :=
  let* adjusted_heights_df :=
    lift (MonthlySnow.calculate_new_row_height fetched weighted_avg_reveal_height) in
  Simulation.simulate_year plant albedo_data (MonthlySnow.frame adjusted_heights_df)
    weighted_avg_reveal_height 3 axis_tilt
    (Calendar.Timestamp 2021 1 1) (Calendar.Timestamp 2021 12 31).

(** One trial: [objective(trial)] and the bookkeeping of the study. *)
Definition run_trial (st : state) : M state :=
  let '(axis_tilt, s') :=
    suggest_float 0 60 (trials (study st)) (sampler_state st) in
  let* total_energy := calculate_total_energy axis_tilt in
  ret {| study := tell (study st)
                    {| number := Z.of_nat (length (trials (study st)));
                       axis_tilt := axis_tilt; value := total_energy |};
         sampler_state := s';
         trial_axis_tilts := trial_axis_tilts st ++ [axis_tilt];
         trial_energies := trial_energies st ++ [total_energy] |}.

(** [study.optimize(objective, n_trials=n_trials)]. *)
Fixpoint optimize (n_trials : nat) (st : state) : M state :=
  match n_trials with
  | O => ret st
  | S n => let* st' := run_trial st in optimize n st'
  end.

(** [optuna.create_study(direction='maximize')]: no sampler is given, so
    the default one is built, with [seed=None]. *)
Definition create_study (entropy : rng) : state :=
  {| study := {| trials := []; best_trial := None |};
     sampler_state := sampler_init None entropy;
     trial_axis_tilts := [];
     trial_energies := [] |}.

End Optimize.

Section Entry.
Context `{PowerModel} `{Sampler}.

(** Everything up to the plot: the state the study is left in. *)
Definition search (pvtune : list Pvtune.csv_row) (albedo_data : list (Z * Q))
           (plant : PlantConfig) (fetched : MonthlySnow.DataFrame)
           (entropy : rng) : M state :=
  let* (summary_df, weighted_avg_reveal_height) :=
    lift (Pvtune.process_pvtune_output pvtune) in
  optimize plant albedo_data fetched weighted_avg_reveal_height 20 (create_study entropy).

(** [pvtune] is the content of the file at [pvtune_filepath]. *)
Definition optimize_axistilt (pvtune : list Pvtune.csv_row) (albedo_data : list (Z * Q))
           (plant : PlantConfig) (fetched : MonthlySnow.DataFrame)
           (entropy : rng) : M (Q * Q * list Pvtune.summary_row) :=
  let* (summary_df, weighted_avg_reveal_height) :=
    lift (Pvtune.process_pvtune_output pvtune) in
  let* st := optimize plant albedo_data fetched weighted_avg_reveal_height 20
               (create_study entropy) in
  match best_trial (study st) with
  | None => raise (ValueError "No trials are completed yet.")
  | Some best =>
      let optimal_axistilt := axis_tilt best in
      let maximized_total_energy := value best in
      ret (optimal_axistilt, maximized_total_energy, summary_df)
  end.

End Entry.

End Optimizer.

(** ** optimizer.py, lines 55 to 148, translated on their own

    The two closures and the nested [calculate_total_energy] of
    [optimize_axistilt] as optimizer.py writes them, without the
    definitions of [Simulation] that the embedding of basic_predictor.py
    uses; [nested_is_objective] below shows that [Optimizer] loses nothing
    by sharing them. *)

Module OptimizerNested.

Section Nested.
Context `{PowerModel}.
Variable plant : PlantConfig.
Variable albedo_data : list (Z * Q).
Variable fetched : MonthlySnow.DataFrame.
Variable weighted_avg_reveal_height : npfloat.

(** [get_albedo(date)], optimizer.py lines 55 to 61. *)
Definition get_albedo (date : Z) : Q :=
  let month := Tz.month_of (tz plant) date in
  match filter (fun albedo_line => fst albedo_line = month) albedo_data with
  | albedo_row :: _ => snd albedo_row
  | [] => 2 # 10
  end.

(** [get_adjusted_row_height(date)], lines 75 to 81. *)
Definition get_adjusted_row_height (adjusted_heights_df : list (Z * npfloat)) (date : Z)
  : npfloat :=
  let month := Calendar.month (Calendar.date_of date) in
  match filter (fun height_line => fst height_line = month) adjusted_heights_df with
  | height_row :: _ => snd height_row
  | [] => weighted_avg_reveal_height
  end.

(** The [while] of lines 89 to 145, at most [fuel] passes; it returns
    [total_energy_bi] and [count]. *)
Fixpoint year_loop (fuel : nat) (adjusted_heights_df : list (Z * npfloat)) (axis_tilt : Q)
         (end_date start_date : Z) (total_energy_bi : Q) (count : Z) : M (Q * Z) :=
  match fuel with
  | O => ret (total_energy_bi, count)
  | S fuel' =>
      if start_date <=? end_date then
        match Tz.date_range start_date (start_date + Calendar.Timedelta_days 1) 20
                (tz plant) with
        | inl e => raise (LocalizeError e)
        | inr times =>
            let albedo_values := map get_albedo times in
            let pvrow_height := get_adjusted_row_height adjusted_heights_df start_date in
            let given :=
              {| in_times := times;
                 in_axis_tilt := axis_tilt;
                 in_axis_azimuth := 180;
                 in_backtrack := true;
                 in_pvrow_height := pvrow_height;
                 in_albedo := albedo_values;
                 in_n_pvrows := 3;
                 in_index_observed_pvrow := 1;
                 in_plant := plant |} in
            let* ac := ([ {| run_start := start_date; run_inputs := given |} ],
                        inr (ac_power given)) in
            let energy_kwh := (series_sum ac / 3000)%Q in
            year_loop fuel' adjusted_heights_df axis_tilt end_date
              (start_date + Calendar.Timedelta_days 10)
              (total_energy_bi + energy_kwh)%Q
              (count + 1)
        end
      else ret (total_energy_bi, count)
  end.

(** The nested [calculate_total_energy(axis_tilt)], lines 70 to 148.  The
    fuel is the number of passes from the first date to the last. *)
Definition calculate_total_energy (axis_tilt : Q) : M Q :=
  let* adjusted_heights_df :=
    lift (MonthlySnow.calculate_new_row_height fetched weighted_avg_reveal_height) in
  let start_date := Calendar.Timestamp 2021 1 1 in
  let end_date := Calendar.Timestamp 2021 12 31 in
  let* (total_energy_bi, count) :=
    year_loop (Simulation.passes start_date end_date) (MonthlySnow.frame adjusted_heights_df)
      axis_tilt end_date start_date 0 0 in
  let* scale := lift (py_truediv 365 (inject_Z count)) in
  ret (total_energy_bi * scale)%Q.

End Nested.

End OptimizerNested.

(** ** Vocabulary of the statements *)

Module Conditions.

(** The row count the specification gives each array class. *)
Definition n_pvrows_of (array_class : string) : option Z :=
  if String.eqb array_class "Ext" then Some 2
  else if String.eqb array_class "Int" then Some 3
  else None.

Definition invalid_class_error : exn :=
  ValueError "Invalid value for ext_or_int. Must be 'Ext' or 'Int'.".

(** The fetched weather frame has a [snow] column. *)
Definition has_snow (fetched : MonthlySnow.DataFrame) : Prop :=
  is_Some (MonthlySnow.columns fetched !! "snow").

(** The monthly heights that [calculate_new_row_height] hands back. *)
Definition adjusted_heights (fetched : MonthlySnow.DataFrame) (row_height : npfloat)
  : list (Z * npfloat) :=
  match MonthlySnow.calculate_new_row_height fetched row_height with
  | inr r => MonthlySnow.frame r
  | inl _ => []
  end.

(** The start dates of the passes of the hard-coded year. *)
Definition sampled_2021 : list Z :=
  Simulation.sample_dates (Calendar.Timestamp 2021 1 1) 37.

(** Midnight of every sampled day and of the day after exists, once, in
    the zone. *)
Definition year_localizes (zone : Tz.tzinfo) : Prop :=
  forallb (Simulation.day_localizes zone) sampled_2021 = true.

Definition in_range (low high x : Q) : Prop := (low <= x <= high)%Q.

(** [best] is the trial at position [i] of [history], no trial has a value
    above it, and every earlier trial has a value strictly below. *)
Definition is_first_maximum (history : list Optuna.FrozenTrial) (i : nat)
           (best : Optuna.FrozenTrial) : Prop :=
  history !! i = Some best /\
  (forall t, t ∈ history -> (Optuna.value t <= Optuna.value best)%Q) /\
  (forall j t, (j < i)%nat -> history !! j = Some t ->
               (Optuna.value t < Optuna.value best)%Q).

Definition best_ok (study : Optuna.Study) : Prop :=
  match Optuna.best_trial study with
  | None => Optuna.trials study = []
  | Some best => exists i, is_first_maximum (Optuna.trials study) i best
  end.

(** The two lists kept for the plot are the columns of the study's trials. *)
Definition consistent `{Optuna.Sampler} (st : Optimizer.state) : Prop :=
  Optimizer.trial_axis_tilts st = map Optuna.axis_tilt (Optuna.trials (Optimizer.study st)) /\
  Optimizer.trial_energies st = map Optuna.value (Optuna.trials (Optimizer.study st)) /\
  best_ok (Optimizer.study st).

Section Replay.
Context `{PowerModel}.
Variable plant : PlantConfig.
Variable albedo_data : list (Z * Q).
Variable fetched : MonthlySnow.DataFrame.
Variable weighted_avg_reveal_height : npfloat.

(** The energy a trial at [axis_tilt] records. *)
Definition energy_of (axis_tilt : Q) : Q :=
  match outcome (Optimizer.calculate_total_energy plant albedo_data fetched
                   weighted_avg_reveal_height axis_tilt) with
  | inr total_energy => total_energy
  | inl _ => 0
  end.

(** The study that trials at the given tilts, in that order, build. *)
Definition replay (tilts : list Q) : Optuna.Study :=
  fold_left (fun study axis_tilt =>
               Optuna.tell study
                 {| Optuna.number := Z.of_nat (length (Optuna.trials study));
                    Optuna.axis_tilt := axis_tilt;
                    Optuna.value := energy_of axis_tilt |})
            tilts {| Optuna.trials := []; Optuna.best_trial := None |}.

(** The study and the recorded energies are those of the recorded tilts. *)
Definition replayed `{Optuna.Sampler} (st : Optimizer.state) : Prop :=
  Optimizer.study st = replay (Optimizer.trial_axis_tilts st) /\
  Optimizer.trial_energies st = map energy_of (Optimizer.trial_axis_tilts st).

End Replay.

End Conditions.

(** ** Concrete collaborators used by the examples *)

Module Examples.

(** A stub physics that answers the same power on every sample. *)
Definition constant_power (p : Q) : PowerModel :=
  {| ac_power := fun x => map (fun _ => Some p) (in_times x) |}.

(** A sampler that draws uniformly from a linear congruential generator. *)
Definition lcg_next (s : Z) : Z := (1103515245 * s + 12345) mod 2147483648.

Definition lcg_sampler : Optuna.Sampler :=
  {| Optuna.rng := Z;
     Optuna.seed_rng := fun n => n mod 2147483648;
     Optuna.suggest_float := fun low high _ s =>
       let s' := lcg_next s in
       ((low + (high - low) * (s' # 2147483648))%Q, s') |}.

Definition plant_utc : PlantConfig :=
  {| lat := 35; lon := -106; tz := Tz.UTC; gcr := 4 # 10; max_angle := 60;
     pvrow_width := 2; bifaciality := 7 # 10;
     temp_model_parameters := ∅; cec_module := ∅; cec_inverter := ∅;
     site_name := "site" |}.

Definition plant_mountain : PlantConfig :=
  {| lat := 35; lon := -106; tz := Tz.US_Mountain_2021; gcr := 4 # 10; max_angle := 60;
     pvrow_width := 2; bifaciality := 7 # 10;
     temp_model_parameters := ∅; cec_module := ∅; cec_inverter := ∅;
     site_name := "site" |}.

Definition constant_albedo : list (Z * Q) :=
  map (fun m => (Z.of_nat m, 2 # 10)) (seq 1 12).

Definition pile (id : Z) (description : string) (northing reveal : option Q) : Pvtune.csv_row :=
  {| Pvtune.Tracker_Row_Id := id; Pvtune.Description := description;
     Pvtune.N := northing; Pvtune.Reveal_Height := reveal;
     Pvtune.E := None; Pvtune.Z_Existing_Grade := None |}.

(** A survey of three tracker rows: one external of 78 modules, two
    internal of 104. *)
Definition layout : list Pvtune.csv_row :=
  [ pile 1 "Ext_Array_END" (Some 1000%Q) (Some (41 # 10)%Q);
    pile 1 "Ext_Pile" None (Some (43 # 10)%Q);
    pile 1 "Ext_Array_END" (Some 1260%Q) None;
    pile 2 "Int_Array_END" (Some 2000%Q) (Some 5%Q);
    pile 2 "Int_Array_END" (Some 2390%Q) (Some (49 # 10)%Q);
    pile 3 "Int_Array_END" (Some 2000%Q) (Some 5%Q);
    pile 3 "Int_Array_END" (Some 2390%Q) (Some (49 # 10)%Q) ].

(** The summary and the weighted average of that survey. *)
Definition layout_processed : list Pvtune.summary_row * npfloat :=
  match Pvtune.process_pvtune_output layout with
  | inr processed => processed
  | inl _ => ([], NaN)
  end.

(** A survey of one tracker row of 78 modules in which no reveal height was
    filled in. *)
Definition layout_without_heights : list Pvtune.csv_row :=
  [ pile 1 "Ext_Array_END" (Some 1000%Q) None;
    pile 1 "Ext_Array_END" (Some 1260%Q) None ].

(** Surveys that pandas holds in columns of objects: a tracker row with a
    single array end, and a tracker row whose northing span is that of no
    known row length. *)
Definition layout_single_end : list Pvtune.csv_row :=
  [ pile 1 "Ext_Array_END" (Some 1000%Q) (Some (41 # 10)%Q) ].

Definition layout_odd_span : list Pvtune.csv_row :=
  [ pile 1 "Ext_Array_END" (Some 1000%Q) (Some (41 # 10)%Q);
    pile 1 "Ext_Array_END" (Some 1300%Q) (Some (41 # 10)%Q) ].

(** A fetch with a [snow] column and no daily record. *)
Definition no_snow_records : MonthlySnow.DataFrame :=
  {| MonthlySnow.index := []; MonthlySnow.columns := {[ "snow" := [] ]} |}.

(** A fetch without a [snow] column. *)
Definition no_snow_column : MonthlySnow.DataFrame :=
  {| MonthlySnow.index := [Calendar.Timestamp 2019 1 1];
     MonthlySnow.columns := {[ "tavg" := [MonthlySnow.CFloat 3] ]} |}.

End Examples.

(** ** Further inputs used by the examples *)

Module Samples.

Definition albedo_line (y m : Z) (a : option Q) : MonthlyAlbedo.line :=
  {| MonthlyAlbedo.Year := Some y; MonthlyAlbedo.Month := Some m;
     MonthlyAlbedo.Surface_Albedo := a |}.

(** A folder with the exports of two years and a file that is no CSV. *)
Definition nsrdb_2019 : MonthlyAlbedo.csv_file :=
  {| MonthlyAlbedo.file_name := "site_2019.csv";
     MonthlyAlbedo.lines :=
       [ albedo_line 2019 1 (Some (1 # 10)%Q); albedo_line 2019 1 (Some (3 # 10)%Q);
         albedo_line 2019 2 (Some (2 # 10)%Q); albedo_line 2019 2 None ] |}.

Definition nsrdb_2020 : MonthlyAlbedo.csv_file :=
  {| MonthlyAlbedo.file_name := "site_2020.csv";
     MonthlyAlbedo.lines := [ albedo_line 2020 1 (Some (6 # 10)%Q) ] |}.

Definition notes : MonthlyAlbedo.csv_file :=
  {| MonthlyAlbedo.file_name := "notes.txt"; MonthlyAlbedo.lines := [] |}.

Definition albedo_folder : list MonthlyAlbedo.csv_file := [nsrdb_2019; notes; nsrdb_2020].

(** The table of that folder, as the estimator holds it. *)
Definition albedo_of_folder : list (Z * Q) :=
  match MonthlyAlbedo.calculate_monthly_avg_albedo albedo_folder with
  | inr table => omap (fun line => pair (fst line) <$> snd line) table
  | inl _ => []
  end.

(** Three daily records: 300 mm and a missing depth in January 2019, no
    snow on a day of February. *)
Definition snow_records : MonthlySnow.DataFrame :=
  {| MonthlySnow.index :=
       [Calendar.Timestamp 2019 1 1; Calendar.Timestamp 2019 1 2; Calendar.Timestamp 2019 2 1];
     MonthlySnow.columns :=
       {[ "snow" := [MonthlySnow.CFloat 300; MonthlySnow.CNaN; MonthlySnow.CInt 0] ]} |}.

(** A zone at UTC+3:30 whose clocks go forward by one hour at the local
    midnight of 2021-03-22: that midnight does not exist. *)
Definition midnight_change : Tz.tzinfo :=
  {| Tz.base_offset := 210;
     Tz.transitions := [ (Calendar.Timestamp 2021 3 22 - 210, 270) ] |}.

Definition plant_midnight_change : PlantConfig :=
  {| lat := 35; lon := 51; tz := midnight_change; gcr := 4 # 10; max_angle := 60;
     pvrow_width := 2; bifaciality := 7 # 10;
     temp_model_parameters := ∅; cec_module := ∅; cec_inverter := ∅;
     site_name := "site" |}.

End Samples.

(** * Properties *)

(** ** The logging monad *)

Section Monad.
Context {A B : Type}.

Lemma bind_ret (a : A) (k : A -> M B) : bind (ret a) k = k a.
Proof. unfold bind, ret. destruct (k a) as [log r]. reflexivity. Qed.

Lemma bind_lift_inr (a : A) (k : A -> M B) : bind (lift (inr a)) k = k a.
Proof. apply bind_ret. Qed.

Lemma bind_lift_inl (e : exn) (k : A -> M B) : bind (lift (inl e)) k = ([], inl e).
Proof. reflexivity. Qed.

Lemma runs_bind (m : M A) (k : A -> M B) :
  runs (bind m k) =
  runs m ++ match outcome m with inr a => runs (k a) | inl _ => [] end.
Proof.
  destruct m as [log [e | a]]; unfold bind, runs, outcome; simpl.
  - symmetry. apply app_nil_r.
  - destruct (k a). reflexivity.
Qed.

Lemma outcome_bind (m : M A) (k : A -> M B) :
  outcome (bind m k) =
  match outcome m with inr a => outcome (k a) | inl e => inl e end.
Proof.
  destruct m as [log [e | a]]; unfold bind, outcome; simpl.
  - reflexivity.
  - destruct (k a). reflexivity.
Qed.

Lemma bind_returns (m : M A) (k : A -> M B) log a :
  m = (log, inr a) -> bind m k = (log ++ runs (k a), outcome (k a)).
Proof. intros ->. unfold bind, runs, outcome. destruct (k a). reflexivity. Qed.

End Monad.

(** ** Calendar and zones *)

Section CalendarFacts.

(** From 2019-01-01 to the end of 2021, the years of the weather records and
    of the simulation, the day count and the calendar walk agree. *)
Lemma civil_from_days_walk :
  let first := Calendar.days_from_civil 2019 1 1 in
  map (fun k => Calendar.civil_from_days (first + Z.of_nat k)) (seq 0 1097) =
  fst (fold_left (fun acc _ => (fst acc ++ [snd acc], Calendar.next_day (snd acc)))
                 (seq 0 1097)
                 ([], {| Calendar.year := 2019; Calendar.month := 1; Calendar.day := 1 |})).
Proof. vm_compute. reflexivity. Qed.

Lemma days_from_civil_inverse :
  forallb (fun k =>
             let c := Calendar.civil_from_days k in
             Calendar.days_from_civil (Calendar.year c) (Calendar.month c) (Calendar.day c)
             =? k)
          (map (fun k => Calendar.days_from_civil 2019 1 1 + Z.of_nat k) (seq 0 1097))
  = true.
Proof. vm_compute. reflexivity. Qed.

End CalendarFacts.

Section ZoneFacts.

Lemma tz_localize_fixed off wall : Tz.tz_localize (Tz.fixed off) wall = inr (wall - off).
Proof.
  unfold Tz.tz_localize, Tz.candidates, Tz.offsets, Tz.fixed. simpl.
  rewrite filter_cons_True, filter_nil by (unfold Tz.to_wall, Tz.utcoffset; simpl; lia).
  reflexivity.
Qed.

Lemma date_range_fixed off start :
  Tz.date_range start (start + Calendar.Timedelta_days 1) 20 (Tz.fixed off) =
  inr (map (fun i => start - off + 20 * Z.of_nat i) (seq 0 73)).
Proof.
  unfold Tz.date_range. rewrite !tz_localize_fixed.
  unfold Tz.regular_range, Calendar.Timedelta_days, Calendar.minutes_per_day.
  replace (start + 1 * 1440 - off - (start - off)) with 1440 by lia.
  replace (start - off <=? start + 1 * 1440 - off) with true by (symmetry; apply Z.leb_le; lia).
  reflexivity.
Qed.

Lemma day_localizes_fixed off start : Simulation.day_localizes (Tz.fixed off) start = true.
Proof. unfold Simulation.day_localizes. rewrite date_range_fixed. reflexivity. Qed.

Lemma length_times_of_fixed off start :
  length (Simulation.times_of (Tz.fixed off) start) = 73%nat.
Proof. unfold Simulation.times_of. rewrite date_range_fixed. reflexivity. Qed.

(** In US/Mountain the sampled day 2021-11-07 is the day the clocks go
    back: it lasts 25 hours and has 76 timestamps. *)
Lemma mountain_fall_back_day :
  length (Simulation.times_of Tz.US_Mountain_2021 (Calendar.Timestamp 2021 11 7)) = 76%nat.
Proof. vm_compute. reflexivity. Qed.

Lemma mountain_year_localizes : Conditions.year_localizes Tz.US_Mountain_2021.
Proof. vm_compute. reflexivity. Qed.

End ZoneFacts.

(** ** The year loop *)

Section LoopFacts.
Context `{PowerModel}.
Variable plant : PlantConfig.
Variable albedo_data : list (Z * Q).
Variable adjusted_heights_df : list (Z * npfloat).
Variable height : npfloat.
Variable n_pvrows : Z.
Variable axis_tilt : Q.

Local Abbreviation body := (Simulation.loop_body plant albedo_data adjusted_heights_df height n_pvrows axis_tilt).
Local Abbreviation loop := (Simulation.while_loop plant albedo_data adjusted_heights_df height n_pvrows axis_tilt).
Local Abbreviation inputs := (Simulation.day_inputs plant albedo_data adjusted_heights_df height n_pvrows axis_tilt).
Local Abbreviation run := (Simulation.run_of plant albedo_data adjusted_heights_df height n_pvrows axis_tilt).
Local Abbreviation energy := (Simulation.day_energy plant albedo_data adjusted_heights_df height n_pvrows axis_tilt).

Lemma passes_step start end_date :
  start <= end_date ->
  Simulation.passes start end_date =
  S (Simulation.passes (start + Calendar.Timedelta_days 10) end_date).
Proof.
  intros Hle. unfold Simulation.passes, Calendar.Timedelta_days, Calendar.minutes_per_day.
  replace (start <=? end_date) with true by (symmetry; apply Z.leb_le; lia).
  destruct (Z.leb_spec (start + 10 * 1440) end_date) as [Hnext | Hnext].
  - replace (end_date - start) with ((end_date - (start + 10 * 1440)) + 1 * (10 * 1440)) by lia.
    rewrite Z.div_add by lia.
    assert (0 <= (end_date - (start + 10 * 1440)) / (10 * 1440)) by (apply Z.div_pos; lia).
    lia.
  - rewrite Z.div_small by lia. reflexivity.
Qed.

Lemma passes_done start end_date :
  end_date < start -> Simulation.passes start end_date = O.
Proof.
  intros Hlt. unfold Simulation.passes.
  replace (start <=? end_date) with false by (symmetry; apply Z.leb_gt; lia).
  reflexivity.
Qed.

Lemma passes_pos start end_date n :
  Simulation.passes start end_date = S n -> start <= end_date.
Proof.
  intros Hp. destruct (Z.le_gt_cases start end_date) as [Hle | Hgt]; [exact Hle |].
  rewrite passes_done in Hp by lia. discriminate.
Qed.

Lemma sample_dates_S start n :
  Simulation.sample_dates start (S n) =
  start :: Simulation.sample_dates (start + Calendar.Timedelta_days 10) n.
Proof.
  unfold Simulation.sample_dates. simpl. f_equal; [lia |].
  rewrite <- seq_shift, map_map. apply map_ext. intros i. lia.
Qed.

Lemma length_sample_dates start n : length (Simulation.sample_dates start n) = n.
Proof. unfold Simulation.sample_dates. rewrite length_map. apply length_seq. Qed.

Lemma loop_body_localized st :
  Simulation.day_localizes (tz plant) (Simulation.start_date st) = true ->
  body st =
  ([run (Simulation.start_date st)],
   inr {| Simulation.start_date := Simulation.start_date st + Calendar.Timedelta_days 10;
          Simulation.total_energy_bi :=
            (Simulation.total_energy_bi st + energy (Simulation.start_date st))%Q;
          Simulation.count := Simulation.count st + 1 |}).
Proof.
  unfold Simulation.loop_body, Simulation.date_range_20min, Simulation.day_localizes,
    Simulation.run_of, Simulation.day_energy, Simulation.times_of.
  destruct (Tz.date_range _ _ _ _) as [e | times]; [discriminate |].
  intros _. rewrite bind_ret. reflexivity.
Qed.

Lemma loop_body_not_localized st :
  Simulation.day_localizes (tz plant) (Simulation.start_date st) = false ->
  exists e, body st = ([], inl e).
Proof.
  unfold Simulation.loop_body, Simulation.date_range_20min, Simulation.day_localizes.
  destruct (Tz.date_range _ _ _ _) as [e | times]; [| discriminate].
  intros _. exists (LocalizeError e). reflexivity.
Qed.

(** With enough fuel for its passes, the loop runs them all and leaves
    with its condition false. *)
Lemma while_loop_localized n : forall end_date st,
  Simulation.passes (Simulation.start_date st) end_date = n ->
  Forall (fun d => Simulation.day_localizes (tz plant) d = true)
         (Simulation.sample_dates (Simulation.start_date st) n) ->
  loop n end_date st =
  (map run (Simulation.sample_dates (Simulation.start_date st) n),
   inr {| Simulation.start_date :=
            Simulation.start_date st + Calendar.Timedelta_days 10 * Z.of_nat n;
          Simulation.total_energy_bi :=
            fold_left (fun acc d => (acc + energy d)%Q)
                      (Simulation.sample_dates (Simulation.start_date st) n)
                      (Simulation.total_energy_bi st);
          Simulation.count := Simulation.count st + Z.of_nat n |}).
Proof.
  induction n as [| n IH]; intros end_date st Hp Hloc.
  - destruct st as [s t c]. simpl. unfold ret. rewrite Z.mul_0_r, !Z.add_0_r. reflexivity.
  - pose proof (passes_pos _ _ _ Hp) as Hle.
    rewrite sample_dates_S in Hloc |- *. inversion Hloc as [| ? ? Hd Hrest]; subst.
    simpl.
    replace (Simulation.start_date st <=? end_date) with true
      by (symmetry; apply Z.leb_le; lia).
    rewrite (bind_returns _ _ _ _ (loop_body_localized st Hd)).
    rewrite passes_step in Hp by lia. injection Hp as Hp.
    rewrite IH by (simpl; assumption). simpl.
    unfold runs, outcome. simpl.
    replace (Simulation.start_date st + Calendar.Timedelta_days 10 +
             Calendar.Timedelta_days 10 * Z.of_nat n)
      with (Simulation.start_date st + Calendar.Timedelta_days 10 * Z.of_nat (S n)) by lia.
    replace (Simulation.count st + 1 + Z.of_nat n)
      with (Simulation.count st + Z.of_nat (S n)) by lia.
    reflexivity.
Qed.

Lemma passes_exit n : forall start end_date,
  Simulation.passes start end_date = n ->
  end_date < start + Calendar.Timedelta_days 10 * Z.of_nat n.
Proof.
  induction n as [| n IH]; intros start end_date Hp.
  - destruct (Z.le_gt_cases start end_date) as [Hle | Hgt]; [| lia].
    rewrite passes_step in Hp by lia. discriminate.
  - pose proof (passes_pos _ _ _ Hp) as Hle.
    rewrite passes_step in Hp by lia. injection Hp as Hp.
    specialize (IH _ _ Hp). lia.
Qed.

(** The fuel is enough: the state the loop returns no longer satisfies the
    condition of the [while]. *)
Lemma while_loop_leaves end_date st st' :
  Forall (fun d => Simulation.day_localizes (tz plant) d = true)
         (Simulation.sample_dates (Simulation.start_date st)
            (Simulation.passes (Simulation.start_date st) end_date)) ->
  outcome (loop (Simulation.passes (Simulation.start_date st) end_date) end_date st)
  = inr st' ->
  end_date < Simulation.start_date st'.
Proof.
  intros Hloc. rewrite (while_loop_localized _ end_date st eq_refl Hloc).
  unfold outcome. cbn [snd]. intros [= <-]. cbn [Simulation.start_date].
  apply passes_exit. reflexivity.
Qed.

(** Whatever happens, every logged pass was given [day_inputs] of its own
    start date and timestamps. *)
Lemma while_loop_runs_shape fuel : forall end_date st,
  Forall (fun r => run_inputs r = inputs (run_start r) (in_times (run_inputs r)))
         (runs (loop fuel end_date st)).
Proof.
  induction fuel as [| fuel IH]; intros end_date st; simpl.
  - constructor.
  - destruct (Simulation.start_date st <=? end_date); [| constructor].
    rewrite runs_bind. apply Forall_app. split.
    + unfold Simulation.loop_body, Simulation.date_range_20min.
      destruct (Tz.date_range _ _ _ _) as [e | times]; [constructor |].
      rewrite bind_ret. rewrite runs_bind. simpl. repeat constructor.
    + destruct (outcome _) as [e | st']; [constructor | apply IH].
Qed.

Lemma fold_energy_sum (f : Z -> Q) dates acc :
  fold_left (fun acc d => (acc + f d)%Q) dates acc = fold_left Qplus (map f dates) acc.
Proof. revert acc. induction dates as [| d dates IH]; intros acc; simpl; [reflexivity | apply IH]. Qed.

Lemma Qzero_inject_Z z : Qzero (inject_Z z) = (z =? 0).
Proof. reflexivity. Qed.

(** The whole estimate when every pass localizes: the passes, then the
    scaling by [365 / count]. *)
Lemma simulate_year_localized start end_date n :
  Simulation.passes start end_date = S n ->
  Forall (fun d => Simulation.day_localizes (tz plant) d = true)
         (Simulation.sample_dates start (S n)) ->
  Simulation.simulate_year plant albedo_data adjusted_heights_df height n_pvrows axis_tilt
    start end_date =
  (map run (Simulation.sample_dates start (S n)),
   inr (sum_Q (map energy (Simulation.sample_dates start (S n)))
        * (365 / inject_Z (Z.of_nat (S n))))%Q).
Proof.
  intros Hp Hloc. unfold Simulation.simulate_year. rewrite Hp.
  rewrite (bind_returns _ _ _ _
             (while_loop_localized (S n) end_date
                {| Simulation.start_date := start; Simulation.total_energy_bi := 0;
                   Simulation.count := 0 |} Hp Hloc)).
  cbn [Simulation.count Simulation.total_energy_bi Simulation.start_date].
  unfold py_truediv. rewrite Qzero_inject_Z.
  replace (0 + Z.of_nat (S n) =? 0) with false by (symmetry; apply Z.eqb_neq; lia).
  rewrite bind_lift_inr. unfold ret, runs, outcome. cbn [fst snd].
  rewrite app_nil_r, fold_energy_sum. rewrite Z.add_0_l. reflexivity.
Qed.

Lemma simulate_year_no_pass start end_date :
  Simulation.passes start end_date = O ->
  Simulation.simulate_year plant albedo_data adjusted_heights_df height n_pvrows axis_tilt
    start end_date = ([], inl ZeroDivisionError).
Proof. intros Hp. unfold Simulation.simulate_year. rewrite Hp. reflexivity. Qed.

Lemma simulate_year_runs_shape start end_date :
  Forall (fun r => run_inputs r = inputs (run_start r) (in_times (run_inputs r)))
         (runs (Simulation.simulate_year plant albedo_data adjusted_heights_df height
                  n_pvrows axis_tilt start end_date)).
Proof.
  unfold Simulation.simulate_year. rewrite runs_bind. apply Forall_app. split.
  - apply while_loop_runs_shape.
  - destruct (outcome _) as [e | st]; [constructor |].
    rewrite runs_bind. simpl. destruct (py_truediv _ _); constructor.
Qed.

End LoopFacts.

(** ** Sums of rationals *)

Section Sums.

Lemma fold_left_Qplus_acc xs : forall a, (fold_left Qplus xs a == a + sum_Q xs)%Q.
Proof.
  unfold sum_Q. induction xs as [| x xs IH]; intros a; simpl.
  - ring.
  - rewrite IH, (IH (0 + x)%Q). ring.
Qed.

Lemma sum_Q_cons x xs : (sum_Q (x :: xs) == x + sum_Q xs)%Q.
Proof. unfold sum_Q at 1. simpl. rewrite fold_left_Qplus_acc. ring. Qed.

Lemma sum_Q_constant e xs :
  Forall (fun x => (x == e)%Q) xs ->
  (sum_Q xs == e * inject_Z (Z.of_nat (length xs)))%Q.
Proof.
  induction 1 as [| x xs Hx Hxs IH].
  - unfold sum_Q. simpl. ring.
  - rewrite sum_Q_cons, IH, Hx. cbn [length]. rewrite Nat2Z.inj_succ.
    unfold Z.succ. rewrite inject_Z_plus. ring.
Qed.

Lemma series_sum_acc xs : forall a,
  (fold_left (fun acc x => acc + default 0 x) xs a ==
   a + fold_left (fun acc x => acc + default 0 x) xs 0)%Q.
Proof.
  induction xs as [| x xs IH]; intros a; simpl.
  - ring.
  - rewrite IH, (IH (0 + default 0 x)%Q). ring.
Qed.

Lemma series_sum_constant {T} p (ts : list T) :
  (series_sum (map (fun _ => Some p) ts) == p * inject_Z (Z.of_nat (length ts)))%Q.
Proof.
  unfold series_sum. induction ts as [| t ts IH]; simpl fold_left.
  - simpl. ring.
  - rewrite series_sum_acc, IH. cbn [length default]. rewrite Nat2Z.inj_succ.
    unfold Z.succ. rewrite inject_Z_plus. simpl. ring.
Qed.

(** Scaling a sum of [k] equal terms by [365 / k]. *)
Lemma scale_constant e (k : nat) total :
  (0 < k)%nat ->
  (total == e * inject_Z (Z.of_nat k))%Q ->
  (total * (365 / inject_Z (Z.of_nat k)) == e * 365)%Q.
Proof.
  intros Hk ->. field.
  intros Hz. unfold Qeq in Hz. simpl in Hz. lia.
Qed.

End Sums.

(** ** SnowHeight/monthly_snow.py *)

Section SnowFacts.
Import MonthlySnow.

Lemma snow_missing fetched row_height :
  columns fetched !! "snow" = None ->
  calculate_new_row_height fetched row_height = inl (KeyError "snow").
Proof.
  intros Hnone. unfold calculate_new_row_height. cbn [columns index].
  rewrite lookup_insert_ne by discriminate. rewrite Hnone. reflexivity.
Qed.

Lemma snow_present fetched row_height snow :
  columns fetched !! "snow" = Some snow ->
  exists average_snowfall,
    calculate_new_row_height fetched row_height =
    inr {| printed := [];
           frame := map (fun r => (fst r, np_sub row_height (snd r))) average_snowfall |}.
Proof.
  intros Hsome. unfold calculate_new_row_height. cbn [columns index].
  rewrite lookup_insert_ne by discriminate. rewrite Hsome.
  rewrite bool_decide_eq_true_2 by (apply elem_of_dom; rewrite lookup_insert_eq; eauto).
  rewrite lookup_insert_ne by discriminate. rewrite !lookup_insert_eq.
  eexists. reflexivity.
Qed.

Lemma has_snow_returns fetched row_height :
  Conditions.has_snow fetched ->
  calculate_new_row_height fetched row_height =
  inr {| printed := []; frame := Conditions.adjusted_heights fetched row_height |}.
Proof.
  intros [snow Hsnow]. unfold Conditions.adjusted_heights.
  destruct (snow_present fetched row_height snow Hsnow) as [heights ->]. reflexivity.
Qed.

(** C10. The [snow] column is read before the guard that asks whether it
    exists: a fetch without that column raises [KeyError], and no call ever
    takes the branch that prints "No 'snow' data found." *)
Theorem snow_guard_unreachable fetched row_height :
  (columns fetched !! "snow" = None ->
   calculate_new_row_height fetched row_height = inl (KeyError "snow")) /\
  (forall r, calculate_new_row_height fetched row_height = inr r -> printed r = []).
Proof.
  split; [apply snow_missing |].
  intros r Hr. destruct (columns fetched !! "snow") as [snow |] eqn:Hsnow.
  - destruct (snow_present fetched row_height snow Hsnow) as [heights Hret].
    rewrite Hret in Hr. injection Hr as <-. reflexivity.
  - rewrite snow_missing in Hr by assumption. discriminate.
Qed.

Lemma snow_guard_unreachable_witness :
  columns Examples.no_snow_column !! "snow" = None /\
  calculate_new_row_height Examples.no_snow_column (Finite 2) = inl (KeyError "snow").
Proof.
  split; [reflexivity |].
  apply (proj1 (snow_guard_unreachable Examples.no_snow_column (Finite 2))). reflexivity.
Defined.

End SnowFacts.

(** ** basic_predictor.py *)

Section EstimatorFacts.
Context `{PowerModel}.
Import Conditions.

Lemma passes_2021 :
  Simulation.passes (Calendar.Timestamp 2021 1 1) (Calendar.Timestamp 2021 12 31) = 37%nat.
Proof. reflexivity. Qed.

Lemma year_localizes_Forall zone :
  year_localizes zone ->
  Forall (fun d => Simulation.day_localizes zone d = true) sampled_2021.
Proof.
  unfold year_localizes. rewrite forallb_forall. intros Hall.
  apply List.Forall_forall. exact Hall.
Qed.

Lemma year_localizes_fixed off : year_localizes (Tz.fixed off).
Proof.
  unfold year_localizes. apply forallb_forall. intros d _. apply day_localizes_fixed.
Qed.

Lemma n_pvrows_of_Some c rows :
  n_pvrows_of c = Some rows ->
  (if String.eqb c "Ext" then ret 2
   else if String.eqb c "Int" then ret 3
   else raise invalid_class_error) = ret rows.
Proof.
  unfold n_pvrows_of. destruct (String.eqb c "Ext"); [congruence |].
  destruct (String.eqb c "Int"); congruence.
Qed.

Lemma n_pvrows_of_None c :
  n_pvrows_of c = None ->
  (if String.eqb c "Ext" then ret 2
   else if String.eqb c "Int" then ret 3
   else raise invalid_class_error) = raise invalid_class_error.
Proof.
  unfold n_pvrows_of. destruct (String.eqb c "Ext"); [discriminate |].
  destruct (String.eqb c "Int"); [discriminate | reflexivity].
Qed.

(** What the estimator does when nothing raises. *)
Lemma calculate_total_energy_returns height ext_or_int rows opt_tilt albedo_data plant fetched :
  n_pvrows_of ext_or_int = Some rows ->
  has_snow fetched ->
  year_localizes (tz plant) ->
  BasicPredictor.calculate_total_energy height ext_or_int opt_tilt albedo_data plant fetched =
  (map (Simulation.run_of plant albedo_data (adjusted_heights fetched height) height rows
          opt_tilt) sampled_2021,
   inr (sum_Q (map (Simulation.day_energy plant albedo_data (adjusted_heights fetched height)
                      height rows opt_tilt) sampled_2021)
        * (365 / 37))%Q).
Proof.
  intros Hclass Hsnow Hzone. unfold BasicPredictor.calculate_total_energy.
  fold invalid_class_error. rewrite (n_pvrows_of_Some _ _ Hclass), bind_ret.
  rewrite (has_snow_returns _ _ Hsnow), bind_lift_inr. cbn [MonthlySnow.frame].
  apply (simulate_year_localized _ _ _ _ _ _ _ _ 36 passes_2021).
  apply year_localizes_Forall, Hzone.
Qed.

Lemma calculate_total_energy_invalid height ext_or_int opt_tilt albedo_data plant fetched :
  n_pvrows_of ext_or_int = None ->
  BasicPredictor.calculate_total_energy height ext_or_int opt_tilt albedo_data plant fetched =
  ([], inl invalid_class_error).
Proof.
  intros Hclass. unfold BasicPredictor.calculate_total_energy.
  fold invalid_class_error. rewrite (n_pvrows_of_None _ Hclass). reflexivity.
Qed.

(** Every pass the estimator logs, whether or not it later raises, was
    given [day_inputs] for the row count of its array class. *)
Lemma calculate_total_energy_runs_shape height ext_or_int opt_tilt albedo_data plant fetched :
  Forall (fun r => exists rows,
              n_pvrows_of ext_or_int = Some rows /\
              run_inputs r =
              Simulation.day_inputs plant albedo_data (adjusted_heights fetched height)
                height rows opt_tilt (run_start r) (in_times (run_inputs r)))
         (runs (BasicPredictor.calculate_total_energy height ext_or_int opt_tilt albedo_data
                  plant fetched)).
Proof.
  destruct (n_pvrows_of ext_or_int) as [rows |] eqn:Hclass.
  - unfold BasicPredictor.calculate_total_energy.
    fold invalid_class_error. rewrite (n_pvrows_of_Some _ _ Hclass), bind_ret.
    unfold adjusted_heights.
    destruct (MonthlySnow.calculate_new_row_height fetched height) as [e | r];
      [constructor |].
    rewrite bind_lift_inr.
    eapply Forall_impl; [apply simulate_year_runs_shape |].
    intros r' Hr'. exists rows. split; [reflexivity | exact Hr'].
  - rewrite calculate_total_energy_invalid by assumption. constructor.
Qed.

Lemma runs_energy plant albedo_data heights height rows tilt dates :
  map (fun r => (series_sum (ac_power (run_inputs r)) / 3000)%Q)
      (map (Simulation.run_of plant albedo_data heights height rows tilt) dates) =
  map (Simulation.day_energy plant albedo_data heights height rows tilt) dates.
Proof. rewrite map_map. reflexivity. Qed.

(** C1. For the hard-coded year 2021 the loop starts at January 1, moves
    on by 10 days while the start date is at most December 31, and so
    simulates exactly 37 days, January 1, January 11, ..., December 27;
    the sum of their energies is scaled by 365/37. *)
Theorem annual_loop_2021 height ext_or_int rows opt_tilt albedo_data plant fetched :
  n_pvrows_of ext_or_int = Some rows ->
  has_snow fetched ->
  year_localizes (tz plant) ->
  let result :=
    BasicPredictor.calculate_total_energy height ext_or_int opt_tilt albedo_data plant fetched in
  length (runs result) = 37%nat /\
  map (fun r => Calendar.ymd (run_start r)) (runs result) =
    [
     (2021, 1, 1); (2021, 1, 11); (2021, 1, 21); (2021, 1, 31); (2021, 2, 10);
     (2021, 2, 20); (2021, 3, 2); (2021, 3, 12); (2021, 3, 22); (2021, 4, 1);
     (2021, 4, 11); (2021, 4, 21); (2021, 5, 1); (2021, 5, 11); (2021, 5, 21);
     (2021, 5, 31); (2021, 6, 10); (2021, 6, 20); (2021, 6, 30); (2021, 7, 10);
     (2021, 7, 20); (2021, 7, 30); (2021, 8, 9); (2021, 8, 19); (2021, 8, 29);
     (2021, 9, 8); (2021, 9, 18); (2021, 9, 28); (2021, 10, 8); (2021, 10, 18);
     (2021, 10, 28); (2021, 11, 7); (2021, 11, 17); (2021, 11, 27); (2021, 12, 7);
     (2021, 12, 17); (2021, 12, 27)
    ] /\
  Forall (fun r => run_start r <= Calendar.Timestamp 2021 12 31) (runs result) /\
  Calendar.Timestamp 2021 12 31 < Calendar.Timestamp 2021 12 27 + Calendar.Timedelta_days 10 /\
  outcome result =
    inr (sum_Q (map (fun r => series_sum (ac_power (run_inputs r)) / 3000) (runs result))
         * (365 / 37))%Q.
Proof.
  intros Hclass Hsnow Hzone result. subst result.
  rewrite (calculate_total_energy_returns _ _ _ _ _ _ _ Hclass Hsnow Hzone).
  unfold runs, outcome. cbn [fst snd].
  rewrite runs_energy, map_map, Forall_fmap. cbn [run_start Simulation.run_of].
  split; [rewrite length_map; reflexivity |]. split; [reflexivity |].
  split; [| split; reflexivity].
  apply Forall_forall. intros d Hd. unfold compose. cbn [run_start].
  unfold sampled_2021, Simulation.sample_dates in Hd.
  apply list_elem_of_fmap in Hd as [i [-> Hi]]. apply elem_of_seq in Hi.
  unfold Calendar.Timestamp, Calendar.Timedelta_days, Calendar.minutes_per_day.
  change (Calendar.days_from_civil 2021 1 1) with 18628.
  change (Calendar.days_from_civil 2021 12 31) with 18992.
  cbn [run_start Simulation.run_of]. lia.
Qed.

(** Between any two dates, the estimate of the loop is the sum of the
    energies of the sampled days times 365 over their number; when every
    sampled day yields the same energy [e], it is [e * 365] however many
    days were sampled. *)
Lemma simulate_year_scaling plant albedo_data heights height rows tilt start end_date :
  start <= end_date ->
  Forall (fun d => Simulation.day_localizes (tz plant) d = true)
         (Simulation.sample_dates start (Simulation.passes start end_date)) ->
  let result :=
    Simulation.simulate_year plant albedo_data heights height rows tilt start end_date in
  let energies := map (fun r => series_sum (ac_power (run_inputs r)) / 3000)%Q (runs result) in
  exists estimate,
    outcome result = inr estimate /\
    estimate = (sum_Q energies * (365 / inject_Z (Z.of_nat (length energies))))%Q /\
    forall e, Forall (fun x => x == e)%Q energies -> (estimate == e * 365)%Q.
Proof.
  intros Hle Hloc result energies. subst energies result.
  destruct (Simulation.passes start end_date) as [| n] eqn:Hp.
  { rewrite passes_step in Hp by lia. discriminate. }
  rewrite (simulate_year_localized _ _ _ _ _ _ _ _ n Hp Hloc).
  unfold runs, outcome. cbn [fst snd]. rewrite runs_energy.
  eexists. split; [reflexivity |].
  rewrite length_map, length_sample_dates. split; [reflexivity |].
  intros e He. apply scale_constant; [lia |].
  rewrite (sum_Q_constant e _ He), length_map, length_sample_dates. reflexivity.
Qed.

(** What the estimator runs once the array class is read and the heights
    are fetched: the loop of the year 2021. *)
Lemma calculate_total_energy_is_loop height ext_or_int rows opt_tilt albedo_data plant fetched :
  n_pvrows_of ext_or_int = Some rows ->
  has_snow fetched ->
  BasicPredictor.calculate_total_energy height ext_or_int opt_tilt albedo_data plant fetched =
  Simulation.simulate_year plant albedo_data (adjusted_heights fetched height) height rows
    opt_tilt (Calendar.Timestamp 2021 1 1) (Calendar.Timestamp 2021 12 31).
Proof.
  intros Hclass Hsnow. unfold BasicPredictor.calculate_total_energy.
  fold invalid_class_error. rewrite (n_pvrows_of_Some _ _ Hclass), bind_ret.
  rewrite (has_snow_returns _ _ Hsnow), bind_lift_inr. reflexivity.
Qed.

(** C2. The estimate the estimator returns is the sum of the energies of
    the days it sampled times 365 over their number, and [e * 365] when every
    sampled day yields the same energy [e].  The estimator is its loop run
    over the year 2021, and that loop scales the same way between any two
    dates, whatever number of days they make it sample. *)
Theorem annual_estimate_scaling height ext_or_int rows opt_tilt albedo_data plant fetched :
  n_pvrows_of ext_or_int = Some rows ->
  has_snow fetched ->
  year_localizes (tz plant) ->
  let result :=
    BasicPredictor.calculate_total_energy height ext_or_int opt_tilt albedo_data plant fetched in
  let energies := map (fun r => series_sum (ac_power (run_inputs r)) / 3000)%Q (runs result) in
  (exists estimate,
      outcome result = inr estimate /\
      estimate = (sum_Q energies * (365 / inject_Z (Z.of_nat (length energies))))%Q /\
      forall e, Forall (fun x => x == e)%Q energies -> (estimate == e * 365)%Q) /\
  result =
    Simulation.simulate_year plant albedo_data (adjusted_heights fetched height) height rows
      opt_tilt (Calendar.Timestamp 2021 1 1) (Calendar.Timestamp 2021 12 31) /\
  (forall start end_date,
      start <= end_date ->
      Forall (fun d => Simulation.day_localizes (tz plant) d = true)
             (Simulation.sample_dates start (Simulation.passes start end_date)) ->
      let sampled :=
        Simulation.simulate_year plant albedo_data (adjusted_heights fetched height) height
          rows opt_tilt start end_date in
      let day_energies :=
        map (fun r => series_sum (ac_power (run_inputs r)) / 3000)%Q (runs sampled) in
      length (runs sampled) = Simulation.passes start end_date /\
      exists estimate,
        outcome sampled = inr estimate /\
        estimate =
          (sum_Q day_energies * (365 / inject_Z (Z.of_nat (length day_energies))))%Q /\
        forall e, Forall (fun x => x == e)%Q day_energies -> (estimate == e * 365)%Q).
Proof.
  intros Hclass Hsnow Hzone result energies. subst energies result.
  rewrite (calculate_total_energy_is_loop _ _ _ _ _ _ _ Hclass Hsnow).
  split; [| split; [reflexivity |]].
  - apply simulate_year_scaling; [vm_compute; discriminate |].
    rewrite passes_2021. apply year_localizes_Forall, Hzone.
  - intros start end_date Hle Hloc sampled day_energies. subst day_energies sampled. split.
    + destruct (Simulation.passes start end_date) as [| n] eqn:Hp.
      { rewrite passes_step in Hp by lia. discriminate. }
      rewrite (simulate_year_localized _ _ _ _ _ _ _ _ n Hp Hloc).
      unfold runs. cbn [fst]. rewrite length_map. apply length_sample_dates.
    + apply simulate_year_scaling; assumption.
Qed.

End EstimatorFacts.

Section DefaultsFacts.
Context `{PowerModel}.
Import Conditions.

Lemma filter_fst_absent {V} (rows : list (Z * V)) (k : Z) :
  k ∉ map fst rows -> filter (fun r => fst r = k) rows = [].
Proof.
  induction rows as [| r rows IH]; intros Hk; [reflexivity |].
  cbn [map] in Hk. apply not_elem_of_cons in Hk as [Hne Hrest].
  rewrite filter_cons_False by congruence. apply IH, Hrest.
Qed.

Lemma get_albedo_default albedo_data zone date :
  Tz.month_of zone date ∉ map fst albedo_data ->
  Simulation.get_albedo albedo_data zone date = (2 # 10)%Q.
Proof.
  intros Hk. unfold Simulation.get_albedo. rewrite filter_fst_absent by assumption.
  reflexivity.
Qed.

Lemma get_adjusted_row_height_default heights height date :
  Calendar.month (Calendar.date_of date) ∉ map fst heights ->
  Simulation.get_adjusted_row_height heights height date = height.
Proof.
  intros Hk. unfold Simulation.get_adjusted_row_height.
  rewrite filter_fst_absent by assumption. reflexivity.
Qed.

(** C7. In every simulated day, a timestamp whose month has no line in the
    albedo profile gets the albedo 0.2, and a start date whose month has no
    line in the row-height profile gets the nominal height; the day is
    simulated all the same, and the estimator returns. *)
Theorem missing_month_defaults height ext_or_int opt_tilt albedo_data plant fetched :
  let result :=
    BasicPredictor.calculate_total_energy height ext_or_int opt_tilt albedo_data plant fetched in
  (forall r i t,
      r ∈ runs result ->
      in_times (run_inputs r) !! i = Some t ->
      Tz.month_of (tz plant) t ∉ map fst albedo_data ->
      in_albedo (run_inputs r) !! i = Some (2 # 10)%Q) /\
  (forall r,
      r ∈ runs result ->
      Calendar.month (Calendar.date_of (run_start r)) ∉ map fst (adjusted_heights fetched height) ->
      in_pvrow_height (run_inputs r) = height) /\
  (forall rows,
      n_pvrows_of ext_or_int = Some rows -> has_snow fetched -> year_localizes (tz plant) ->
      length (runs result) = 37%nat /\ exists estimate, outcome result = inr estimate).
Proof.
  intros result.
  pose proof (calculate_total_energy_runs_shape height ext_or_int opt_tilt albedo_data
                plant fetched) as Hshape.
  rewrite Forall_forall in Hshape. fold result in Hshape.
  split; [| split].
  - intros r i t Hr Ht Hmonth. destruct (Hshape r Hr) as [rows [_ Hin]].
    rewrite Hin. cbn [in_albedo Simulation.day_inputs].
    rewrite list_lookup_fmap, Ht. cbn [fmap option_fmap option_map].
    rewrite get_albedo_default by assumption. reflexivity.
  - intros r Hr Hmonth. destruct (Hshape r Hr) as [rows [_ Hin]].
    rewrite Hin. cbn [in_pvrow_height Simulation.day_inputs].
    apply get_adjusted_row_height_default, Hmonth.
  - intros rows Hclass Hsnow Hzone. subst result.
    rewrite (calculate_total_energy_returns _ _ _ _ _ _ _ Hclass Hsnow Hzone).
    unfold runs, outcome. cbn [fst snd]. rewrite length_map. split; [reflexivity | eauto].
Qed.

End DefaultsFacts.

Section ConstantPowerFacts.
Import Conditions Examples.

(** C3, as amended. In a zone of constant UTC offset, each sampled day has
    the 73 timestamps from its midnight to the next midnight, both
    included, at 20-minute steps; with a physics that answers the constant
    power [p] on every sample the estimate is [(p * 73 / 3000) * 365]. *)
Theorem constant_power_estimate p off height ext_or_int rows opt_tilt albedo_data plant fetched :
  tz plant = Tz.fixed off ->
  n_pvrows_of ext_or_int = Some rows ->
  has_snow fetched ->
  let result :=
    @BasicPredictor.calculate_total_energy (constant_power p) height ext_or_int opt_tilt
      albedo_data plant fetched in
  length (runs result) = 37%nat /\
  Forall (fun r => length (in_times (run_inputs r)) = 73%nat) (runs result) /\
  exists estimate,
    outcome result = inr estimate /\
    estimate =
      (sum_Q (map (fun r => series_sum (@ac_power (constant_power p) (run_inputs r)) / 3000)
                  (runs result))
       * (365 / 37))%Q /\
    (estimate == (p * 73 / 3000) * 365)%Q.
Proof.
  intros Hzone Hclass Hsnow result. subst result.
  assert (Hloc : year_localizes (tz plant)) by (rewrite Hzone; apply year_localizes_fixed).
  rewrite (@calculate_total_energy_returns (constant_power p) _ _ _ _ _ _ _ Hclass Hsnow Hloc).
  unfold runs, outcome. cbn [fst snd]. split; [| split].
  - rewrite length_map. reflexivity.
  - rewrite Forall_fmap. apply Forall_forall. intros d _.
    cbn. rewrite Hzone. apply length_times_of_fixed.
  - eexists. split; [reflexivity |].
    split; [rewrite (@runs_energy (constant_power p)); reflexivity |].
    apply (scale_constant _ 37); [lia |].
    rewrite (sum_Q_constant (p * 73 / 3000)%Q).
    + rewrite length_map. reflexivity.
    + rewrite Forall_fmap. apply Forall_forall. intros d _.
      unfold Simulation.day_energy. cbn [ac_power constant_power in_times Simulation.day_inputs].
      unfold compose. cbn beta. rewrite series_sum_constant, Hzone, length_times_of_fixed.
      reflexivity.
Qed.

End ConstantPowerFacts.

Section EstimatorWitnesses.
Import Conditions Examples.

Lemma has_snow_no_snow_records : has_snow no_snow_records.
Proof. eexists. vm_compute. reflexivity. Qed.

Lemma annual_loop_2021_witness :
  length (runs (@BasicPredictor.calculate_total_energy (constant_power 1)
                  (Finite (3 # 2)) "Ext" 30 constant_albedo plant_utc no_snow_records))
  = 37%nat.
Proof.
  apply (@annual_loop_2021 (constant_power 1) (Finite (3 # 2)) "Ext" 2 30
           constant_albedo plant_utc no_snow_records).
  - reflexivity.
  - eexists. vm_compute. reflexivity.
  - vm_compute. reflexivity.
Defined.

Lemma annual_estimate_scaling_witness :
  exists estimate,
    outcome (@BasicPredictor.calculate_total_energy (constant_power 1)
               (Finite (3 # 2)) "Ext" 30 constant_albedo plant_utc
               no_snow_records) = inr estimate.
Proof.
  destruct (@annual_estimate_scaling (constant_power 1) (Finite (3 # 2)) "Ext" 2 30
              constant_albedo plant_utc no_snow_records)
    as [(estimate & Hret & _) _].
  - reflexivity.
  - eexists. vm_compute. reflexivity.
  - vm_compute. reflexivity.
  - exists estimate. exact Hret.
Defined.

Lemma constant_power_estimate_witness :
  exists estimate,
    outcome (@BasicPredictor.calculate_total_energy (constant_power 1)
               (Finite (3 # 2)) "Ext" 30 constant_albedo plant_utc no_snow_records)
    = inr estimate /\ (estimate == (1 * 73 / 3000) * 365)%Q.
Proof.
  destruct (constant_power_estimate 1 0 (Finite (3 # 2)) "Ext" 2 30 constant_albedo plant_utc
              no_snow_records) as (_ & _ & estimate & Hret & _ & Hval).
  - reflexivity.
  - reflexivity.
  - eexists. vm_compute. reflexivity.
  - exists estimate. split; [exact Hret | exact Hval].
Defined.

(** C3, as stated, fails: in UTC each of the 37 days has 73 samples, not
    72, and the constant 1 gives 73 * 365 / 3000, not 72 * 365 / 3000. *)
Lemma constant_power_72_counterexample :
  let result :=
    @BasicPredictor.calculate_total_energy (constant_power 1)
      (Finite (3 # 2)) "Ext" 30 constant_albedo plant_utc no_snow_records in
  (~ Forall (fun r => length (in_times (run_inputs r)) = 72%nat) (runs result)) /\
  (~ exists estimate,
        outcome result = inr estimate /\ (estimate == (1 * 72 / 3000) * 365)%Q).
Proof.
  intros result.
  pose proof (@calculate_total_energy_returns (constant_power 1) (Finite (3 # 2)) "Ext" 2 30
                constant_albedo plant_utc no_snow_records eq_refl
                has_snow_no_snow_records (year_localizes_fixed 0)) as Hret.
  subst result. rewrite Hret. unfold runs, outcome. cbn [fst snd]. split.
  - unfold sampled_2021. rewrite sample_dates_S. cbn [map]. intros Hall.
    apply Forall_cons_1 in Hall as [Hfirst _]. vm_compute in Hfirst. discriminate.
  - intros [estimate [Hval Heq]]. injection Hval as <-.
    vm_compute in Heq. discriminate.
Qed.

(** The same stub in US/Mountain: 36 days of 73 samples and one of 76. *)
Lemma constant_power_mountain :
  exists estimate,
    outcome (@BasicPredictor.calculate_total_energy (constant_power 1)
               (Finite (3 # 2)) "Ext" 30 constant_albedo plant_mountain no_snow_records)
    = inr estimate /\ (estimate == (2704 / 3000) * (365 / 37))%Q.
Proof.
  eexists. split; [vm_compute; reflexivity |]. vm_compute. reflexivity.
Qed.

Lemma missing_month_defaults_witness :
  let r := Simulation.run_of plant_utc [] [] (Finite (3 # 2)) 2 30
             (Calendar.Timestamp 2021 1 1) in
  in_albedo (run_inputs r) !! 0%nat = Some (2 # 10)%Q /\
  in_pvrow_height (run_inputs r) = Finite (3 # 2).
Proof.
  intros r.
  destruct (@missing_month_defaults (constant_power 1) (Finite (3 # 2)) "Ext" 30 []
              plant_utc no_snow_records) as [Halbedo [Hheight _]].
  assert (Hr : r ∈ runs (@BasicPredictor.calculate_total_energy (constant_power 1)
                            (Finite (3 # 2)) "Ext" 30 [] plant_utc no_snow_records)).
  { vm_compute. constructor. }
  split.
  - apply (Halbedo r 0%nat (Calendar.Timestamp 2021 1 1) Hr).
    + vm_compute. reflexivity.
    + vm_compute. apply not_elem_of_nil.
  - apply (Hheight r Hr). vm_compute. apply not_elem_of_nil.
Defined.

End EstimatorWitnesses.

(** ** optimizer.py *)

Section StudyFacts.
Import Optuna Conditions.

Lemma Qlt_bool_true a b : Optuna.Qlt_bool a b = true <-> (a < b)%Q.
Proof.
  unfold Optuna.Qlt_bool. rewrite negb_true_iff. split.
  - intros Hb. apply Qnot_le_lt. intros Hle. apply Qle_bool_iff in Hle. congruence.
  - intros Hlt. destruct (Qle_bool b a) eqn:Hb; [| reflexivity].
    apply Qle_bool_iff in Hb. exfalso. exact (Qlt_not_le _ _ Hlt Hb).
Qed.

Lemma Qlt_bool_false a b : Optuna.Qlt_bool a b = false <-> (b <= a)%Q.
Proof.
  unfold Optuna.Qlt_bool. rewrite negb_false_iff. apply Qle_bool_iff.
Qed.

(** Recording a trial keeps the best trial the first maximum. *)
Lemma tell_best_ok study t : best_ok study -> best_ok (tell study t).
Proof.
  unfold best_ok, tell. cbn [best_trial trials].
  destruct (best_trial study) as [b |].
  - intros [i (Hi & Hmax & Hfirst)].
    pose proof (lookup_lt_Some _ _ _ Hi) as Hlen.
    destruct (Optuna.Qlt_bool (value b) (value t)) eqn:Hcmp.
    + apply Qlt_bool_true in Hcmp. exists (length (trials study)). split; [| split].
      * rewrite lookup_app_r by lia. rewrite Nat.sub_diag. reflexivity.
      * intros t' Ht'. apply elem_of_app in Ht' as [Ht' | Ht'].
        -- apply Qlt_le_weak. eapply Qle_lt_trans; [apply Hmax, Ht' | exact Hcmp].
        -- apply list_elem_of_singleton in Ht'. subst t'. apply Qle_refl.
      * intros j t' Hj Hlook. rewrite lookup_app_l in Hlook by lia.
        eapply Qle_lt_trans; [| exact Hcmp].
        apply Hmax. eapply list_elem_of_lookup_2, Hlook.
    + apply Qlt_bool_false in Hcmp. exists i. split; [| split].
      * rewrite lookup_app_l by lia. exact Hi.
      * intros t' Ht'. apply elem_of_app in Ht' as [Ht' | Ht'].
        -- apply Hmax, Ht'.
        -- apply list_elem_of_singleton in Ht'. subst t'. exact Hcmp.
      * intros j t' Hj Hlook. rewrite lookup_app_l in Hlook by lia.
        eapply Hfirst; eassumption.
  - intros ->. exists 0%nat. split; [| split].
    + reflexivity.
    + intros t' Ht'. apply list_elem_of_singleton in Ht'. subst t'. apply Qle_refl.
    + intros j t' Hj. lia.
Qed.

End StudyFacts.

Section OptimizerFacts.
Context `{PowerModel} `{Optuna.Sampler}.
Import Optuna Conditions.
Variable plant : PlantConfig.
Variable albedo_data : list (Z * Q).
Variable fetched : MonthlySnow.DataFrame.
Variable weighted_avg_reveal_height : npfloat.

Local Abbreviation trial_energy :=
  (Optimizer.calculate_total_energy plant albedo_data fetched weighted_avg_reveal_height).
Local Abbreviation trial := (Optimizer.run_trial plant albedo_data fetched weighted_avg_reveal_height).
Local Abbreviation study_loop :=
  (Optimizer.optimize plant albedo_data fetched weighted_avg_reveal_height).
Local Abbreviation heights := (adjusted_heights fetched weighted_avg_reveal_height).

(** Every pass a trial logs was given three rows, the trial's tilt and the
    weighted average height as fallback. *)
Lemma trial_energy_runs_shape axis_tilt :
  Forall (fun r => run_inputs r =
                   Simulation.day_inputs plant albedo_data heights weighted_avg_reveal_height
                     3 axis_tilt (run_start r) (in_times (run_inputs r)))
         (runs (trial_energy axis_tilt)).
Proof.
  unfold Optimizer.calculate_total_energy, adjusted_heights.
  destruct (MonthlySnow.calculate_new_row_height fetched weighted_avg_reveal_height)
    as [e | r]; [constructor |].
  rewrite bind_lift_inr. apply simulate_year_runs_shape.
Qed.

Lemma trial_energy_returns axis_tilt :
  has_snow fetched ->
  year_localizes (tz plant) ->
  trial_energy axis_tilt =
  (map (Simulation.run_of plant albedo_data heights weighted_avg_reveal_height 3 axis_tilt)
       sampled_2021,
   inr (energy_of plant albedo_data fetched weighted_avg_reveal_height axis_tilt)).
Proof.
  intros Hsnow Hzone.
  assert (Hret : exists v,
             trial_energy axis_tilt =
             (map (Simulation.run_of plant albedo_data heights weighted_avg_reveal_height 3
                     axis_tilt) sampled_2021, inr v)).
  { unfold Optimizer.calculate_total_energy.
    rewrite (has_snow_returns _ _ Hsnow), bind_lift_inr. cbn [MonthlySnow.frame].
    eexists.
    apply (simulate_year_localized _ _ _ _ _ _ _ _ 36 passes_2021).
    apply year_localizes_Forall, Hzone. }
  destruct Hret as [v Hret]. unfold energy_of. rewrite Hret. reflexivity.
Qed.

Lemma run_trial_runs st :
  runs (trial st) =
  runs (trial_energy (fst (suggest_float 0 60 (trials (Optimizer.study st))
                             (Optimizer.sampler_state st)))).
Proof.
  unfold Optimizer.run_trial.
  destruct (suggest_float 0 60 _ _) as [axis_tilt s']. cbn [fst].
  rewrite runs_bind. destruct (outcome _); simpl; apply app_nil_r.
Qed.

Lemma run_trial_outcome st :
  outcome (trial st) =
  let axis_tilt := fst (suggest_float 0 60 (trials (Optimizer.study st))
                          (Optimizer.sampler_state st)) in
  match outcome (trial_energy axis_tilt) with
  | inl e => inl e
  | inr total_energy =>
      inr {| Optimizer.study :=
               tell (Optimizer.study st)
                 {| number := Z.of_nat (length (trials (Optimizer.study st)));
                    axis_tilt := axis_tilt; value := total_energy |};
             Optimizer.sampler_state :=
               snd (suggest_float 0 60 (trials (Optimizer.study st))
                      (Optimizer.sampler_state st));
             Optimizer.trial_axis_tilts := Optimizer.trial_axis_tilts st ++ [axis_tilt];
             Optimizer.trial_energies := Optimizer.trial_energies st ++ [total_energy] |}
  end.
Proof.
  unfold Optimizer.run_trial.
  destruct (suggest_float 0 60 _ _) as [axis_tilt s']. cbn [fst snd].
  rewrite outcome_bind. destruct (outcome _); reflexivity.
Qed.

(** A property of the passes of every trial the sampler can ask for holds of
    all the passes of the study. *)
Lemma optimize_runs_Forall (P : day_run -> Prop) (T : Q -> Prop) :
  (forall history s, T (fst (suggest_float 0 60 history s))) ->
  (forall axis_tilt, T axis_tilt -> Forall P (runs (trial_energy axis_tilt))) ->
  forall n st, Forall P (runs (study_loop n st)).
Proof.
  intros Hsuggest Htrial. induction n as [| n IH]; intros st; simpl.
  - constructor.
  - rewrite runs_bind. apply Forall_app. split.
    + rewrite run_trial_runs. apply Htrial, Hsuggest.
    + destruct (outcome _) as [e | st']; [constructor | apply IH].
Qed.

(** An invariant of the trials is an invariant of the study. *)
Lemma optimize_invariant (I : Optimizer.state -> Prop) :
  (forall st st', I st -> outcome (trial st) = inr st' -> I st') ->
  forall n st st', I st -> outcome (study_loop n st) = inr st' -> I st'.
Proof.
  intros Hstep. induction n as [| n IH]; intros st st' Hst; simpl.
  - intros [= <-]. exact Hst.
  - rewrite outcome_bind. destruct (outcome (trial st)) as [e | st1] eqn:Hout; [discriminate |].
    apply IH. eapply Hstep; eassumption.
Qed.

Lemma run_trial_consistent st st' :
  consistent st -> outcome (trial st) = inr st' -> consistent st'.
Proof.
  intros (Htilts & Henergies & Hbest). rewrite run_trial_outcome. cbn zeta.
  destruct (outcome (trial_energy _)) as [e | total_energy]; [discriminate |].
  intros [= <-]. unfold consistent. cbn [Optimizer.study Optimizer.trial_axis_tilts
    Optimizer.trial_energies tell trials].
  rewrite !map_app, Htilts, Henergies. cbn [map axis_tilt value].
  repeat split. apply tell_best_ok, Hbest.
Qed.

Lemma run_trial_replayed st st' :
  replayed plant albedo_data fetched weighted_avg_reveal_height st ->
  outcome (trial st) = inr st' ->
  replayed plant albedo_data fetched weighted_avg_reveal_height st'.
Proof.
  intros (Hstudy & Henergies). rewrite run_trial_outcome. cbn zeta.
  destruct (outcome (trial_energy _)) as [e | total_energy] eqn:Hout; [discriminate |].
  intros [= <-]. unfold replayed. cbn [Optimizer.study Optimizer.trial_axis_tilts
    Optimizer.trial_energies].
  assert (Hval : energy_of plant albedo_data fetched weighted_avg_reveal_height
                   (fst (suggest_float 0 60 (trials (Optimizer.study st))
                           (Optimizer.sampler_state st))) = total_energy).
  { unfold energy_of. rewrite Hout. reflexivity. }
  split.
  - unfold replay. rewrite fold_left_app. cbn [fold_left].
    fold (replay plant albedo_data fetched weighted_avg_reveal_height
            (Optimizer.trial_axis_tilts st)).
    rewrite <- Hstudy, Hval. reflexivity.
  - rewrite map_app, Henergies. cbn [map]. rewrite Hval. reflexivity.
Qed.

Lemma run_trial_length st st' :
  outcome (trial st) = inr st' ->
  length (trials (Optimizer.study st')) = S (length (trials (Optimizer.study st))).
Proof.
  rewrite run_trial_outcome. cbn zeta.
  destruct (outcome (trial_energy _)) as [e | total_energy]; [discriminate |].
  intros [= <-]. cbn [Optimizer.study tell trials]. rewrite length_app. simpl. lia.
Qed.

Lemma optimize_length n : forall st st',
  outcome (study_loop n st) = inr st' ->
  length (trials (Optimizer.study st')) = (length (trials (Optimizer.study st)) + n)%nat.
Proof.
  induction n as [| n IH]; intros st st'; simpl.
  - intros [= <-]. lia.
  - rewrite outcome_bind. destruct (outcome (trial st)) as [e | st1] eqn:Hout; [discriminate |].
    intros Hrest. rewrite (IH _ _ Hrest), (run_trial_length _ _ Hout). lia.
Qed.

(** With a [snow] column and a zone where the sampled midnights exist, the
    study runs all its trials, 37 passes each. *)
Lemma optimize_returns n : forall st,
  has_snow fetched ->
  year_localizes (tz plant) ->
  exists st', outcome (study_loop n st) = inr st' /\
              length (runs (study_loop n st)) = (37 * n)%nat.
Proof.
  induction n as [| n IH]; intros st Hsnow Hzone; simpl.
  - eexists. split; reflexivity.
  - destruct (outcome (trial st)) as [e | st1] eqn:Hout.
    { rewrite run_trial_outcome in Hout. cbn zeta in Hout.
      rewrite (trial_energy_returns _ Hsnow Hzone) in Hout. discriminate. }
    rewrite runs_bind, outcome_bind, Hout.
    destruct (IH st1 Hsnow Hzone) as [st' [Hret Hlen]].
    exists st'. split; [exact Hret |].
    rewrite length_app, Hlen, run_trial_runs, (trial_energy_returns _ Hsnow Hzone).
    unfold runs at 1. cbn [fst]. rewrite length_map. unfold sampled_2021.
    rewrite length_sample_dates. lia.
Qed.

End OptimizerFacts.

Section EntryFacts.
Context `{PowerModel} `{Optuna.Sampler}.
Import Optuna Conditions.

Lemma search_processed pvtune summary w albedo_data plant fetched entropy :
  Pvtune.process_pvtune_output pvtune = inr (summary, w) ->
  Optimizer.search pvtune albedo_data plant fetched entropy =
  Optimizer.optimize plant albedo_data fetched w 20 (Optimizer.create_study entropy).
Proof. intros Hproc. unfold Optimizer.search. rewrite Hproc, bind_lift_inr. reflexivity. Qed.

(** When the survey cannot be processed nothing is simulated. *)
Lemma search_unprocessed pvtune e albedo_data plant fetched entropy :
  Pvtune.process_pvtune_output pvtune = inl e ->
  Optimizer.search pvtune albedo_data plant fetched entropy = ([], inl e) /\
  Optimizer.optimize_axistilt pvtune albedo_data plant fetched entropy = ([], inl e).
Proof.
  intros Hproc. unfold Optimizer.search, Optimizer.optimize_axistilt.
  rewrite Hproc. split; reflexivity.
Qed.

Lemma optimize_axistilt_runs pvtune albedo_data plant fetched entropy :
  runs (Optimizer.optimize_axistilt pvtune albedo_data plant fetched entropy) =
  runs (Optimizer.search pvtune albedo_data plant fetched entropy).
Proof.
  unfold Optimizer.optimize_axistilt, Optimizer.search.
  destruct (Pvtune.process_pvtune_output pvtune) as [e | [summary w]]; [reflexivity |].
  rewrite !bind_lift_inr.
  rewrite runs_bind. destruct (outcome _) as [e | st]; [apply app_nil_r |].
  destruct (best_trial (Optimizer.study st)); apply app_nil_r.
Qed.

Lemma optimize_axistilt_outcome pvtune summary w albedo_data plant fetched entropy :
  Pvtune.process_pvtune_output pvtune = inr (summary, w) ->
  outcome (Optimizer.optimize_axistilt pvtune albedo_data plant fetched entropy) =
  match outcome (Optimizer.search pvtune albedo_data plant fetched entropy) with
  | inl e => inl e
  | inr st =>
      match best_trial (Optimizer.study st) with
      | None => inl (ValueError "No trials are completed yet.")
      | Some best => inr (axis_tilt best, value best, summary)
      end
  end.
Proof.
  intros Hproc. unfold Optimizer.optimize_axistilt, Optimizer.search.
  rewrite Hproc, !bind_lift_inr.
  rewrite outcome_bind. destruct (outcome _) as [e | st]; [reflexivity |].
  destruct (best_trial (Optimizer.study st)); reflexivity.
Qed.

Lemma create_study_consistent entropy : consistent (Optimizer.create_study entropy).
Proof. repeat split. Qed.

Lemma create_study_replayed plant albedo_data fetched w entropy :
  replayed plant albedo_data fetched w (Optimizer.create_study entropy).
Proof. split; reflexivity. Qed.

(** Every pass of the optimizer is given three rows. *)
Lemma optimize_axistilt_three_rows pvtune albedo_data plant fetched entropy :
  Forall (fun r => in_n_pvrows (run_inputs r) = 3)
         (runs (Optimizer.optimize_axistilt pvtune albedo_data plant fetched entropy)).
Proof.
  rewrite optimize_axistilt_runs.
  destruct (Pvtune.process_pvtune_output pvtune) as [e | [summary w]] eqn:Hproc.
  { rewrite (proj1 (search_unprocessed _ _ _ _ _ _ Hproc)). constructor. }
  rewrite (search_processed _ _ _ _ _ _ _ Hproc).
  apply (optimize_runs_Forall _ _ _ _ _ (fun _ => True)); [trivial |].
  intros axis_tilt _. eapply Forall_impl; [apply trial_energy_runs_shape |].
  intros r ->. reflexivity.
Qed.

Lemma search_returns pvtune summary w albedo_data plant fetched entropy :
  Pvtune.process_pvtune_output pvtune = inr (summary, w) ->
  has_snow fetched ->
  year_localizes (tz plant) ->
  exists st,
    outcome (Optimizer.search pvtune albedo_data plant fetched entropy) = inr st /\
    length (runs (Optimizer.search pvtune albedo_data plant fetched entropy)) = 740%nat /\
    length (trials (Optimizer.study st)) = 20%nat /\
    consistent st /\
    replayed plant albedo_data fetched w st.
Proof.
  intros Hproc Hsnow Hzone. rewrite (search_processed _ _ _ _ _ _ _ Hproc).
  destruct (optimize_returns plant albedo_data fetched w 20
              (Optimizer.create_study entropy) Hsnow Hzone) as [st [Hret Hlen]].
  exists st. split; [exact Hret |]. split; [exact Hlen |]. split; [| split].
  - rewrite (optimize_length _ _ _ _ _ _ _ Hret). reflexivity.
  - eapply optimize_invariant; [apply run_trial_consistent | | exact Hret].
    apply create_study_consistent.
  - eapply optimize_invariant; [apply run_trial_replayed | | exact Hret].
    apply create_study_replayed.
Qed.

End EntryFacts.

Section OptimizerClaims.
Context `{PowerModel} `{Optuna.Sampler}.
Import Optuna Conditions.

(** C4, as amended. The standalone estimator gives pvfactors 2 rows for
    "Ext" and 3 rows for "Int", and for any other value raises the
    configuration error before anything is simulated; the tilt optimizer
    takes no array class and gives pvfactors 3 rows in every pass of every
    trial. *)
Theorem array_class_row_counts height opt_tilt albedo_data plant fetched pvtune entropy :
  Forall (fun r => in_n_pvrows (run_inputs r) = 2)
         (runs (BasicPredictor.calculate_total_energy height "Ext" opt_tilt albedo_data plant
                  fetched)) /\
  Forall (fun r => in_n_pvrows (run_inputs r) = 3)
         (runs (BasicPredictor.calculate_total_energy height "Int" opt_tilt albedo_data plant
                  fetched)) /\
  (forall ext_or_int,
      ext_or_int <> "Ext" -> ext_or_int <> "Int" ->
      BasicPredictor.calculate_total_energy height ext_or_int opt_tilt albedo_data plant fetched
      = ([], inl (ValueError "Invalid value for ext_or_int. Must be 'Ext' or 'Int'."))) /\
  Forall (fun r => in_n_pvrows (run_inputs r) = 3)
         (runs (Optimizer.optimize_axistilt pvtune albedo_data plant fetched entropy)).
Proof.
  split; [| split; [| split]].
  - eapply Forall_impl; [apply calculate_total_energy_runs_shape |].
    intros r [rows [[= <-] ->]]. reflexivity.
  - eapply Forall_impl; [apply calculate_total_energy_runs_shape |].
    intros r [rows [[= <-] ->]]. reflexivity.
  - intros ext_or_int Hext Hint. apply calculate_total_energy_invalid.
    unfold n_pvrows_of. apply String.eqb_neq in Hext, Hint. rewrite Hext, Hint. reflexivity.
  - apply optimize_axistilt_three_rows.
Qed.

(** C5, as amended. After its 20 trials the optimizer returns the energy
    of a recorded trial that no recorded trial exceeds, with the tilt of that
    trial, the first to reach that energy; its third result is the summary
    table of the layout survey, not the trial history. *)
Theorem best_trial_returned pvtune summary w albedo_data plant fetched entropy :
  Pvtune.process_pvtune_output pvtune = inr (summary, w) ->
  has_snow fetched ->
  year_localizes (tz plant) ->
  exists st i best,
    outcome (Optimizer.search pvtune albedo_data plant fetched entropy) = inr st /\
    length (trials (Optimizer.study st)) = 20%nat /\
    Optimizer.trial_axis_tilts st = map axis_tilt (trials (Optimizer.study st)) /\
    Optimizer.trial_energies st = map value (trials (Optimizer.study st)) /\
    is_first_maximum (trials (Optimizer.study st)) i best /\
    outcome (Optimizer.optimize_axistilt pvtune albedo_data plant fetched entropy) =
    inr (axis_tilt best, value best, summary).
Proof.
  intros Hproc Hsnow Hzone.
  destruct (search_returns pvtune summary w albedo_data plant fetched entropy Hproc Hsnow Hzone)
    as (st & Hret & _ & Hlen & (Htilts & Henergies & Hbest) & _).
  unfold best_ok in Hbest.
  destruct (best_trial (Optimizer.study st)) as [best |] eqn:Hb.
  - destruct Hbest as [i Hfirst]. exists st, i, best.
    rewrite (optimize_axistilt_outcome _ _ _ _ _ _ _ Hproc), Hret, Hb.
    repeat split; try assumption; apply Hfirst.
  - rewrite Hbest in Hlen. discriminate.
Qed.

(** C6. Every tilt the optimizer proposes, simulates and records lies in
    [0, 60], the sampler keeping to the bounds it is given. *)
Theorem tilts_within_bounds {Hbounds : RespectsBounds _} pvtune albedo_data plant fetched entropy :
  Forall (fun r => in_range 0 60 (in_axis_tilt (run_inputs r)))
         (runs (Optimizer.optimize_axistilt pvtune albedo_data plant fetched entropy)) /\
  (forall st,
      outcome (Optimizer.search pvtune albedo_data plant fetched entropy) = inr st ->
      Forall (in_range 0 60) (Optimizer.trial_axis_tilts st) /\
      Forall (fun t => in_range 0 60 (axis_tilt t)) (trials (Optimizer.study st))).
Proof.
  assert (Hsuggest : forall history s, in_range 0 60 (fst (suggest_float 0 60 history s))).
  { intros history s. apply Hbounds. discriminate. }
  destruct (Pvtune.process_pvtune_output pvtune) as [e | [summary w]] eqn:Hproc.
  { rewrite optimize_axistilt_runs, (proj1 (search_unprocessed _ _ _ _ _ _ Hproc)).
    split; [constructor | discriminate]. }
  split.
  - rewrite optimize_axistilt_runs, (search_processed _ _ _ _ _ _ _ Hproc).
    apply (optimize_runs_Forall _ _ _ _ _ (in_range 0 60) Hsuggest).
    intros axis_tilt Htilt. eapply Forall_impl; [apply trial_energy_runs_shape |].
    intros r ->. exact Htilt.
  - intros st. rewrite (search_processed _ _ _ _ _ _ _ Hproc).
    apply (optimize_invariant _ _ _ _
             (fun st => Forall (in_range 0 60) (Optimizer.trial_axis_tilts st) /\
                        Forall (fun t => in_range 0 60 (axis_tilt t))
                               (trials (Optimizer.study st)))).
    + intros st0 st1 [Htilts Htrials]. rewrite run_trial_outcome. cbn zeta.
      destruct (outcome _) as [e | total_energy]; [discriminate |].
      intros [= <-]. cbn [Optimizer.trial_axis_tilts Optimizer.study tell trials].
      split; apply Forall_app; (split; [assumption |]); repeat constructor; apply Hsuggest.
    + split; constructor.
Qed.

End OptimizerClaims.

(** ** pvtune.py *)

Section PvtuneFacts.
Import Pvtune.

Lemma sum_Z_acc xs : forall a, fold_left Z.add xs a = a + sum_Z xs.
Proof.
  unfold sum_Z. induction xs as [| x xs IH]; intros a; cbn [fold_left]; [lia |].
  rewrite (IH (a + x)), (IH (0 + x)). lia.
Qed.

Lemma sum_Z_cons x xs : sum_Z (x :: xs) = x + sum_Z xs.
Proof. unfold sum_Z at 1. simpl. apply sum_Z_acc. Qed.

Lemma sum_Z_nonneg xs : Forall (fun x => 0 <= x) xs -> 0 <= sum_Z xs.
Proof.
  induction 1 as [| x xs Hx Hxs IH]; [unfold sum_Z; simpl; lia |].
  rewrite sum_Z_cons. lia.
Qed.

Lemma sum_Z_zero xs :
  Forall (fun x => 0 <= x) xs -> sum_Z xs = 0 -> Forall (fun x => x = 0) xs.
Proof.
  induction 1 as [| x xs Hx Hxs IH]; [constructor |].
  rewrite sum_Z_cons. intros Hsum. pose proof (sum_Z_nonneg xs Hxs).
  constructor; [lia | apply IH; lia].
Qed.

Lemma number_of_modules_nonneg x m : number_of_modules x = Some m -> 0 <= m.
Proof.
  unfold number_of_modules. destruct x as [x |]; [| discriminate].
  destruct (_ && _); [intros [= <-]; lia |].
  destruct (_ && _); [intros [= <-]; lia | discriminate].
Qed.

Lemma new_df_modules_nonneg df :
  Forall (fun t => forall m, t_Number_of_Modules t = Some m -> 0 <= m) (new_df df).
Proof.
  unfold new_df. apply Forall_fmap, Forall_forall. intros id _ m. cbn.
  intros Hhead. apply head_Some_elem_of, list_elem_of_omap in Hhead as [r [_ Hm]].
  eapply number_of_modules_nonneg, Hm.
Qed.

(** Each line of the summary counts no fewer than zero modules and weighs
    its height by that count. *)
Lemma summary_df_rows trackers :
  Forall (fun t => forall m, t_Number_of_Modules t = Some m -> 0 <= m) trackers ->
  Forall (fun row => 0 <= Number_of_Total_Modules row /\
                     Weighted_Height row =
                     (Max_Reveal_Height row * inject_Z (Number_of_Total_Modules row))%Q)
         (summary_df trackers).
Proof.
  intros Hmod. unfold summary_df. apply Forall_fmap, Forall_forall. intros k _. cbn.
  split; [| reflexivity].
  apply sum_Z_nonneg, Forall_forall. intros m Hm.
  apply list_elem_of_omap in Hm as [t [Ht Hm]].
  apply list_elem_of_filter in Ht as [_ Ht].
  rewrite Forall_forall in Hmod. eapply Hmod; eassumption.
Qed.

Lemma Qnum_fold_zero xs : forall a,
  Qnum a = 0 -> Forall (fun x => Qnum x = 0) xs -> Qnum (fold_left Qplus xs a) = 0.
Proof.
  induction xs as [| x xs IH]; intros a Ha Hxs; simpl; [exact Ha |].
  inversion Hxs as [| ? ? Hx Hrest]; subst. apply IH; [| exact Hrest].
  simpl. rewrite Ha, Hx. lia.
Qed.

(** Without modules the weighted average is numpy's 0.0 / 0. *)
Lemma weighted_average_without_modules df :
  total_modules (summary_df (new_df df)) = 0 ->
  weighted_average (summary_df (new_df df)) = NaN.
Proof.
  intros Htotal.
  pose proof (summary_df_rows _ (new_df_modules_nonneg df)) as Hrows.
  unfold weighted_average. rewrite Htotal. unfold np_truediv.
  change (Qzero (inject_Z 0)) with true. cbn match.
  assert (Hzero : Forall (fun x => x = 0) (map Number_of_Total_Modules (summary_df (new_df df)))).
  { apply sum_Z_zero; [| exact Htotal].
    apply Forall_fmap. eapply Forall_impl; [exact Hrows |]. intros row [Hrow _]. exact Hrow. }
  assert (Hnum : Qnum (sum_Q (map Weighted_Height (summary_df (new_df df)))) = 0).
  { apply Qnum_fold_zero; [reflexivity |].
    apply Forall_fmap. rewrite Forall_fmap in Hzero.
    rewrite Forall_forall in Hrows, Hzero. apply Forall_forall. intros row Hrow. cbn.
    destruct (Hrows row Hrow) as [_ ->]. specialize (Hzero row Hrow). cbn in Hzero.
    rewrite Hzero. simpl. lia. }
  unfold Qzero. rewrite Hnum. reflexivity.
Qed.

(** A survey that is processed to a total of zero modules was divided in
    numpy arithmetic. *)
Lemma processed_without_modules df summary w :
  process_pvtune_output df = inr (summary, w) ->
  total_modules summary = 0 ->
  w = NaN.
Proof.
  unfold process_pvtune_output.
  destruct (spans_are_objects df); [discriminate |].
  destruct (modules_are_objects df).
  - unfold py_truediv. rewrite Qzero_inject_Z.
    destruct (Z.eqb_spec (total_modules (summary_df (new_df df))) 0) as [Hz | Hnz];
      [discriminate |].
    intros [= <- <-] Htotal. contradiction.
  - intros [= <- <-]. apply weighted_average_without_modules.
Qed.

End PvtuneFacts.

Section NanHeightFacts.
Context `{PowerModel} `{Optuna.Sampler}.
Import Optuna Conditions.

Lemma adjusted_heights_NaN fetched :
  Forall (fun r => snd r = NaN) (adjusted_heights fetched NaN).
Proof.
  unfold adjusted_heights.
  destruct (MonthlySnow.columns fetched !! "snow") as [snow |] eqn:Hsnow.
  - destruct (snow_present fetched NaN snow Hsnow) as [average_snowfall ->].
    cbn [MonthlySnow.frame]. apply Forall_fmap, Forall_forall. intros r _. reflexivity.
  - rewrite snow_missing by assumption. constructor.
Qed.

Lemma get_adjusted_row_height_NaN heights date :
  Forall (fun r => snd r = NaN) heights ->
  Simulation.get_adjusted_row_height heights NaN date = NaN.
Proof.
  intros Hall. unfold Simulation.get_adjusted_row_height.
  destruct (filter _ heights) as [| r rest] eqn:Hf; [reflexivity |].
  assert (Hr : r ∈ filter (fun r => fst r = Calendar.month (Calendar.date_of date)) heights)
    by (rewrite Hf; constructor).
  apply list_elem_of_filter in Hr as [_ Hr].
  rewrite Forall_forall in Hall. apply Hall, Hr.
Qed.

(** C9, as amended. A zero total of modules is not in itself an error.
    When the survey processing raises, the optimizer raises with it before
    simulating anything.  When it returns with a total of zero, the weighted
    average reveal height was divided in numpy arithmetic and is NaN; nothing
    is raised, and the optimizer starts its trials and hands NaN to pvfactors
    as the row height of every pass. *)
Theorem zero_modules_give_nan pvtune albedo_data plant fetched entropy :
  (forall e,
      Pvtune.process_pvtune_output pvtune = inl e ->
      Optimizer.optimize_axistilt pvtune albedo_data plant fetched entropy = ([], inl e)) /\
  (forall summary w,
      Pvtune.process_pvtune_output pvtune = inr (summary, w) ->
      Pvtune.total_modules summary = 0 ->
      w = NaN /\
      Forall (fun r => in_pvrow_height (run_inputs r) = NaN)
             (runs (Optimizer.optimize_axistilt pvtune albedo_data plant fetched entropy)) /\
      (has_snow fetched -> year_localizes (tz plant) ->
       exists r rest,
         runs (Optimizer.optimize_axistilt pvtune albedo_data plant fetched entropy)
         = r :: rest)).
Proof.
  split.
  - intros e Hproc. apply (search_unprocessed _ _ _ _ _ _ Hproc).
  - intros summary w Hproc Hzero.
    pose proof (processed_without_modules _ _ _ Hproc Hzero) as Hnan.
    split; [exact Hnan |]. split.
    + rewrite optimize_axistilt_runs, (search_processed _ _ _ _ _ _ _ Hproc), Hnan.
      apply (optimize_runs_Forall _ _ _ _ _ (fun _ => True)); [trivial |].
      intros axis_tilt _. eapply Forall_impl; [apply trial_energy_runs_shape |].
      intros r ->. cbn [in_pvrow_height Simulation.day_inputs].
      apply get_adjusted_row_height_NaN, adjusted_heights_NaN.
    + intros Hsnow Hzone.
      destruct (search_returns pvtune summary w albedo_data plant fetched entropy
                  Hproc Hsnow Hzone) as (st & _ & Hruns & _).
      rewrite optimize_axistilt_runs.
      destruct (runs (Optimizer.search pvtune albedo_data plant fetched entropy))
        as [| r rest]; [discriminate | eauto].
Qed.

End NanHeightFacts.

Section FirstProposal.
Context `{PowerModel} `{Optuna.Sampler}.
Import Optuna Conditions.

Lemma optimize_S plant albedo_data fetched w n st :
  Optimizer.optimize plant albedo_data fetched w (S n) st =
  bind (Optimizer.run_trial plant albedo_data fetched w st)
       (Optimizer.optimize plant albedo_data fetched w n).
Proof. reflexivity. Qed.

(** The first recorded tilt is what the sampler answers in its initial
    state. *)
Lemma search_first_proposal pvtune albedo_data plant fetched entropy st :
  outcome (Optimizer.search pvtune albedo_data plant fetched entropy) = inr st ->
  head (Optimizer.trial_axis_tilts st) = Some (fst (suggest_float 0 60 [] entropy)).
Proof.
  destruct (Pvtune.process_pvtune_output pvtune) as [e | [summary w]] eqn:Hproc.
  { rewrite (proj1 (search_unprocessed _ _ _ _ _ _ Hproc)). discriminate. }
  rewrite (search_processed _ _ _ _ _ _ _ Hproc), optimize_S, outcome_bind.
  destruct (outcome (Optimizer.run_trial _ _ _ _ _)) as [e | st1] eqn:Hfirst; [discriminate |].
  rewrite run_trial_outcome in Hfirst. cbn zeta in Hfirst.
  destruct (outcome (Optimizer.calculate_total_energy _ _ _ _ _)) as [e | total_energy];
    [discriminate |].
  injection Hfirst as <-.
  apply (optimize_invariant _ _ _ _
           (fun st => head (Optimizer.trial_axis_tilts st)
                      = Some (fst (suggest_float 0 60 [] entropy)))).
  - intros st0 st1 Hhead. rewrite run_trial_outcome. cbn zeta.
    destruct (outcome _) as [e | energy]; [discriminate |].
    intros [= <-]. cbn [Optimizer.trial_axis_tilts].
    destruct (Optimizer.trial_axis_tilts st0); [discriminate | exact Hhead].
  - reflexivity.
Qed.

End FirstProposal.

Section OptimizerExamples.
Import Optuna Conditions Examples.

Lemma lcg_respects_bounds : RespectsBounds lcg_sampler.
Proof.
  intros low high history s Hle. cbn [suggest_float lcg_sampler fst].
  assert (Hs : 0 <= lcg_next s < 2147483648) by (apply Z.mod_pos_bound; lia).
  assert (Hf : (0 <= lcg_next s # 2147483648 <= 1)%Q).
  { unfold Qle. simpl. lia. }
  destruct Hf as [Hf0 Hf1]. split; nra.
Qed.

Lemma year_localizes_utc : year_localizes (tz plant_utc).
Proof. apply (year_localizes_fixed 0). Qed.

Local Abbreviation stub := (constant_power 1).
Local Abbreviation example_search :=
  (@Optimizer.search stub lcg_sampler layout constant_albedo plant_utc no_snow_records).
Local Abbreviation example_optimize :=
  (@Optimizer.optimize_axistilt stub lcg_sampler layout constant_albedo plant_utc
     no_snow_records).

Lemma layout_is_processed :
  Pvtune.process_pvtune_output layout = inr (fst layout_processed, snd layout_processed).
Proof. vm_compute. reflexivity. Qed.

Lemma layout_single_end_refused :
  Pvtune.process_pvtune_output layout_single_end =
  inl (TypeError "'<' not supported between instances of 'int' and 'NoneType'").
Proof. reflexivity. Qed.

Lemma layout_odd_span_refused :
  Pvtune.process_pvtune_output layout_odd_span = inl ZeroDivisionError.
Proof. reflexivity. Qed.

Lemma layout_without_heights_processed :
  Pvtune.process_pvtune_output layout_without_heights = inr ([], NaN).
Proof. reflexivity. Qed.

Lemma example_search_returns entropy :
  exists st,
    outcome (example_search entropy) = inr st /\
    length (runs (example_search entropy)) = 740%nat.
Proof.
  destruct (@search_returns stub lcg_sampler layout _ _ constant_albedo plant_utc
              no_snow_records entropy layout_is_processed has_snow_no_snow_records
              year_localizes_utc)
    as (st & Hret & Hlen & _).
  eauto.
Qed.

Lemma example_returns entropy :
  exists st result,
    outcome (example_search entropy) = inr st /\
    outcome (example_optimize entropy) = inr result /\
    snd result = fst layout_processed.
Proof.
  destruct (@search_returns stub lcg_sampler layout _ _ constant_albedo plant_utc
              no_snow_records entropy layout_is_processed has_snow_no_snow_records
              year_localizes_utc)
    as (st & Hret & _ & Hlen & (_ & _ & Hbest) & _).
  exists st. rewrite (optimize_axistilt_outcome _ _ _ _ _ _ _ layout_is_processed), Hret.
  unfold best_ok in Hbest.
  destruct (best_trial (Optimizer.study st)) as [best |].
  - eexists. repeat split.
  - rewrite Hbest in Hlen. discriminate.
Qed.

Lemma array_class_row_counts_witness :
  @BasicPredictor.calculate_total_energy stub (Finite (3 # 2)) "Both" 30 constant_albedo
    plant_utc no_snow_records
  = ([], inl (ValueError "Invalid value for ext_or_int. Must be 'Ext' or 'Int'.")).
Proof.
  apply (proj1 (proj2 (proj2
           (@array_class_row_counts stub lcg_sampler (Finite (3 # 2)) 30 constant_albedo
              plant_utc no_snow_records layout 1)))).
  - discriminate.
  - discriminate.
Defined.

(** C4, as stated, fails: for a layout with external rows the optimizer
    does not give pvfactors the 2 rows of class "Ext". *)
Lemma optimizer_ignores_array_class :
  ~ (forall array_class rows,
        n_pvrows_of array_class = Some rows ->
        Forall (fun r => in_n_pvrows (run_inputs r) = rows) (runs (example_optimize 1))).
Proof.
  intros Hclaim. specialize (Hclaim "Ext" 2 eq_refl).
  pose proof (@optimize_axistilt_three_rows stub lcg_sampler layout constant_albedo plant_utc
                no_snow_records 1) as Hthree.
  destruct (example_search_returns 1) as (st & _ & Hlen).
  rewrite <- optimize_axistilt_runs in Hlen.
  destruct (runs (example_optimize 1)) as [| r rest]; [discriminate |].
  apply Forall_cons_1 in Hclaim as [Htwo _]. apply Forall_cons_1 in Hthree as [Hthree _].
  congruence.
Qed.

Lemma best_trial_returned_witness :
  exists st i best,
    outcome (example_search 1) = inr st /\
    is_first_maximum (trials (Optimizer.study st)) i best /\
    outcome (example_optimize 1) = inr (axis_tilt best, value best, fst layout_processed).
Proof.
  destruct (@best_trial_returned stub lcg_sampler layout (fst layout_processed)
              (snd layout_processed) constant_albedo plant_utc no_snow_records 1)
    as (st & i & best & Hret & _ & _ & _ & Hfirst & Hout).
  - vm_compute. reflexivity.
  - eexists. vm_compute. reflexivity.
  - vm_compute. reflexivity.
  - exists st, i, best. split; [exact Hret |]. split; [exact Hfirst | exact Hout].
Defined.

(** C5, as stated, fails in its last part: the third result is the same
    table for two runs whose trial histories differ, so it is not the
    history, in any encoding. *)
Lemma trial_history_not_returned :
  ~ (exists decode : list Pvtune.summary_row -> list Q,
        forall entropy st result,
          outcome (example_search entropy) = inr st ->
          outcome (example_optimize entropy) = inr result ->
          decode (snd result) = Optimizer.trial_axis_tilts st).
Proof.
  intros [decode Hdecode].
  destruct (example_returns 1) as (st1 & result1 & Hs1 & Ho1 & Ht1).
  destruct (example_returns 2) as (st2 & result2 & Hs2 & Ho2 & Ht2).
  pose proof (Hdecode 1 st1 result1 Hs1 Ho1) as Hd1.
  pose proof (Hdecode 2 st2 result2 Hs2 Ho2) as Hd2.
  rewrite Ht1 in Hd1. rewrite Ht2 in Hd2.
  pose proof (search_first_proposal _ _ _ _ _ _ Hs1) as Hh1.
  pose proof (search_first_proposal _ _ _ _ _ _ Hs2) as Hh2.
  rewrite <- Hd1 in Hh1. rewrite <- Hd2 in Hh2. rewrite Hh1 in Hh2.
  vm_compute in Hh2. discriminate.
Qed.

Lemma tilts_within_bounds_witness :
  Forall (fun r => in_range 0 60 (in_axis_tilt (run_inputs r))) (runs (example_optimize 1)).
Proof.
  apply (@tilts_within_bounds stub lcg_sampler lcg_respects_bounds layout constant_albedo
           plant_utc no_snow_records 1).
Defined.

Lemma zero_modules_give_nan_witness :
  Forall (fun r => in_pvrow_height (run_inputs r) = NaN)
         (runs (@Optimizer.optimize_axistilt stub lcg_sampler layout_without_heights
                  constant_albedo plant_utc no_snow_records 1)).
Proof.
  apply (proj2 (@zero_modules_give_nan stub lcg_sampler layout_without_heights
                  constant_albedo plant_utc no_snow_records 1) [] NaN).
  - reflexivity.
  - reflexivity.
Defined.

(** C9, as stated, fails: a survey whose lines have module counts and no
    reveal height has a total of zero modules and raises nothing; the
    processing returns NaN and the optimizer simulates. *)
Lemma zero_modules_not_raised :
  Pvtune.process_pvtune_output layout_without_heights = inr ([], NaN) /\
  Pvtune.total_modules [] = 0 /\
  ~ (exists e,
        @Optimizer.optimize_axistilt stub lcg_sampler layout_without_heights constant_albedo
          plant_utc no_snow_records 1 = ([], inl e)).
Proof.
  split; [reflexivity |]. split; [reflexivity |].
  intros [e Hraise].
  destruct (@search_returns stub lcg_sampler layout_without_heights [] NaN constant_albedo
              plant_utc no_snow_records 1 layout_without_heights_processed
              has_snow_no_snow_records year_localizes_utc)
    as (st & _ & Hlen & _).
  rewrite <- optimize_axistilt_runs, Hraise in Hlen. discriminate.
Qed.

End OptimizerExamples.

(** ** Albedo_TimeSeries/monthly_albedo.py *)

Section AlbedoFacts.
Import MonthlyAlbedo.

(** The CSV files of a folder, in listing order. *)
Lemma all_yearly_data_acc folder : forall acc,
  fold_left (fun all_yearly_data f =>
               if endswith (file_name f) ".csv"
               then all_yearly_data ++ [groupby_year_month (lines f)]
               else all_yearly_data)
            folder acc =
  acc ++ map (fun f => groupby_year_month (lines f))
             (filter (fun f => endswith (file_name f) ".csv" = true) folder).
Proof.
  induction folder as [| f folder IH]; intros acc; cbn [fold_left].
  - rewrite filter_nil. symmetry. apply app_nil_r.
  - rewrite IH. destruct (endswith (file_name f) ".csv") eqn:Hcsv.
    + rewrite filter_cons_True by assumption. cbn [map]. rewrite <- app_assoc. reflexivity.
    + rewrite filter_cons_False by congruence. reflexivity.
Qed.

Lemma calculate_monthly_avg_albedo_unfold folder :
  calculate_monthly_avg_albedo folder =
  match pd_concat (map (fun f => groupby_year_month (lines f))
                       (filter (fun f => endswith (file_name f) ".csv" = true) folder)) with
  | inl e => inl e
  | inr combined_data => inr (groupby_month combined_data)
  end.
Proof. unfold calculate_monthly_avg_albedo. rewrite all_yearly_data_acc. reflexivity. Qed.

(** X1. A folder in which no file name ends in ".csv", the empty folder
    included, leaves the list of yearly frames empty; [pd.concat] refuses
    an empty list and the function raises [ValueError]. *)
Theorem albedo_no_csv_raises folder :
  Forall (fun f => endswith (file_name f) ".csv" = false) folder ->
  calculate_monthly_avg_albedo folder = inl (ValueError "No objects to concatenate").
Proof.
  intros Hnone. rewrite calculate_monthly_avg_albedo_unfold.
  replace (filter _ folder) with (@nil csv_file); [reflexivity |].
  symmetry. induction Hnone as [| f folder Hf Hrest IH]; [reflexivity |].
  rewrite filter_cons_False by congruence. exact IH.
Qed.

End AlbedoFacts.

(** ** Keys of a [groupby] and means *)

Section GroupKeys.

Lemma StronglySorted_le_lt (ks : list Z) :
  StronglySorted Z.le ks -> NoDup ks -> StronglySorted Z.lt ks.
Proof.
  induction 1 as [| k ks Hsorted IH Hall]; intros Hnodup; constructor.
  - apply IH. apply NoDup_cons in Hnodup as [_ Hnodup]. exact Hnodup.
  - apply NoDup_cons in Hnodup as [Hk _].
    rewrite List.Forall_forall in Hall. apply Forall_forall. intros k' Hin.
    assert (k <= k') by (apply Hall, list_elem_of_In, Hin).
    assert (k <> k') by (intros ->; contradiction).
    lia.
Qed.

(** The keys of a [groupby], as pandas orders them: each key once,
    ascending. *)
Lemma group_keys_ascending (ks : list Z) :
  StronglySorted Z.lt (merge_sort Z.le (remove_dups ks)).
Proof.
  apply StronglySorted_le_lt.
  - apply StronglySorted_merge_sort; apply _.
  - rewrite merge_sort_Permutation. apply NoDup_remove_dups.
Qed.

Lemma elem_of_group_keys (ks : list Z) k :
  k ∈ merge_sort Z.le (remove_dups ks) <-> k ∈ ks.
Proof. rewrite merge_sort_Permutation. apply elem_of_remove_dups. Qed.

(** In a table whose keys ascend, the lines of a key are one line. *)
Lemma filter_fst_unique {V} (rows : list (Z * V)) k v :
  StronglySorted Z.lt (map fst rows) ->
  (k, v) ∈ rows ->
  filter (fun r => fst r = k) rows = [(k, v)].
Proof.
  induction rows as [| r rows IH]; intros Hsorted Hin; [inversion Hin |].
  cbn [map] in Hsorted. apply StronglySorted_inv in Hsorted as [Hrest Hall].
  rewrite List.Forall_forall in Hall.
  apply elem_of_cons in Hin as [<- | Hin].
  - rewrite filter_cons_True by reflexivity. f_equal.
    apply filter_fst_absent. intros Hk. apply list_elem_of_In, Hall in Hk. cbn in Hk. lia.
  - assert (Hlt : fst r < k).
    { apply Hall, list_elem_of_In. apply (list_elem_of_fmap_2 fst _ _ Hin). }
    rewrite filter_cons_False by lia. apply IH; assumption.
Qed.

End GroupKeys.

Section MeanFacts.

Lemma sum_Q_bounds lo hi xs :
  Forall (fun x => lo <= x <= hi)%Q xs ->
  (lo * inject_Z (Z.of_nat (length xs)) <= sum_Q xs <= hi * inject_Z (Z.of_nat (length xs)))%Q.
Proof.
  induction 1 as [| x xs [Hlo Hhi] Hxs [IHlo IHhi]].
  - unfold sum_Q. simpl. split; ring_simplify; apply Qle_refl.
  - rewrite sum_Q_cons. cbn [length]. rewrite Nat2Z.inj_succ. unfold Z.succ.
    rewrite inject_Z_plus. split; ring_simplify; lra.
Qed.

Lemma length_pos_Q {A} (xs : list A) : xs <> [] -> (0 < inject_Z (Z.of_nat (length xs)))%Q.
Proof.
  intros Hne. destruct xs as [| x xs]; [contradiction |].
  unfold Qlt. simpl. lia.
Qed.

Lemma quotient_bounds lo hi s n :
  (0 < n)%Q -> (lo * n <= s <= hi * n)%Q -> (lo <= s / n <= hi)%Q.
Proof.
  intros Hn [Hlo Hhi]. split.
  - apply Qle_shift_div_l; assumption.
  - apply Qle_shift_div_r; assumption.
Qed.

End MeanFacts.

Section AlbedoTable.
Import MonthlyAlbedo.

Lemma mean_bounds lo hi xs a :
  mean xs = Some a -> Forall (fun x => lo <= x <= hi)%Q xs -> (lo <= a <= hi)%Q.
Proof.
  intros Hmean Hall. destruct xs as [| x xs]; [discriminate |].
  injection Hmean as <-. apply quotient_bounds.
  - apply (length_pos_Q (x :: xs)). discriminate.
  - apply (sum_Q_bounds lo hi (x :: xs)), Hall.
Qed.

Lemma elem_of_groupby_year_month df r :
  r ∈ groupby_year_month df ->
  (exists l, l ∈ df /\ year_month l = Some (m_Year r, m_Month r)) /\
  m_Surface_Albedo r =
  mean (omap Surface_Albedo (filter (fun l => year_month l = Some (m_Year r, m_Month r)) df)).
Proof.
  unfold groupby_year_month. intros Hr.
  apply list_elem_of_fmap in Hr as [[y m] [-> Hk]]. cbn [m_Year m_Month m_Surface_Albedo fst snd].
  split; [| reflexivity].
  rewrite merge_sort_Permutation, elem_of_remove_dups in Hk.
  apply list_elem_of_omap in Hk as [l [Hl Hkey]]. eauto.
Qed.

Lemma groupby_year_month_complete df l y m :
  l ∈ df -> Year l = Some y -> Month l = Some m ->
  exists r, r ∈ groupby_year_month df /\ m_Month r = m.
Proof.
  intros Hl Hy Hm. unfold groupby_year_month.
  eexists. split.
  - apply list_elem_of_fmap. exists (y, m). split; [reflexivity |].
    rewrite merge_sort_Permutation, elem_of_remove_dups.
    apply list_elem_of_omap. exists l. split; [exact Hl |].
    unfold year_month. rewrite Hy, Hm. reflexivity.
  - reflexivity.
Qed.

Lemma map_fst_groupby_month combined_data :
  map fst (groupby_month combined_data) =
  merge_sort Z.le (remove_dups (map m_Month combined_data)).
Proof. unfold groupby_month. rewrite map_map. cbn [fst]. apply map_id. Qed.

(** What the function returns, when it returns. *)
Lemma calculate_monthly_avg_albedo_returns folder table :
  calculate_monthly_avg_albedo folder = inr table ->
  table = groupby_month
            (concat (map (fun f => groupby_year_month (lines f))
                         (filter (fun f => endswith (file_name f) ".csv" = true) folder))).
Proof.
  rewrite calculate_monthly_avg_albedo_unfold. unfold pd_concat.
  destruct (map _ _); [discriminate |]. intros [= <-]. reflexivity.
Qed.

Lemma elem_of_combined_data folder r :
  r ∈ concat (map (fun f => groupby_year_month (lines f))
                  (filter (fun f => endswith (file_name f) ".csv" = true) folder)) <->
  exists f, f ∈ folder /\ endswith (file_name f) ".csv" = true /\
            r ∈ groupby_year_month (lines f).
Proof.
  rewrite list_elem_of_In, in_concat. split.
  - intros [frame [Hframe Hr]]. apply in_map_iff in Hframe as [f [<- Hf]].
    apply list_elem_of_In, list_elem_of_filter in Hf as [Hcsv Hf].
    exists f. split; [exact Hf |]. split; [exact Hcsv |]. apply list_elem_of_In, Hr.
  - intros (f & Hf & Hcsv & Hr). exists (groupby_year_month (lines f)).
    split; [| apply list_elem_of_In, Hr].
    apply in_map_iff. exists f. split; [reflexivity |].
    apply list_elem_of_In, list_elem_of_filter. auto.
Qed.

(** X2. The table the function returns has one line per month, months
    ascending, and a month has a line exactly when some line of some CSV file
    of the folder carries that month together with a year. *)
Theorem albedo_months_ascending folder table :
  calculate_monthly_avg_albedo folder = inr table ->
  StronglySorted Z.lt (map fst table) /\
  (forall m, m ∈ map fst table <->
             exists f l y, f ∈ folder /\ endswith (file_name f) ".csv" = true /\
                           l ∈ lines f /\ Year l = Some y /\ Month l = Some m).
Proof.
  intros Hret. apply calculate_monthly_avg_albedo_returns in Hret as ->.
  rewrite map_fst_groupby_month. split; [apply group_keys_ascending |].
  intros m. rewrite elem_of_group_keys. split.
  - intros Hm. apply list_elem_of_fmap in Hm as [r [-> Hr]].
    apply elem_of_combined_data in Hr as (f & Hf & Hcsv & Hr).
    apply elem_of_groupby_year_month in Hr as [[l [Hl Hkey]] _].
    exists f, l, (m_Year r). repeat (split; [assumption |]).
    unfold year_month in Hkey. destruct (Year l), (Month l); try discriminate.
    injection Hkey as -> ->. split; reflexivity.
  - intros (f & l & y & Hf & Hcsv & Hl & Hy & Hm).
    destruct (groupby_year_month_complete _ _ _ _ Hl Hy Hm) as [r [Hr <-]].
    apply list_elem_of_fmap. exists r. split; [reflexivity |].
    apply elem_of_combined_data. eauto.
Qed.

(** X3. With floats idealised as rationals, the average returned for a
    month lies between any two bounds that hold of every albedo sample of
    that month in the CSV files of the folder.  (In float64 the last digits
    of a mean can leave the interval: the mean of three samples 0.1 is
    0.10000000000000002.) *)
Theorem albedo_within_sample_bounds folder table m a lo hi :
  calculate_monthly_avg_albedo folder = inr table ->
  (forall f l x, f ∈ folder -> endswith (file_name f) ".csv" = true -> l ∈ lines f ->
                 Month l = Some m -> Surface_Albedo l = Some x -> (lo <= x <= hi)%Q) ->
  (m, Some a) ∈ table ->
  (lo <= a <= hi)%Q.
Proof.
  intros Hret Hsamples Hin. apply calculate_monthly_avg_albedo_returns in Hret as ->.
  unfold groupby_month in Hin. apply list_elem_of_fmap in Hin as [m' [[= <- Hmean] _]].
  symmetry in Hmean. apply (mean_bounds _ _ _ _ Hmean).
  apply Forall_forall. intros y Hy.
  apply list_elem_of_omap in Hy as [r [Hr Hy]].
  apply list_elem_of_filter in Hr as [Hm Hr].
  apply elem_of_combined_data in Hr as (f & Hf & Hcsv & Hr).
  apply elem_of_groupby_year_month in Hr as [_ Hval]. rewrite Hval in Hy.
  apply (mean_bounds _ _ _ _ Hy).
  apply Forall_forall. intros x Hx.
  apply list_elem_of_omap in Hx as [l [Hl Hx]].
  apply list_elem_of_filter in Hl as [Hkey Hl].
  apply (Hsamples f l x Hf Hcsv Hl); [| exact Hx].
  unfold year_month in Hkey. destruct (Year l), (Month l); try discriminate.
  injection Hkey as _ ->. rewrite Hm. reflexivity.
Qed.

End AlbedoTable.

Section PermutedSums.

(** Rational addition commutes on the right as fractions, not only up to
    [Qeq]. *)
Lemma Qplus_right_comm (a x y : Q) : (a + x + y = a + y + x)%Q.
Proof.
  destruct a as [na da], x as [nx dx], y as [ny dy]. unfold Qplus. cbn [Qnum Qden].
  f_equal; [rewrite !Pos2Z.inj_mul; ring | lia].
Qed.

Lemma fold_left_Qplus_Permutation xs ys :
  xs ≡ₚ ys -> forall a, fold_left Qplus xs a = fold_left Qplus ys a.
Proof.
  induction 1 as [| x xs ys _ IH | x y xs | xs ys zs _ IH1 _ IH2]; intros a; cbn [fold_left].
  - reflexivity.
  - apply IH.
  - rewrite Qplus_right_comm. reflexivity.
  - rewrite IH1. apply IH2.
Qed.

Lemma concat_Permutation {A} (ls ks : list (list A)) : ls ≡ₚ ks -> concat ls ≡ₚ concat ks.
Proof.
  induction 1 as [| l ls ks _ IH | l k ls | ls ks ms _ IH1 _ IH2]; cbn [concat].
  - reflexivity.
  - rewrite IH. reflexivity.
  - rewrite !app_assoc. f_equiv. apply Permutation_app_comm.
  - rewrite IH1. exact IH2.
Qed.

Lemma group_keys_Permutation (ks ks' : list Z) :
  ks ≡ₚ ks' -> merge_sort Z.le (remove_dups ks) = merge_sort Z.le (remove_dups ks').
Proof.
  intros Hperm. apply (StronglySorted_unique Z.le).
  - apply StronglySorted_merge_sort; apply _.
  - apply StronglySorted_merge_sort; apply _.
  - rewrite !merge_sort_Permutation.
    apply NoDup_Permutation; [apply NoDup_remove_dups | apply NoDup_remove_dups |].
    intros k. rewrite !elem_of_remove_dups, Hperm. reflexivity.
Qed.

End PermutedSums.

Section AlbedoOrder.
Import MonthlyAlbedo.

Lemma mean_Permutation xs ys : xs ≡ₚ ys -> mean xs = mean ys.
Proof.
  intros Hperm. unfold mean, sum_Q.
  destruct xs as [| x xs], ys as [| y ys]; [reflexivity | | |].
  - apply Permutation_nil_l in Hperm. discriminate.
  - symmetry in Hperm. apply Permutation_nil_l in Hperm. discriminate.
  - rewrite (fold_left_Qplus_Permutation _ _ Hperm), (Permutation_length Hperm). reflexivity.
Qed.

Lemma groupby_month_Permutation combined_data combined_data' :
  combined_data ≡ₚ combined_data' ->
  groupby_month combined_data = groupby_month combined_data'.
Proof.
  intros Hperm. unfold groupby_month.
  rewrite (group_keys_Permutation (map m_Month combined_data) (map m_Month combined_data'))
    by (apply fmap_Permutation, Hperm).
  apply map_ext. intros m. f_equal. apply mean_Permutation.
  apply omap_Permutation, filter_Permutation, Hperm.
Qed.

(** X4. The order in which [os.listdir] lists the folder does not
    matter: two listings of the same entries give the same result, the
    average being taken in exact arithmetic. *)
Theorem albedo_listing_order_irrelevant folder folder' :
  folder ≡ₚ folder' ->
  calculate_monthly_avg_albedo folder = calculate_monthly_avg_albedo folder'.
Proof.
  intros Hperm. rewrite !calculate_monthly_avg_albedo_unfold.
  assert (Hframes :
            map (fun f => groupby_year_month (lines f))
                (filter (fun f => endswith (file_name f) ".csv" = true) folder) ≡ₚ
            map (fun f => groupby_year_month (lines f))
                (filter (fun f => endswith (file_name f) ".csv" = true) folder')).
  { apply fmap_Permutation, filter_Permutation, Hperm. }
  unfold pd_concat.
  destruct (map _ (filter _ folder)) as [| d ds] eqn:H1,
           (map _ (filter _ folder')) as [| d' ds'] eqn:H2.
  - reflexivity.
  - apply Permutation_nil_l in Hframes. discriminate.
  - symmetry in Hframes. apply Permutation_nil_l in Hframes. discriminate.
  - f_equal. apply groupby_month_Permutation, concat_Permutation, Hframes.
Qed.

End AlbedoOrder.

(** ** The frame of adjusted heights *)

Section SnowTable.
Import MonthlySnow.

(** The frame the function returns for a fetch with a [snow] column. *)
Lemma snow_present_frame fetched row_height snow :
  columns fetched !! "snow" = Some snow ->
  calculate_new_row_height fetched row_height =
  inr {| printed := [];
         frame :=
           map (fun r => (fst r, np_sub row_height (snd r)))
               (map (fun r => (fst r, np_truediv (snd r) (Finite 1000)))
                    (groupby_mean
                       (map (fun t => CInt (Calendar.month (Calendar.date_of t)))
                            (index fetched))
                       (map fillna0 snow))) |}.
Proof.
  intros Hsome. unfold calculate_new_row_height. cbn [columns index].
  rewrite lookup_insert_ne by discriminate. rewrite Hsome.
  rewrite bool_decide_eq_true_2 by (apply elem_of_dom; rewrite lookup_insert_eq; eauto).
  rewrite lookup_insert_ne by discriminate. rewrite !lookup_insert_eq. reflexivity.
Qed.

Lemma omap_cell_key_CInt (f : Z -> Z) (dates : list Z) :
  omap cell_key (map (fun t => CInt (f t)) dates) = map f dates.
Proof. induction dates as [| t dates IH]; [reflexivity |]. cbn [map]. rewrite <- IH. reflexivity. Qed.

Lemma map_fst_groupby_mean keys vals :
  map fst (groupby_mean keys vals) = merge_sort Z.le (remove_dups (omap cell_key keys)).
Proof. unfold groupby_mean. rewrite map_map. cbn [fst]. apply map_id. Qed.

(** X6. The frame of adjusted heights has one line per month, months
    ascending, and a month has a line exactly when the index of the fetched
    records has a day of that month. *)
Theorem snow_months_ascending fetched row_height r :
  calculate_new_row_height fetched row_height = inr r ->
  StronglySorted Z.lt (map fst (frame r)) /\
  (forall m, m ∈ map fst (frame r) <->
             exists t, t ∈ index fetched /\ Calendar.month (Calendar.date_of t) = m).
Proof.
  intros Hret. destruct (columns fetched !! "snow") as [snow |] eqn:Hsnow.
  2: { rewrite snow_missing in Hret by assumption. discriminate. }
  rewrite (snow_present_frame _ _ _ Hsnow) in Hret. injection Hret as <-. cbn [frame].
  rewrite !map_map. cbn [fst].
  change (map (fun x : Z * npfloat => fst x)) with (map (@fst Z npfloat)).
  rewrite map_fst_groupby_mean, (omap_cell_key_CInt (fun t => Calendar.month (Calendar.date_of t))).
  split; [apply group_keys_ascending |].
  intros m. rewrite elem_of_group_keys. split.
  - intros Hm. apply list_elem_of_fmap in Hm as [t [-> Ht]]. eauto.
  - intros [t [Ht <-]]. apply list_elem_of_fmap. eauto.
Qed.

Lemma snow_mean_bounds lo hi xs :
  xs <> [] -> Forall (fun x => lo <= x <= hi)%Q xs ->
  exists a, mean xs = Finite a /\ (lo <= a <= hi)%Q.
Proof.
  intros Hne Hall. destruct xs as [| x xs]; [contradiction |].
  eexists. split; [reflexivity |].
  apply quotient_bounds; [apply (length_pos_Q (x :: xs)); discriminate |].
  apply (sum_Q_bounds lo hi (x :: xs)), Hall.
Qed.

Lemma fillna0_value c : exists q, cell_value (fillna0 c) = Some q /\
                                  (cell_value c = Some q \/ (c = CNaN /\ q = 0%Q)).
Proof. destruct c as [| q | z]; cbn; eauto. Qed.

(** The monthly means of a filled column that is as long as the index. *)
Lemma groupby_mean_filled lo hi (f : Z -> Z) (dates : list Z) (snow : list cell) k v :
  length snow = length dates ->
  (lo <= 0 <= hi)%Q ->
  (forall c q, c ∈ snow -> cell_value c = Some q -> (lo <= q <= hi)%Q) ->
  (k, v) ∈ groupby_mean (map (fun t => CInt (f t)) dates) (map fillna0 snow) ->
  exists a, v = Finite a /\ (lo <= a <= hi)%Q.
Proof.
  intros Hlen Hzero Hdepths Hin. unfold groupby_mean in Hin.
  apply list_elem_of_fmap in Hin as [k' [Heq Hk]]. injection Heq as <- ->.
  rewrite merge_sort_Permutation, elem_of_remove_dups, omap_cell_key_CInt in Hk.
  apply snow_mean_bounds.
  - apply list_elem_of_fmap in Hk as [t [-> Ht]].
    apply list_elem_of_lookup in Ht as [i Hi].
    destruct (lookup_lt_is_Some_2 snow i) as [c Hc].
    { rewrite Hlen. apply lookup_lt_Some in Hi. exact Hi. }
    destruct (fillna0_value c) as [q [Hq _]].
    intros Hnil.
    assert (Hq' : q ∈ omap (fun r : cell * cell =>
                     if decide (cell_key (fst r) = Some (f t))
                     then cell_value (snd r) else None)
                    (zip (map (fun t => CInt (f t)) dates) (map fillna0 snow))).
    { apply list_elem_of_omap.
      exists (CInt (f t), fillna0 c). split.
      - apply list_elem_of_lookup. exists i. rewrite lookup_zip_with.
        rewrite !list_lookup_fmap, Hi, Hc. reflexivity.
      - cbn [fst snd cell_key]. rewrite decide_True by reflexivity. exact Hq. }
    rewrite Hnil in Hq'. inversion Hq'.
  - apply Forall_forall. intros q Hq.
    apply list_elem_of_omap in Hq as [[key val] [Hrow Hq]]. cbn [fst snd] in Hq.
    destruct (decide _); [| discriminate].
    apply elem_of_zip_r in Hrow. apply list_elem_of_fmap in Hrow as [c [-> Hc]].
    destruct (fillna0_value c) as [q' [Hq' [Hval | [-> ->]]]].
    + rewrite Hq' in Hq. injection Hq as <-. eapply Hdepths; eassumption.
    + cbn in Hq. injection Hq as <-. exact Hzero.
Qed.

(** The heights of the frame: finite, and lowered by no less than the
    shallowest and no more than the deepest recorded snow. *)
Lemma frame_heights_bounded fetched snow h lo hi r :
  columns fetched !! "snow" = Some snow ->
  length snow = length (index fetched) ->
  (lo <= 0 <= hi)%Q ->
  (forall c q, c ∈ snow -> cell_value c = Some q -> (lo <= q <= hi)%Q) ->
  calculate_new_row_height fetched (Finite h) = inr r ->
  Forall (fun line => exists a, snd line = Finite a /\
                                (h - hi / 1000 <= a <= h - lo / 1000)%Q)
         (frame r).
Proof.
  intros Hsnow Hlen Hzero Hdepths Hret.
  rewrite (snow_present_frame _ _ _ Hsnow) in Hret. injection Hret as <-. cbn [frame].
  rewrite map_map. apply Forall_fmap, Forall_forall. intros [k v] Hin. cbn [fst snd].
  destruct (groupby_mean_filled lo hi _ _ _ k v Hlen Hzero Hdepths Hin) as [a [-> [Hlo Hhi]]].
  cbn [np_truediv np_sub]. change (Qzero 1000) with false. cbn match.
  eexists. split; [reflexivity |].
  assert (Hlo' : (lo / 1000 <= a / 1000)%Q)
    by (apply Qmult_le_compat_r; [exact Hlo | discriminate]).
  assert (Hhi' : (a / 1000 <= hi / 1000)%Q)
    by (apply Qmult_le_compat_r; [exact Hhi | discriminate]).
  split; lra.
Qed.

(** X7. For a finite row height and a fetched frame whose [snow] column
    is as long as its index, every adjusted height is a finite number: a
    missing depth counts as zero, and the row height is lowered by at least
    the shallowest and at most the deepest recorded depth, in metres. *)
Theorem snow_heights_finite_bounded fetched snow h lo hi r :
  columns fetched !! "snow" = Some snow ->
  length snow = length (index fetched) ->
  (lo <= 0 <= hi)%Q ->
  (forall c q, c ∈ snow -> cell_value c = Some q -> (lo <= q <= hi)%Q) ->
  calculate_new_row_height fetched (Finite h) = inr r ->
  forall m v, (m, v) ∈ frame r ->
              exists a, v = Finite a /\ (h - hi / 1000 <= a <= h - lo / 1000)%Q.
Proof.
  intros Hsnow Hlen Hzero Hdepths Hret m v Hin.
  pose proof (frame_heights_bounded _ _ _ _ _ _ Hsnow Hlen Hzero Hdepths Hret) as Hall.
  rewrite Forall_forall in Hall. apply (Hall (m, v) Hin).
Qed.

End SnowTable.

(** ** The summary of the layout survey *)

Section RevealHeights.
Import Pvtune.

Lemma pvtune_Qlt_bool_true a b : Pvtune.Qlt_bool a b = true <-> (a < b)%Q.
Proof.
  unfold Pvtune.Qlt_bool. rewrite negb_true_iff. split.
  - intros Hb. apply Qnot_le_lt. intros Hle. apply Qle_bool_iff in Hle. congruence.
  - intros Hlt. destruct (Qle_bool b a) eqn:Hb; [| reflexivity].
    apply Qle_bool_iff in Hb. exfalso. apply (Qlt_not_le _ _ Hlt Hb).
Qed.

Lemma pvtune_Qlt_bool_false a b : Pvtune.Qlt_bool a b = false <-> (b <= a)%Q.
Proof.
  unfold Pvtune.Qlt_bool. rewrite negb_false_iff. apply Qle_bool_iff.
Qed.

(** The running maximum of a scan is one of the values and no value
    exceeds it. *)
Lemma fold_max_spec xs : forall x0,
  let m := fold_left (fun m y => if Pvtune.Qlt_bool m y then y else m) xs x0 in
  m ∈ x0 :: xs /\ Forall (fun y => (y <= m)%Q) (x0 :: xs).
Proof.
  induction xs as [| x xs IH]; intros x0; cbn [fold_left].
  - split; [constructor | repeat constructor; apply Qle_refl].
  - cbn zeta in IH. destruct (Pvtune.Qlt_bool x0 x) eqn:Hlt.
    + destruct (IH x) as [Hin Hall]. split; [right; exact Hin |].
      apply pvtune_Qlt_bool_true in Hlt.
      apply Forall_cons_1 in Hall as [Hx Hrest].
      constructor; [| constructor; assumption]. lra.
    + destruct (IH x0) as [Hin Hall]. apply pvtune_Qlt_bool_false in Hlt.
      apply Forall_cons_1 in Hall as [Hx0 Hrest]. split.
      * apply elem_of_cons in Hin as [-> | Hin]; [left | right; right; exact Hin].
      * constructor; [exact Hx0 |]. constructor; [lra | exact Hrest].
Qed.

Lemma Qmax_list_spec xs m :
  Qmax_list xs = Some m -> m ∈ xs /\ Forall (fun y => (y <= m)%Q) xs.
Proof.
  destruct xs as [| x xs]; [discriminate |]. intros [= <-]. apply fold_max_spec.
Qed.

(** Rounding up to the quarter and adding the clearance of 0.75. *)
Lemma rounded_reveal_height_bounds x :
  (x + (3 # 4) <= rounded_reveal_height x)%Q /\ (rounded_reveal_height x < x + 1)%Q.
Proof.
  unfold rounded_reveal_height.
  pose proof (Qle_ceiling (x * 4)) as Hle. pose proof (Qceiling_lt (x * 4)) as Hlt.
  unfold Z.sub in Hlt. rewrite inject_Z_plus in Hlt. change (inject_Z (- (1))) with (Z.neg 1 # 1)%Q in Hlt.
  set (c := inject_Z (Qceiling (x * 4))) in *.
  assert (Hq : (c / 4 == c * (1 # 4))%Q) by (field).
  rewrite Hq. clearbody c. split; lra.
Qed.

(** X9. The rounded reveal height of a tracker row comes from the
    greatest reveal height [x] recorded on a line of that row: it is 0.75
    plus a whole number of quarters, at least [x + 0.75] and below
    [x + 1]. *)
Theorem max_reveal_height_rounding df id r :
  max_reveal_height df id = Some r ->
  exists x,
    (exists l, l ∈ df /\ Tracker_Row_Id l = id /\ Reveal_Height l = Some x) /\
    (forall l y, l ∈ df -> Tracker_Row_Id l = id -> Reveal_Height l = Some y -> (y <= x)%Q) /\
    (x + (3 # 4) <= r)%Q /\ (r < x + 1)%Q /\
    exists k : Z, r = ((3 # 4) + inject_Z k / 4)%Q.
Proof.
  unfold max_reveal_height. intros Hr. apply fmap_Some in Hr as [x [Hmax ->]].
  apply Qmax_list_spec in Hmax as [Hin Hall]. exists x.
  apply list_elem_of_omap in Hin as [l [Hl Hx]].
  apply list_elem_of_filter in Hl as [Hid Hl].
  split; [eauto |]. split.
  - intros l' y Hl' Hid' Hy. rewrite Forall_forall in Hall. apply Hall.
    apply list_elem_of_omap. exists l'. split; [| exact Hy].
    apply list_elem_of_filter. auto.
  - destruct (rounded_reveal_height_bounds x) as [Hlo Hhi].
    split; [exact Hlo |]. split; [exact Hhi |]. eexists. reflexivity.
Qed.

End RevealHeights.

Section SummaryFacts.
Import Pvtune.

Lemma process_pvtune_output_summary df summary w :
  process_pvtune_output df = inr (summary, w) -> summary = summary_df (new_df df).
Proof.
  unfold process_pvtune_output. destruct (spans_are_objects df); [discriminate |].
  destruct (modules_are_objects df).
  - destruct (py_truediv _ _); [discriminate |]. intros [= <- _]. reflexivity.
  - intros [= <- _]. reflexivity.
Qed.

Lemma key_eqb_refl k : key_eqb k k = true.
Proof.
  unfold key_eqb. rewrite String.eqb_refl, andb_true_r. apply Qeq_bool_iff, Qeq_refl.
Qed.

Lemma key_eqb_sym a b : key_eqb a b = true -> key_eqb b a = true.
Proof.
  unfold key_eqb. rewrite !andb_true_iff, !Qeq_bool_iff, !String.eqb_eq.
  intros [Hq Hs]. split; symmetry; assumption.
Qed.

Lemma key_eqb_trans a b c : key_eqb a b = true -> key_eqb b c = true -> key_eqb a c = true.
Proof.
  unfold key_eqb. rewrite !andb_true_iff, !Qeq_bool_iff, !String.eqb_eq.
  intros [Hq1 Hs1] [Hq2 Hs2]. split; [rewrite Hq1; exact Hq2 | congruence].
Qed.

Lemma distinct_keys_subset ks k : k ∈ distinct_keys ks -> k ∈ ks.
Proof.
  revert k. induction ks as [| k0 ks IH]; intros k; cbn [distinct_keys]; [trivial |].
  intros Hk. apply elem_of_cons in Hk as [-> | Hk]; [left |].
  apply list_elem_of_filter in Hk as [_ Hk]. right. apply IH, Hk.
Qed.

(** Among the distinct keys, exactly one equals a key of the list. *)
Lemma distinct_keys_count ks k0 :
  length (filter (fun k => key_eqb k k0 = true) (distinct_keys ks)) =
  if existsb (fun k => key_eqb k k0) ks then 1%nat else 0%nat.
Proof.
  induction ks as [| k ks IH]; [reflexivity |].
  cbn [distinct_keys existsb]. destruct (key_eqb k k0) eqn:Hk; cbn [orb].
  - rewrite filter_cons_True by assumption. cbn [length]. f_equal.
    apply length_zero_iff_nil, elem_of_nil_inv. intros x Hx.
    apply list_elem_of_filter in Hx as [Hx0 Hx]. apply list_elem_of_filter in Hx as [Hkx _].
    rewrite (key_eqb_trans k k0 x Hk (key_eqb_sym _ _ Hx0)) in Hkx. discriminate.
  - rewrite filter_cons_False by congruence. rewrite <- IH. f_equal.
    rewrite list_filter_filter. apply list_filter_iff. intros x. split; [tauto |].
    intros Hx. split; [exact Hx |].
    destruct (key_eqb k x) eqn:Hkx; [| reflexivity].
    rewrite (key_eqb_trans k x k0 Hkx Hx) in Hk. discriminate.
Qed.

Lemma existsb_key_eqb ks k : k ∈ ks -> existsb (fun k' => key_eqb k' k) ks = true.
Proof.
  intros Hk. apply existsb_exists. exists k. split; [apply list_elem_of_In, Hk |].
  apply key_eqb_refl.
Qed.

(** Every tracker row with a height falls in exactly one group of the
    summary, and a row without height in none. *)
Lemma summary_groups_count trackers keys t :
  keys ≡ₚ distinct_keys (omap tracker_key trackers) ->
  t ∈ trackers ->
  length (filter (fun k => in_group k t = true) keys) =
  match tracker_key t with Some _ => 1%nat | None => 0%nat end.
Proof.
  intros -> Ht. unfold in_group.
  destruct (tracker_key t) as [k0 |] eqn:Hkey.
  - rewrite distinct_keys_count, existsb_key_eqb; [reflexivity |].
    apply list_elem_of_omap. eauto.
  - apply length_zero_iff_nil, elem_of_nil_inv. intros x Hx.
    apply list_elem_of_filter in Hx as [Hx _]. discriminate.
Qed.

Lemma sum_Z_zeros {A} (l : list A) : sum_Z (map (fun _ => 0) l) = 0.
Proof. induction l as [| x l IH]; [reflexivity |]. cbn [map]. rewrite sum_Z_cons, IH. reflexivity. Qed.

Lemma sum_Z_map_plus {A} (f g : A -> Z) l :
  sum_Z (map (fun x => f x + g x) l) = sum_Z (map f l) + sum_Z (map g l).
Proof.
  induction l as [| x l IH]; [reflexivity |]. cbn [map]. rewrite !sum_Z_cons, IH. lia.
Qed.

Lemma sum_Z_indicator {A} (P : A -> bool) c l :
  sum_Z (map (fun x => if P x then c else 0) l) =
  c * Z.of_nat (length (filter (fun x => P x = true) l)).
Proof.
  induction l as [| x l IH]; [cbn; lia |]. cbn [map]. rewrite sum_Z_cons, IH.
  destruct (P x) eqn:HP.
  - rewrite filter_cons_True by assumption. cbn [length]. lia.
  - rewrite filter_cons_False by congruence. lia.
Qed.

(** A quantity summed group by group is the quantity summed over the rows
    that have a key, when each such row falls in exactly one group. *)
Lemma groups_partition (weight : tracker -> Z) keys trackers :
  (forall t, t ∈ trackers ->
             length (filter (fun k => in_group k t = true) keys) =
             match tracker_key t with Some _ => 1%nat | None => 0%nat end) ->
  sum_Z (map (fun k => sum_Z (map weight (filter (fun t => in_group k t = true) trackers)))
             keys) =
  sum_Z (map weight (filter (fun t => is_Some (tracker_key t)) trackers)).
Proof.
  induction trackers as [| t trackers IH]; intros Hcount.
  - rewrite filter_nil. cbn [map]. apply sum_Z_zeros.
  - rewrite (map_ext _ (fun k => (if in_group k t then weight t else 0) +
                                 sum_Z (map weight
                                            (filter (fun t => in_group k t = true) trackers)))).
    2: { intros k. destruct (in_group k t) eqn:Hk.
         - rewrite filter_cons_True by assumption. cbn [map]. apply sum_Z_cons.
         - rewrite filter_cons_False by congruence. lia. }
    rewrite sum_Z_map_plus, sum_Z_indicator, IH.
    2: { intros t' Ht'. apply Hcount. right. exact Ht'. }
    rewrite (Hcount t) by left.
    destruct (tracker_key t) as [k0 |] eqn:Hkey.
    + rewrite filter_cons_True by (rewrite Hkey; eauto). cbn [map]. rewrite sum_Z_cons. lia.
    + rewrite filter_cons_False by (rewrite Hkey; apply is_Some_None). lia.
Qed.

Lemma length_as_sum {A} (l : list A) : Z.of_nat (length l) = sum_Z (map (fun _ => 1) l).
Proof.
  induction l as [| x l IH]; [reflexivity |]. cbn [map length]. rewrite sum_Z_cons. lia.
Qed.

Lemma omap_as_sum {A} (f : A -> option Z) l :
  sum_Z (omap f l) = sum_Z (map (fun x => default 0 (f x)) l).
Proof.
  induction l as [| x l IH]; [reflexivity |]. cbn [map]. rewrite sum_Z_cons, <- IH.
  change (omap f (x :: l)) with (match f x with Some y => y :: omap f l | None => omap f l end).
  destruct (f x); [apply sum_Z_cons | reflexivity].
Qed.

Lemma length_omap_le {A B} (f : A -> option B) l : (length (omap f l) <= length l)%nat.
Proof.
  induction l as [| x l IH]; [reflexivity |].
  change (omap f (x :: l)) with (match f x with Some y => y :: omap f l | None => omap f l end).
  destruct (f x); cbn [length]; lia.
Qed.

Lemma filter_has_height (trackers : list tracker) :
  filter (fun t => is_Some (tracker_key t)) trackers =
  filter (fun t => is_Some (t_Max_Reveal_Height t)) trackers.
Proof.
  apply list_filter_iff. intros t. unfold tracker_key. rewrite fmap_is_Some. reflexivity.
Qed.

(** X11. The summary of a processed survey loses and repeats nothing:
    its row counts add up to the number of tracker rows that have a reveal
    height, and its module counts to the modules of those tracker rows. *)
Theorem summary_counts_conserved df summary w :
  process_pvtune_output df = inr (summary, w) ->
  let measured := filter (fun t => is_Some (t_Max_Reveal_Height t)) (new_df df) in
  sum_Z (map Number_of_Rows summary) = Z.of_nat (length measured) /\
  total_modules summary = sum_Z (omap t_Number_of_Modules measured).
Proof.
  intros Hproc measured. subst measured.
  apply process_pvtune_output_summary in Hproc as ->.
  unfold total_modules, summary_df. rewrite !map_map. cbn [Number_of_Rows Number_of_Total_Modules].
  rewrite <- filter_has_height, length_as_sum, omap_as_sum. split.
  - rewrite <- (groups_partition (fun _ => 1) _ _ (fun t => summary_groups_count (new_df df) _ t
                              (@merge_sort_Permutation _ key_le key_le_dec _))).
    f_equal. apply map_ext. intros k. apply length_as_sum.
  - rewrite <- (groups_partition (fun t => default 0 (t_Number_of_Modules t)) _ _
                  (fun t => summary_groups_count (new_df df) _ t
                              (@merge_sort_Permutation _ key_le key_le_dec _))).
    f_equal. apply map_ext. intros k. apply omap_as_sum.
Qed.

Lemma number_of_modules_values x m : number_of_modules x = Some m -> m = 78 \/ m = 104.
Proof.
  unfold number_of_modules. destruct x as [x |]; [| discriminate].
  destruct (_ && _); [intros [= <-]; auto |].
  destruct (_ && _); [intros [= <-]; auto | discriminate].
Qed.

Lemma new_df_modules_values df t m :
  t ∈ new_df df -> t_Number_of_Modules t = Some m -> m = 78 \/ m = 104.
Proof.
  unfold new_df. intros Ht. apply list_elem_of_fmap in Ht as [id [-> _]]. cbn.
  intros Hhead. apply head_Some_elem_of, list_elem_of_omap in Hhead as [r [_ Hm]].
  eapply number_of_modules_values, Hm.
Qed.

Lemma new_df_description df t :
  t ∈ new_df df -> t_Description t = "Ext" \/ t_Description t = "Int".
Proof.
  unfold new_df. intros Ht. apply list_elem_of_fmap in Ht as [id [-> _]]. cbn.
  destruct (existsb _ _); auto.
Qed.

Lemma sum_Z_upper c xs : Forall (fun x => x <= c) xs -> sum_Z xs <= c * Z.of_nat (length xs).
Proof.
  induction 1 as [| x xs Hx Hxs IH]; [cbn; lia |].
  rewrite sum_Z_cons. cbn [length]. lia.
Qed.

(** X10. Every line of the summary of a processed survey is described
    as "Ext" or "Int", counts at least one tracker row, counts between zero
    and 104 modules per tracker row, and weighs its height by its module
    count. *)
Theorem summary_lines_invariant df summary w :
  process_pvtune_output df = inr (summary, w) ->
  Forall (fun row =>
            (s_Description row = "Ext" \/ s_Description row = "Int") /\
            1 <= Number_of_Rows row /\
            0 <= Number_of_Total_Modules row <= 104 * Number_of_Rows row /\
            Weighted_Height row =
              (Max_Reveal_Height row * inject_Z (Number_of_Total_Modules row))%Q)
         summary.
Proof.
  intros Hproc. apply process_pvtune_output_summary in Hproc as ->.
  unfold summary_df. apply Forall_fmap, Forall_forall. intros k Hk. cbn.
  rewrite merge_sort_Permutation in Hk. apply distinct_keys_subset in Hk.
  apply list_elem_of_omap in Hk as [t [Ht Hkey]].
  set (g := filter (fun t => in_group k t = true) (new_df df)).
  assert (Htg : t ∈ g).
  { apply list_elem_of_filter. split; [| exact Ht].
    unfold in_group. rewrite Hkey. apply key_eqb_refl. }
  assert (Hmod : Forall (fun m => 0 <= m <= 104) (omap t_Number_of_Modules g)).
  { apply Forall_forall. intros m Hm. apply list_elem_of_omap in Hm as [t' [Ht' Hm]].
    apply list_elem_of_filter in Ht' as [_ Ht'].
    destruct (new_df_modules_values df t' m Ht' Hm); lia. }
  split; [| split; [| split; [split |]]].
  - unfold tracker_key in Hkey. apply fmap_Some in Hkey as [h [_ ->]]. cbn [snd].
    apply new_df_description with df, Ht.
  - destruct g; [inversion Htg | cbn [length]; lia].
  - apply sum_Z_nonneg. eapply Forall_impl; [exact Hmod |]. intros m Hm. cbn in Hm. lia.
  - etransitivity.
    + apply (sum_Z_upper 104). eapply Forall_impl; [exact Hmod |]. intros m Hm. cbn in Hm. lia.
    + apply Z.mul_le_mono_nonneg_l; [lia |]. apply inj_le, length_omap_le.
  - reflexivity.
Qed.

Lemma weighted_sum_bounds lo hi (summary : list summary_row) :
  Forall (fun row => 0 <= Number_of_Total_Modules row /\
                     Weighted_Height row =
                     (Max_Reveal_Height row * inject_Z (Number_of_Total_Modules row))%Q /\
                     (lo <= Max_Reveal_Height row <= hi)%Q) summary ->
  (lo * inject_Z (total_modules summary) <= sum_Q (map Weighted_Height summary) <=
   hi * inject_Z (total_modules summary))%Q.
Proof.
  unfold total_modules.
  induction 1 as [| row summary (Hpos & Hweight & Hlo & Hhi) Hrest [IHlo IHhi]].
  - unfold sum_Q, sum_Z. cbn. split; ring_simplify; apply Qle_refl.
  - cbn [map]. rewrite sum_Q_cons, sum_Z_cons, inject_Z_plus, Hweight.
    assert (Hm : (0 <= inject_Z (Number_of_Total_Modules row))%Q).
    { unfold Qle. cbn. lia. }
    split; nra.
Qed.

(** The weighted average of a survey with modules is a finite number
    between the least and the greatest height of the summary. *)
Lemma weighted_average_bounds df summary w lo hi :
  process_pvtune_output df = inr (summary, w) ->
  0 < total_modules summary ->
  Forall (fun row => (lo <= Max_Reveal_Height row <= hi)%Q) summary ->
  exists a, w = Finite a /\ (lo <= a <= hi)%Q /\
            (a * inject_Z (total_modules summary) == sum_Q (map Weighted_Height summary))%Q.
Proof.
  intros Hproc Htotal Hheights.
  pose proof (process_pvtune_output_summary _ _ _ Hproc) as Hsummary.
  assert (Hbounds :
            (lo * inject_Z (total_modules summary) <= sum_Q (map Weighted_Height summary) <=
             hi * inject_Z (total_modules summary))%Q).
  { apply weighted_sum_bounds.
    pose proof (summary_df_rows _ (new_df_modules_nonneg df)) as Hrows.
    rewrite <- Hsummary in Hrows. rewrite Forall_forall in Hrows, Hheights.
    apply Forall_forall. intros row Hrow.
    destruct (Hrows row Hrow) as [Hpos Hweight]. split; [exact Hpos |].
    split; [exact Hweight | apply Hheights, Hrow]. }
  assert (Hpos : (0 < inject_Z (total_modules summary))%Q).
  { unfold Qlt. cbn. lia. }
  assert (Hnz : Qzero (inject_Z (total_modules summary)) = false).
  { rewrite Qzero_inject_Z. apply Z.eqb_neq. lia. }
  exists (sum_Q (map Weighted_Height summary) / inject_Z (total_modules summary))%Q.
  split; [| split; [apply quotient_bounds; assumption | field; lra]].
  revert Hproc. unfold process_pvtune_output. rewrite <- Hsummary.
  destruct (spans_are_objects df); [discriminate |].
  destruct (modules_are_objects df).
  - unfold py_truediv. rewrite Hnz. intros [= <-]. reflexivity.
  - unfold weighted_average, np_truediv. rewrite Hnz. intros [= <-]. reflexivity.
Qed.

(** X12. When a processed survey counts at least one module, the
    weighted average reveal height is a number, neither NaN nor infinite,
    and lies between the least and the greatest height of the summary. *)
Theorem weighted_average_between_heights df summary w lo hi :
  process_pvtune_output df = inr (summary, w) ->
  0 < total_modules summary ->
  Forall (fun row => (lo <= Max_Reveal_Height row <= hi)%Q) summary ->
  exists a, w = Finite a /\ (lo <= a <= hi)%Q.
Proof.
  intros Hproc Htotal Hheights.
  destruct (weighted_average_bounds _ _ _ _ _ Hproc Htotal Hheights) as (a & Hw & Hbounds & _).
  exists a. split; [exact Hw | exact Hbounds].
Qed.

End SummaryFacts.

Section ModuleCounts.
Import Pvtune.




End ModuleCounts.

(** ** The passes of the loop, whatever its outcome *)

Section LoopPrefix.
Context `{PowerModel}.
Variable plant : PlantConfig.
Variable albedo_data : list (Z * Q).
Variable adjusted_heights_df : list (Z * npfloat).
Variable height : npfloat.
Variable n_pvrows : Z.
Variable axis_tilt : Q.

Local Abbreviation body := (Simulation.loop_body plant albedo_data adjusted_heights_df height n_pvrows axis_tilt).
Local Abbreviation loop := (Simulation.while_loop plant albedo_data adjusted_heights_df height n_pvrows axis_tilt).
Local Abbreviation run := (Simulation.run_of plant albedo_data adjusted_heights_df height n_pvrows axis_tilt).

Lemma loop_body_raises st :
  Simulation.day_localizes (tz plant) (Simulation.start_date st) = false ->
  exists e, body st = ([], inl (LocalizeError e)).
Proof.
  unfold Simulation.loop_body, Simulation.date_range_20min, Simulation.day_localizes.
  destruct (Tz.date_range _ _ _ _) as [e | times]; [| discriminate].
  intros _. exists e. reflexivity.
Qed.

(** Whatever happens, the passes the loop has logged are those of the first
    sampled dates, in order. *)
Lemma while_loop_runs_prefix fuel : forall end_date st,
  exists n, (n <= fuel)%nat /\
            runs (loop fuel end_date st) =
            map run (Simulation.sample_dates (Simulation.start_date st) n).
Proof.
  induction fuel as [| fuel IH]; intros end_date st; cbn [Simulation.while_loop].
  - exists O. split; [lia | reflexivity].
  - destruct (Simulation.start_date st <=? end_date); [| exists O; split; [lia | reflexivity]].
    destruct (Simulation.day_localizes (tz plant) (Simulation.start_date st)) eqn:Hloc.
    + rewrite (bind_returns _ _ _ _ (loop_body_localized _ _ _ _ _ _ st Hloc)).
      destruct (IH end_date
                  {| Simulation.start_date :=
                       Simulation.start_date st + Calendar.Timedelta_days 10;
                     Simulation.total_energy_bi :=
                       (Simulation.total_energy_bi st +
                        Simulation.day_energy plant albedo_data adjusted_heights_df height
                          n_pvrows axis_tilt (Simulation.start_date st))%Q;
                     Simulation.count := Simulation.count st + 1 |}) as [n [Hn Hruns]].
      exists (S n). split; [lia |].
      unfold runs at 1. cbn [fst]. rewrite Hruns, sample_dates_S. reflexivity.
    + destruct (loop_body_raises st Hloc) as [e ->].
      exists O. split; [lia | reflexivity].
Qed.

(** The loop fails only where a day cannot be localized; when it returns
    after entering, it has counted at least one pass. *)
Lemma while_loop_outcome fuel : forall end_date st,
  match outcome (loop fuel end_date st) with
  | inl e => exists le, e = LocalizeError le
  | inr st' =>
      Simulation.count st <= Simulation.count st' /\
      (fuel <> O -> Simulation.start_date st <= end_date ->
       Simulation.count st < Simulation.count st')
  end.
Proof.
  induction fuel as [| fuel IH]; intros end_date st; cbn [Simulation.while_loop].
  - cbn. split; [lia | congruence].
  - destruct (Z.leb_spec (Simulation.start_date st) end_date) as [Hle | Hgt].
    2: { cbn. split; lia. }
    destruct (Simulation.day_localizes (tz plant) (Simulation.start_date st)) eqn:Hloc.
    + rewrite (bind_returns _ _ _ _ (loop_body_localized _ _ _ _ _ _ st Hloc)).
      unfold outcome at 1. cbn [snd].
      specialize (IH end_date
                  {| Simulation.start_date :=
                       Simulation.start_date st + Calendar.Timedelta_days 10;
                     Simulation.total_energy_bi :=
                       (Simulation.total_energy_bi st +
                        Simulation.day_energy plant albedo_data adjusted_heights_df height
                          n_pvrows axis_tilt (Simulation.start_date st))%Q;
                     Simulation.count := Simulation.count st + 1 |}).
      destruct (outcome _) as [e | st']; [exact IH |].
      cbn [Simulation.count] in IH. destruct IH as [Hcount _]. split; lia.
    + destruct (loop_body_raises st Hloc) as [e ->]. cbn. eauto.
Qed.

(** The loop stops at the first day that cannot be localized, with the
    passes of the days before it logged. *)
Lemma while_loop_stops k : forall fuel end_date st,
  (k < fuel)%nat ->
  Simulation.start_date st + Calendar.Timedelta_days 10 * Z.of_nat k <= end_date ->
  Forall (fun d => Simulation.day_localizes (tz plant) d = true)
         (Simulation.sample_dates (Simulation.start_date st) k) ->
  Simulation.day_localizes (tz plant)
    (Simulation.start_date st + Calendar.Timedelta_days 10 * Z.of_nat k) = false ->
  exists e, loop fuel end_date st =
            (map run (Simulation.sample_dates (Simulation.start_date st) k),
             inl (LocalizeError e)).
Proof.
  induction k as [| k IH]; intros fuel end_date st Hfuel Hend Hloc Hbad;
    (destruct fuel as [| fuel]; [lia |]); cbn [Simulation.while_loop].
  - rewrite Z.mul_0_r, Z.add_0_r in Hend, Hbad.
    replace (Simulation.start_date st <=? end_date) with true by (symmetry; apply Z.leb_le; lia).
    destruct (loop_body_raises st Hbad) as [e ->]. exists e. reflexivity.
  - assert (Hstep : 0 <= Calendar.Timedelta_days 10 * Z.of_nat k)
      by (unfold Calendar.Timedelta_days, Calendar.minutes_per_day; lia).
    replace (Simulation.start_date st <=? end_date) with true
      by (symmetry; apply Z.leb_le;
          unfold Calendar.Timedelta_days, Calendar.minutes_per_day in *; lia).
    rewrite sample_dates_S in Hloc |- *. inversion Hloc as [| ? ? Hd Hrest]; subst.
    rewrite (bind_returns _ _ _ _ (loop_body_localized _ _ _ _ _ _ st Hd)).
    destruct (IH fuel end_date
                {| Simulation.start_date :=
                     Simulation.start_date st + Calendar.Timedelta_days 10;
                   Simulation.total_energy_bi :=
                     (Simulation.total_energy_bi st +
                      Simulation.day_energy plant albedo_data adjusted_heights_df height
                        n_pvrows axis_tilt (Simulation.start_date st))%Q;
                   Simulation.count := Simulation.count st + 1 |}) as [e ->].
    + lia.
    + cbn [Simulation.start_date].
      unfold Calendar.Timedelta_days, Calendar.minutes_per_day in *. lia.
    + exact Hrest.
    + cbn [Simulation.start_date].
      replace (Simulation.start_date st + Calendar.Timedelta_days 10 +
               Calendar.Timedelta_days 10 * Z.of_nat k)
        with (Simulation.start_date st + Calendar.Timedelta_days 10 * Z.of_nat (S k))
        by (unfold Calendar.Timedelta_days, Calendar.minutes_per_day; lia).
      exact Hbad.
    + exists e. reflexivity.
Qed.

Lemma simulate_year_runs_prefix start end_date :
  exists n, (n <= Simulation.passes start end_date)%nat /\
            runs (Simulation.simulate_year plant albedo_data adjusted_heights_df height
                    n_pvrows axis_tilt start end_date) =
            map run (Simulation.sample_dates start n).
Proof.
  unfold Simulation.simulate_year.
  destruct (while_loop_runs_prefix (Simulation.passes start end_date) end_date
              {| Simulation.start_date := start; Simulation.total_energy_bi := 0;
                 Simulation.count := 0 |}) as [n [Hn Hruns]].
  exists n. split; [exact Hn |].
  rewrite runs_bind, Hruns. cbn [Simulation.start_date].
  destruct (outcome _) as [e | st]; [apply app_nil_r |].
  rewrite runs_bind. cbn. destruct (py_truediv _ _); cbn; apply app_nil_r.
Qed.

Lemma simulate_year_outcome start end_date :
  start <= end_date ->
  match outcome (Simulation.simulate_year plant albedo_data adjusted_heights_df height
                   n_pvrows axis_tilt start end_date) with
  | inl e => exists le, e = LocalizeError le
  | inr _ => True
  end.
Proof.
  intros Hle. unfold Simulation.simulate_year. rewrite outcome_bind.
  pose proof (while_loop_outcome (Simulation.passes start end_date) end_date
                {| Simulation.start_date := start; Simulation.total_energy_bi := 0;
                   Simulation.count := 0 |}) as Hloop.
  destruct (outcome _) as [e | st]; [exact Hloop |].
  cbn [Simulation.count Simulation.start_date] in Hloop. destruct Hloop as [_ Hcount].
  assert (Hpos : 0 < Simulation.count st).
  { apply Hcount; [| exact Hle]. rewrite passes_step by exact Hle. discriminate. }
  rewrite outcome_bind. unfold py_truediv. rewrite Qzero_inject_Z.
  replace (Simulation.count st =? 0) with false by (symmetry; apply Z.eqb_neq; lia).
  cbn. exact I.
Qed.

Lemma simulate_year_stops start end_date k :
  (k < Simulation.passes start end_date)%nat ->
  start + Calendar.Timedelta_days 10 * Z.of_nat k <= end_date ->
  Forall (fun d => Simulation.day_localizes (tz plant) d = true)
         (Simulation.sample_dates start k) ->
  Simulation.day_localizes (tz plant) (start + Calendar.Timedelta_days 10 * Z.of_nat k)
  = false ->
  exists e,
    Simulation.simulate_year plant albedo_data adjusted_heights_df height n_pvrows axis_tilt
      start end_date =
    (map run (Simulation.sample_dates start k), inl (LocalizeError e)).
Proof.
  intros Hk Hend Hloc Hbad. unfold Simulation.simulate_year.
  destruct (while_loop_stops k (Simulation.passes start end_date) end_date
              {| Simulation.start_date := start; Simulation.total_energy_bi := 0;
                 Simulation.count := 0 |} Hk Hend Hloc Hbad) as [e ->].
  exists e. reflexivity.
Qed.

End LoopPrefix.

Section EstimatorPasses.
Context `{PowerModel}.
Import Conditions.

Lemma n_pvrows_of_cases ext_or_int rows :
  n_pvrows_of ext_or_int = Some rows <->
  (ext_or_int = "Ext" /\ rows = 2) \/ (ext_or_int = "Int" /\ rows = 3).
Proof.
  unfold n_pvrows_of.
  destruct (String.eqb_spec ext_or_int "Ext") as [-> | Hext].
  { split; [intros [= <-]; auto | intros [[_ ->] | [[=] _]]; reflexivity]. }
  destruct (String.eqb_spec ext_or_int "Int") as [-> | Hint].
  { split; [intros [= <-]; auto | intros [[[=] _] | [_ ->]]; reflexivity]. }
  split; [discriminate | intros [[-> _] | [-> _]]; contradiction].
Qed.

(** Every pass the estimator logs is the pass of one of the 37 sampled
    dates, with the inputs the loop body builds for that date. *)
Lemma calculate_total_energy_runs_exact height ext_or_int opt_tilt albedo_data plant fetched :
  Forall (fun r => exists rows i,
              (i < 37)%nat /\
              run_start r = Calendar.Timestamp 2021 1 1 + Calendar.Timedelta_days 10 * Z.of_nat i /\
              r = Simulation.run_of plant albedo_data (adjusted_heights fetched height)
                    height rows opt_tilt (run_start r))
         (runs (BasicPredictor.calculate_total_energy height ext_or_int opt_tilt albedo_data
                  plant fetched)).
Proof.
  destruct (n_pvrows_of ext_or_int) as [rows |] eqn:Hclass.
  2: { rewrite calculate_total_energy_invalid by assumption. constructor. }
  unfold BasicPredictor.calculate_total_energy.
  fold invalid_class_error. rewrite (n_pvrows_of_Some _ _ Hclass), bind_ret.
  unfold adjusted_heights.
  destruct (MonthlySnow.calculate_new_row_height fetched height) as [e | heights];
    [constructor |].
  rewrite bind_lift_inr.
  destruct (simulate_year_runs_prefix plant albedo_data (MonthlySnow.frame heights) height rows
              opt_tilt (Calendar.Timestamp 2021 1 1) (Calendar.Timestamp 2021 12 31))
    as [n [Hn ->]].
  rewrite passes_2021 in Hn.
  apply Forall_fmap, Forall_forall. intros d Hd.
  unfold Simulation.sample_dates in Hd. apply list_elem_of_fmap in Hd as [i [-> Hi]].
  apply elem_of_seq in Hi. exists rows, i. cbn [run_start Simulation.run_of].
  split; [lia |]. split; reflexivity.
Qed.

End EstimatorPasses.

Section DayShape.

Lemma utcoffset_fixed off t : Tz.utcoffset (Tz.fixed off) t = off.
Proof. reflexivity. Qed.

(** In a zone of constant offset, the timestamps of a day that starts at a
    midnight read the date of that day, but for the last, which reads the
    next day. *)
Lemma month_of_fixed_sample off start (j : nat) :
  start mod Calendar.minutes_per_day = 0 ->
  (j < 73)%nat ->
  Tz.month_of (Tz.fixed off) (start - off + 20 * Z.of_nat j) =
  Tz.month_of Tz.UTC (if (j <? 72)%nat then start else start + Calendar.Timedelta_days 1).
Proof.
  intros Hmid Hj. unfold Tz.month_of, Tz.to_wall, Tz.UTC. rewrite !utcoffset_fixed.
  unfold Calendar.date_of. f_equal. f_equal.
  unfold Calendar.Timedelta_days, Calendar.minutes_per_day in *.
  apply Z.mod_divide in Hmid; [| lia]. destruct Hmid as [d ->].
  destruct (Nat.ltb_spec j 72) as [Hlt | Hge].
  - replace (d * 1440 - off + 20 * Z.of_nat j + off) with (20 * Z.of_nat j + d * 1440) by lia.
    rewrite Z.add_0_r, Z.div_add, Z.div_mul by lia. rewrite Z.div_small by lia. lia.
  - assert (j = 72%nat) as -> by lia.
    replace (d * 1440 - off + 20 * Z.of_nat 72 + off) with ((d + 1) * 1440) by lia.
    replace (d * 1440 + 1 * 1440 + 0) with ((d + 1) * 1440) by lia. reflexivity.
Qed.

Lemma sampled_start_midnight (i : nat) :
  (Calendar.Timestamp 2021 1 1 + Calendar.Timedelta_days 10 * Z.of_nat i)
    mod Calendar.minutes_per_day = 0.
Proof.
  unfold Calendar.Timestamp, Calendar.Timedelta_days, Calendar.minutes_per_day.
  replace (Calendar.days_from_civil 2021 1 1 * 1440 + 10 * 1440 * Z.of_nat i)
    with ((Calendar.days_from_civil 2021 1 1 + 10 * Z.of_nat i) * 1440) by lia.
  apply Z.mod_mul. lia.
Qed.

End DayShape.

Section EstimatorBehaviour.
Context `{PowerModel}.
Import Conditions.

(** X14. In a zone of constant UTC offset, each pass of the estimator
    gives pvfactors 73 albedo values: the first 72 are the albedo of the
    month of the start date, the last one, the midnight that closes the day,
    is the albedo of the month of the next day. *)
Theorem albedo_series_day_shape off height ext_or_int opt_tilt albedo_data plant fetched :
  tz plant = Tz.fixed off ->
  Forall (fun r =>
            length (in_albedo (run_inputs r)) = 73%nat /\
            forall j, (j < 73)%nat ->
              in_albedo (run_inputs r) !! j =
              Some (Simulation.get_albedo albedo_data Tz.UTC
                      (if (j <? 72)%nat then run_start r
                       else run_start r + Calendar.Timedelta_days 1)))
         (runs (BasicPredictor.calculate_total_energy height ext_or_int opt_tilt albedo_data
                  plant fetched)).
Proof.
  intros Hzone.
  eapply Forall_impl; [apply calculate_total_energy_runs_exact |].
  intros r (rows & i & Hi & Hstart & ->). cbn [run_start run_inputs Simulation.run_of] in *.
  cbn [in_albedo Simulation.day_inputs]. rewrite Hzone.
  unfold Simulation.times_of. rewrite date_range_fixed. split.
  - rewrite !length_map, length_seq. reflexivity.
  - intros j Hj. rewrite !list_lookup_fmap, lookup_seq_lt by lia.
    cbn [fmap option_fmap option_map]. f_equal.
    unfold Simulation.get_albedo. rewrite Nat.add_0_l.
    rewrite (month_of_fixed_sample off _ j) by (try lia; rewrite Hstart; apply sampled_start_midnight).
    reflexivity.
Qed.

(** X16. When the midnights of the first [k] sampled days exist in the
    zone of the plant and a midnight of the next sampled day does not, or is
    ambiguous, the estimator raises the localization error at that day,
    having simulated exactly the [k] days before it. *)
Theorem estimator_stops_at_unlocalizable_day
        height ext_or_int rows opt_tilt albedo_data plant fetched (k : nat) :
  n_pvrows_of ext_or_int = Some rows ->
  has_snow fetched ->
  (k < 37)%nat ->
  Forall (fun d => Simulation.day_localizes (tz plant) d = true)
         (Simulation.sample_dates (Calendar.Timestamp 2021 1 1) k) ->
  Simulation.day_localizes (tz plant)
    (Calendar.Timestamp 2021 1 1 + Calendar.Timedelta_days 10 * Z.of_nat k) = false ->
  exists e,
    BasicPredictor.calculate_total_energy height ext_or_int opt_tilt albedo_data plant fetched =
    (map (Simulation.run_of plant albedo_data (adjusted_heights fetched height) height rows
            opt_tilt)
         (Simulation.sample_dates (Calendar.Timestamp 2021 1 1) k),
     inl (LocalizeError e)).
Proof.
  intros Hclass Hsnow Hk Hloc Hbad. unfold BasicPredictor.calculate_total_energy.
  fold invalid_class_error. rewrite (n_pvrows_of_Some _ _ Hclass), bind_ret.
  rewrite (has_snow_returns _ _ Hsnow), bind_lift_inr. cbn [MonthlySnow.frame].
  apply simulate_year_stops; [rewrite passes_2021; exact Hk | | exact Hloc | exact Hbad].
  unfold Calendar.Timestamp, Calendar.Timedelta_days, Calendar.minutes_per_day.
  change (Calendar.days_from_civil 2021 1 1) with 18628.
  change (Calendar.days_from_civil 2021 12 31) with 18992. lia.
Qed.

(** X17. Given the table of monthly albedo, that is once
    [calculate_monthly_avg_albedo] has returned (what that call itself
    raises, such as the [ValueError] of a folder without CSV file, is not
    covered here), the estimator raises only the configuration error of the
    array class, the [KeyError] of the missing [snow] column or a
    localization error of [pd.date_range]; in particular [365 / count] never
    divides by zero. *)
Theorem estimator_failure_modes height ext_or_int opt_tilt albedo_data plant fetched e :
  outcome (BasicPredictor.calculate_total_energy height ext_or_int opt_tilt albedo_data plant
             fetched) = inl e ->
  e = ValueError "Invalid value for ext_or_int. Must be 'Ext' or 'Int'." \/
  e = KeyError "snow" \/
  exists le, e = LocalizeError le.
Proof.
  destruct (n_pvrows_of ext_or_int) as [rows |] eqn:Hclass.
  2: { rewrite calculate_total_energy_invalid by assumption. intros [= <-]. left. reflexivity. }
  unfold BasicPredictor.calculate_total_energy.
  fold invalid_class_error. rewrite (n_pvrows_of_Some _ _ Hclass), bind_ret.
  destruct (MonthlySnow.columns fetched !! "snow") as [snow |] eqn:Hsnow.
  2: { rewrite (snow_missing _ _ Hsnow). intros [= <-]. right. left. reflexivity. }
  assert (Hhas : has_snow fetched) by (eexists; exact Hsnow).
  rewrite (has_snow_returns _ _ Hhas), bind_lift_inr. cbn [MonthlySnow.frame].
  pose proof (simulate_year_outcome plant albedo_data (adjusted_heights fetched height) height
                rows opt_tilt (Calendar.Timestamp 2021 1 1) (Calendar.Timestamp 2021 12 31))
    as Hout.
  intros He. rewrite He in Hout. right. right. apply Hout.
  vm_compute. discriminate.
Qed.

End EstimatorBehaviour.

(** ** The trials of the optimizer *)

Section OptimizerPasses.
Context `{PowerModel} `{Optuna.Sampler}.
Import Optuna Conditions.
Variable plant : PlantConfig.
Variable albedo_data : list (Z * Q).
Variable fetched : MonthlySnow.DataFrame.
Variable weighted_avg_reveal_height : npfloat.

Local Abbreviation trial_energy :=
  (Optimizer.calculate_total_energy plant albedo_data fetched weighted_avg_reveal_height).
Local Abbreviation trial := (Optimizer.run_trial plant albedo_data fetched weighted_avg_reveal_height).
Local Abbreviation study_loop :=
  (Optimizer.optimize plant albedo_data fetched weighted_avg_reveal_height).
Local Abbreviation passes_at :=
  (fun axis_tilt =>
     map (Simulation.run_of plant albedo_data
            (adjusted_heights fetched weighted_avg_reveal_height)
            weighted_avg_reveal_height 3 axis_tilt) sampled_2021).

(** The objective of the study is the standalone estimator for an interior
    row at the weighted average height. *)
Lemma objective_is_interior_estimate axis_tilt :
  trial_energy axis_tilt =
  BasicPredictor.calculate_total_energy weighted_avg_reveal_height "Int" axis_tilt albedo_data
    plant fetched.
Proof.
  unfold Optimizer.calculate_total_energy, BasicPredictor.calculate_total_energy.
  cbn [String.eqb Ascii.eqb Bool.eqb]. rewrite bind_ret. reflexivity.
Qed.

Lemma trial_energy_raises axis_tilt :
  MonthlySnow.columns fetched !! "snow" = None ->
  trial_energy axis_tilt = ([], inl (KeyError "snow")).
Proof.
  intros Hsnow. unfold Optimizer.calculate_total_energy.
  rewrite (snow_missing _ _ Hsnow). reflexivity.
Qed.

Lemma run_trial_raises st :
  MonthlySnow.columns fetched !! "snow" = None ->
  trial st = ([], inl (KeyError "snow")).
Proof.
  intros Hsnow. unfold Optimizer.run_trial.
  destruct (suggest_float 0 60 _ _) as [axis_tilt s'].
  rewrite (trial_energy_raises _ Hsnow). reflexivity.
Qed.

(** One trial when nothing raises: the passes of its tilt, and the tilt
    recorded. *)
Lemma run_trial_returns st :
  has_snow fetched ->
  year_localizes (tz plant) ->
  exists st',
    trial st =
    (passes_at (fst (suggest_float 0 60 (trials (Optimizer.study st))
                       (Optimizer.sampler_state st))),
     inr st') /\
    Optimizer.trial_axis_tilts st' =
    Optimizer.trial_axis_tilts st ++
    [fst (suggest_float 0 60 (trials (Optimizer.study st)) (Optimizer.sampler_state st))].
Proof.
  intros Hsnow Hzone.
  pose proof (run_trial_runs plant albedo_data fetched weighted_avg_reveal_height st) as Hruns.
  pose proof (run_trial_outcome plant albedo_data fetched weighted_avg_reveal_height st) as Hout.
  cbn zeta in Hout. rewrite (trial_energy_returns _ _ _ _ _ Hsnow Hzone) in Hruns, Hout.
  unfold runs at 2 in Hruns. unfold outcome at 2 in Hout. cbn [fst snd] in Hruns, Hout.
  eexists. split.
  - rewrite (surjective_pairing (trial st)). unfold runs in Hruns. unfold outcome in Hout.
    rewrite Hruns, Hout. reflexivity.
  - reflexivity.
Qed.

(** The passes of a study are those of its tilts, one tilt after the
    other. *)
Lemma optimize_runs_by_tilt n : forall st,
  has_snow fetched ->
  year_localizes (tz plant) ->
  exists st' tilts,
    study_loop n st = (flat_map passes_at tilts, inr st') /\
    Optimizer.trial_axis_tilts st' = Optimizer.trial_axis_tilts st ++ tilts /\
    length tilts = n.
Proof.
  induction n as [| n IH]; intros st Hsnow Hzone; cbn [Optimizer.optimize].
  - exists st, []. split; [reflexivity |]. split; [symmetry; apply app_nil_r | reflexivity].
  - destruct (run_trial_returns st Hsnow Hzone) as (st1 & Htrial & Htilts1).
    destruct (IH st1 Hsnow Hzone) as (st' & tilts & Hloop & Htilts & Hlen).
    exists st', (fst (suggest_float 0 60 (trials (Optimizer.study st))
                        (Optimizer.sampler_state st)) :: tilts).
    split; [| split].
    + rewrite (bind_returns _ _ _ _ Htrial), Hloop. reflexivity.
    + rewrite Htilts, Htilts1, <- app_assoc. reflexivity.
    + cbn [length]. rewrite Hlen. reflexivity.
Qed.

Lemma length_flat_map_passes tilts :
  length (flat_map passes_at tilts) = (37 * length tilts)%nat.
Proof.
  induction tilts as [| tilt tilts IH]; [reflexivity |].
  cbn [flat_map length]. rewrite length_app, length_map, IH.
  unfold sampled_2021. rewrite length_sample_dates. lia.
Qed.

(** Every recorded trial holds the energy its tilt evaluates to. *)
Lemma run_trial_evaluated st st' :
  Forall (fun t => outcome (trial_energy (axis_tilt t)) = inr (value t))
         (trials (Optimizer.study st)) ->
  outcome (trial st) = inr st' ->
  Forall (fun t => outcome (trial_energy (axis_tilt t)) = inr (value t))
         (trials (Optimizer.study st')).
Proof.
  intros Hall. rewrite run_trial_outcome. cbn zeta.
  destruct (outcome (trial_energy _)) as [e | total_energy] eqn:Hout; [discriminate |].
  intros [= <-]. cbn [Optimizer.study tell trials].
  apply Forall_app. split; [exact Hall |]. repeat constructor. exact Hout.
Qed.

End OptimizerPasses.

Section OptimizerBehaviour.
Context `{PowerModel} `{Optuna.Sampler}.
Import Optuna Conditions.

(** X15. When the fetched weather frame has no [snow] column, both
    callers of [calculate_new_row_height] raise its [KeyError] before any
    day is simulated: the estimator for either array class, and the
    optimizer, in its first trial, once the survey is processed. *)
Theorem missing_snow_column_stops_callers
        height opt_tilt albedo_data plant fetched pvtune entropy :
  MonthlySnow.columns fetched !! "snow" = None ->
  (forall ext_or_int,
      ext_or_int = "Ext" \/ ext_or_int = "Int" ->
      BasicPredictor.calculate_total_energy height ext_or_int opt_tilt albedo_data plant fetched
      = ([], inl (KeyError "snow"))) /\
  (forall summary w,
      Pvtune.process_pvtune_output pvtune = inr (summary, w) ->
      Optimizer.optimize_axistilt pvtune albedo_data plant fetched entropy
      = ([], inl (KeyError "snow"))).
Proof.
  intros Hsnow. split.
  - intros ext_or_int Hclass. unfold BasicPredictor.calculate_total_energy.
    rewrite (snow_missing _ _ Hsnow). destruct Hclass as [-> | ->]; reflexivity.
  - intros summary w Hproc. unfold Optimizer.optimize_axistilt.
    rewrite Hproc, bind_lift_inr. cbn [Optimizer.optimize].
    rewrite (run_trial_raises _ _ _ _ _ Hsnow). reflexivity.
Qed.

(** X18. A completed optimization records 20 tilts and simulates, for
    each of them in the order proposed, the same 37 sampled days with three
    rows and the heights derived from the weighted average: 740 passes in
    all. *)
Theorem optimizer_simulates_each_tilt pvtune summary w albedo_data plant fetched entropy :
  Pvtune.process_pvtune_output pvtune = inr (summary, w) ->
  has_snow fetched ->
  year_localizes (tz plant) ->
  exists st,
    outcome (Optimizer.search pvtune albedo_data plant fetched entropy) = inr st /\
    length (Optimizer.trial_axis_tilts st) = 20%nat /\
    runs (Optimizer.optimize_axistilt pvtune albedo_data plant fetched entropy) =
    flat_map (fun axis_tilt =>
                map (Simulation.run_of plant albedo_data (adjusted_heights fetched w) w 3
                       axis_tilt) sampled_2021)
             (Optimizer.trial_axis_tilts st) /\
    length (runs (Optimizer.optimize_axistilt pvtune albedo_data plant fetched entropy))
    = 740%nat.
Proof.
  intros Hproc Hsnow Hzone.
  destruct (optimize_runs_by_tilt plant albedo_data fetched w 20
              (Optimizer.create_study entropy) Hsnow Hzone)
    as (st & tilts & Hloop & Htilts & Hlen).
  cbn [Optimizer.create_study Optimizer.trial_axis_tilts app] in Htilts.
  exists st. rewrite optimize_axistilt_runs, (search_processed _ _ _ _ _ _ _ Hproc), Hloop.
  unfold runs, outcome. cbn [fst snd]. rewrite Htilts.
  split; [reflexivity |]. split; [exact Hlen |]. split; [reflexivity |].
  rewrite (length_flat_map_passes plant albedo_data fetched w), Hlen. reflexivity.
Qed.

End OptimizerBehaviour.

Section NestedLoop.
Context `{PowerModel}.
Import Conditions.
Variable plant : PlantConfig.
Variable albedo_data : list (Z * Q).
Variable fetched : MonthlySnow.DataFrame.
Variable weighted_avg_reveal_height : npfloat.

Lemma nested_get_albedo date :
  OptimizerNested.get_albedo plant albedo_data date =
  Simulation.get_albedo albedo_data (tz plant) date.
Proof.
  unfold OptimizerNested.get_albedo, Simulation.get_albedo, Simulation.default_albedo.
  destruct (filter _ albedo_data); reflexivity.
Qed.

Lemma nested_get_adjusted_row_height heights date :
  OptimizerNested.get_adjusted_row_height weighted_avg_reveal_height heights date =
  Simulation.get_adjusted_row_height heights weighted_avg_reveal_height date.
Proof.
  unfold OptimizerNested.get_adjusted_row_height, Simulation.get_adjusted_row_height.
  destruct (filter _ heights); reflexivity.
Qed.

(** The loop written in optimizer.py makes the passes of the loop of
    basic_predictor.py run with three rows, and leaves the same sum and
    count. *)
Lemma nested_year_loop heights axis_tilt end_date fuel : forall st,
  OptimizerNested.year_loop plant albedo_data weighted_avg_reveal_height fuel heights
    axis_tilt end_date (Simulation.start_date st) (Simulation.total_energy_bi st)
    (Simulation.count st) =
  bind (Simulation.while_loop plant albedo_data heights weighted_avg_reveal_height 3
          axis_tilt fuel end_date st)
       (fun st' => ret (Simulation.total_energy_bi st', Simulation.count st')).
Proof.
  induction fuel as [| fuel IH]; intros st;
    cbn [OptimizerNested.year_loop Simulation.while_loop].
  - rewrite bind_ret. reflexivity.
  - destruct (Simulation.start_date st <=? end_date); [| rewrite bind_ret; reflexivity].
    destruct (Tz.date_range (Simulation.start_date st)
                (Simulation.start_date st + Calendar.Timedelta_days 1) 20 (tz plant))
      as [e | times] eqn:Hrange.
    + unfold Simulation.loop_body, Simulation.date_range_20min. rewrite Hrange. reflexivity.
    + assert (Hloc : Simulation.day_localizes (tz plant) (Simulation.start_date st) = true)
        by (unfold Simulation.day_localizes; rewrite Hrange; reflexivity).
      assert (Htimes : Simulation.times_of (tz plant) (Simulation.start_date st) = times)
        by (unfold Simulation.times_of; rewrite Hrange; reflexivity).
      rewrite (bind_returns _ _ _ _ (loop_body_localized _ _ _ _ _ _ st Hloc)).
      rewrite (map_ext _ _ nested_get_albedo), nested_get_adjusted_row_height.
      rewrite (bind_returns _ _ _ _ eq_refl).
      unfold Simulation.run_of, Simulation.day_energy, Simulation.day_inputs.
      rewrite Htimes.
      pose proof (IH {| Simulation.start_date :=
                       Simulation.start_date st + Calendar.Timedelta_days 10;
                     Simulation.total_energy_bi :=
                       (Simulation.total_energy_bi st +
                        series_sum
                          (ac_power
                             {| in_times := times;
                                in_axis_tilt := axis_tilt;
                                in_axis_azimuth := 180;
                                in_backtrack := true;
                                in_pvrow_height :=
                                  Simulation.get_adjusted_row_height heights
                                    weighted_avg_reveal_height (Simulation.start_date st);
                                in_albedo :=
                                  map (Simulation.get_albedo albedo_data (tz plant)) times;
                                in_n_pvrows := 3;
                                in_index_observed_pvrow := 1;
                                in_plant := plant |}) / 3000)%Q;
                     Simulation.count := Simulation.count st + 1 |}) as IH1.
      cbn [Simulation.start_date Simulation.total_energy_bi Simulation.count] in IH1.
      unfold runs, outcome. rewrite IH1.
      destruct (Simulation.while_loop _ _ _ _ _ _ _ _ _) as [log [e | st']];
        cbn; rewrite ?app_nil_r; reflexivity.
Qed.

(** The nested function of optimizer.py, translated on its own, is the
    objective of the study. *)
Lemma nested_is_objective axis_tilt :
  OptimizerNested.calculate_total_energy plant albedo_data fetched weighted_avg_reveal_height
    axis_tilt =
  Optimizer.calculate_total_energy plant albedo_data fetched weighted_avg_reveal_height
    axis_tilt.
Proof.
  unfold OptimizerNested.calculate_total_energy, Optimizer.calculate_total_energy.
  destruct (MonthlySnow.calculate_new_row_height fetched weighted_avg_reveal_height)
    as [e | heights]; [reflexivity |].
  rewrite !bind_lift_inr. unfold Simulation.simulate_year.
  pose proof (nested_year_loop (MonthlySnow.frame heights) axis_tilt
                (Calendar.Timestamp 2021 12 31)
                (Simulation.passes (Calendar.Timestamp 2021 1 1)
                   (Calendar.Timestamp 2021 12 31))
                {| Simulation.start_date := Calendar.Timestamp 2021 1 1;
                   Simulation.total_energy_bi := 0; Simulation.count := 0 |}) as Hloop.
  cbn [Simulation.start_date Simulation.total_energy_bi Simulation.count] in Hloop.
  rewrite Hloop.
  destruct (Simulation.while_loop _ _ _ _ _ _ _ _ _) as [log [e | st']]; [reflexivity |].
  unfold bind, ret, lift.
  destruct (py_truediv _ _) as [e | scale]; rewrite !app_nil_r; reflexivity.
Qed.

End NestedLoop.

Section Optimum.
Context `{PowerModel} `{Optuna.Sampler}.
Import Optuna Conditions.

(** X19. The nested [calculate_total_energy] of optimizer.py, translated
    from that file alone, computes at every tilt what the estimator of
    basic_predictor.py computes for array class "Int" with the weighted
    average reveal height as row height: the same passes and the same
    outcome.  Whenever the optimizer returns, its third result is the
    summary of the survey and the energy it returns is the value of that
    function at the returned tilt. *)
Theorem optimum_is_interior_estimate
        pvtune summary w albedo_data plant fetched entropy tilt energy table :
  Pvtune.process_pvtune_output pvtune = inr (summary, w) ->
  outcome (Optimizer.optimize_axistilt pvtune albedo_data plant fetched entropy)
  = inr (tilt, energy, table) ->
  table = summary /\
  outcome (OptimizerNested.calculate_total_energy plant albedo_data fetched w tilt)
  = inr energy /\
  (forall axis_tilt,
      OptimizerNested.calculate_total_energy plant albedo_data fetched w axis_tilt =
      BasicPredictor.calculate_total_energy w "Int" axis_tilt albedo_data plant fetched).
Proof.
  intros Hproc. rewrite (optimize_axistilt_outcome _ _ _ _ _ _ _ Hproc).
  destruct (outcome (Optimizer.search _ _ _ _ _)) as [e | st] eqn:Hsearch; [discriminate |].
  destruct (best_trial (Optimizer.study st)) as [best |] eqn:Hbest; [| discriminate].
  intros [= <- <- <-]. split; [reflexivity |].
  rewrite (search_processed _ _ _ _ _ _ _ Hproc) in Hsearch.
  assert (Hok : consistent st).
  { eapply optimize_invariant; [apply run_trial_consistent | | exact Hsearch].
    apply create_study_consistent. }
  assert (Heval : Forall (fun t => outcome (Optimizer.calculate_total_energy plant albedo_data
                                              fetched w (axis_tilt t)) = inr (value t))
                         (trials (Optimizer.study st))).
  { eapply (optimize_invariant _ _ _ _
              (fun st => Forall (fun t => outcome (Optimizer.calculate_total_energy plant
                                                     albedo_data fetched w (axis_tilt t))
                                          = inr (value t))
                                (trials (Optimizer.study st))));
      [apply run_trial_evaluated | | exact Hsearch].
    constructor. }
  destruct Hok as (_ & _ & Hbest_ok). unfold best_ok in Hbest_ok. rewrite Hbest in Hbest_ok.
  destruct Hbest_ok as [i [Hi _]].
  rewrite Forall_forall in Heval. split.
  - rewrite nested_is_objective. apply Heval. apply list_elem_of_lookup. eauto.
  - intros axis_tilt. rewrite nested_is_objective. apply objective_is_interior_estimate.
Qed.

End Optimum.

Section Compositions.
Context `{PowerModel}.
Import Conditions.

Lemma albedo_table_months folder table :
  MonthlyAlbedo.calculate_monthly_avg_albedo folder = inr table ->
  StronglySorted Z.lt (map fst table).
Proof.
  intros Hret. apply calculate_monthly_avg_albedo_returns in Hret as ->.
  rewrite map_fst_groupby_month. apply group_keys_ascending.
Qed.

(** X5. When the estimator is given the table that
    [calculate_monthly_avg_albedo] returns, a timestamp whose month has a
    line in the table is handed to pvfactors with the average of that line:
    the line is the only one of its month, so [values[0]] reads it. *)
Theorem estimator_reads_albedo_table
        folder height ext_or_int opt_tilt albedo_data plant fetched r j t a :
  MonthlyAlbedo.calculate_monthly_avg_albedo folder =
    inr (map (fun line => (fst line, Some (snd line))) albedo_data) ->
  r ∈ runs (BasicPredictor.calculate_total_energy height ext_or_int opt_tilt albedo_data plant
              fetched) ->
  in_times (run_inputs r) !! j = Some t ->
  (Tz.month_of (tz plant) t, a) ∈ albedo_data ->
  in_albedo (run_inputs r) !! j = Some a.
Proof.
  intros Htable Hr Ht Hline.
  apply albedo_table_months in Htable. rewrite map_map in Htable. cbn [fst] in Htable.
  pose proof (calculate_total_energy_runs_shape height ext_or_int opt_tilt albedo_data
                plant fetched) as Hshape.
  rewrite Forall_forall in Hshape. destruct (Hshape r Hr) as [rows [_ Hin]].
  rewrite Hin. cbn [in_albedo Simulation.day_inputs].
  rewrite list_lookup_fmap, Ht. cbn [fmap option_fmap option_map]. f_equal.
  unfold Simulation.get_albedo.
  rewrite (filter_fst_unique albedo_data _ a Htable Hline). reflexivity.
Qed.

End Compositions.

Section HeightsGiven.
Import Conditions.

(** The height read for a date: a line of the frame or the nominal height,
    in both cases finite and within the bounds of the snow depths. *)
Lemma adjusted_row_height_bounded fetched snow h lo hi date :
  MonthlySnow.columns fetched !! "snow" = Some snow ->
  length snow = length (MonthlySnow.index fetched) ->
  (lo <= 0 <= hi)%Q ->
  (forall c q, c ∈ snow -> MonthlySnow.cell_value c = Some q -> (lo <= q <= hi)%Q) ->
  exists a,
    Simulation.get_adjusted_row_height (adjusted_heights fetched (Finite h)) (Finite h) date
    = Finite a /\
    (h - hi / 1000 <= a <= h - lo / 1000)%Q.
Proof.
  intros Hsnow Hlen Hzero Hdepths.
  assert (Hhas : has_snow fetched) by (eexists; exact Hsnow).
  pose proof (frame_heights_bounded fetched snow h lo hi _ Hsnow Hlen Hzero Hdepths
                (has_snow_returns fetched (Finite h) Hhas)) as Hframe.
  cbn [MonthlySnow.frame] in Hframe. rewrite Forall_forall in Hframe.
  unfold Simulation.get_adjusted_row_height.
  destruct (filter _ (adjusted_heights fetched (Finite h))) as [| line rest] eqn:Hf.
  - exists h. split; [reflexivity |].
    destruct Hzero as [Hlo Hhi]. unfold Qdiv. change (/ 1000)%Q with (1 # 1000)%Q.
    split; lra.
  - apply Hframe.
    assert (Hin : line ∈ filter (fun r0 : Z * npfloat =>
                                   fst r0 = Calendar.month (Calendar.date_of date))
                                (adjusted_heights fetched (Finite h)))
      by (rewrite Hf; constructor).
    apply list_elem_of_filter in Hin as [_ Hin]. exact Hin.
Qed.

End HeightsGiven.

Section HeightsOfPasses.
Context `{PowerModel} `{Optuna.Sampler}.
Import Conditions.

(** X8. In every pass of the estimator the row height given to pvfactors
    is finite and lies between the nominal height lowered by the deepest
    recorded snow and the nominal height lowered by the shallowest, whether
    the month of the pass has a line in the frame or not. *)
Theorem estimator_heights_bounded
        h ext_or_int opt_tilt albedo_data plant fetched snow lo hi :
  MonthlySnow.columns fetched !! "snow" = Some snow ->
  length snow = length (MonthlySnow.index fetched) ->
  (lo <= 0 <= hi)%Q ->
  (forall c q, c ∈ snow -> MonthlySnow.cell_value c = Some q -> (lo <= q <= hi)%Q) ->
  Forall (fun r => exists a, in_pvrow_height (run_inputs r) = Finite a /\
                             (h - hi / 1000 <= a <= h - lo / 1000)%Q)
         (runs (BasicPredictor.calculate_total_energy (Finite h) ext_or_int opt_tilt
                  albedo_data plant fetched)).
Proof.
  intros Hsnow Hlen Hzero Hdepths.
  eapply Forall_impl; [apply calculate_total_energy_runs_shape |].
  intros r [rows [_ ->]]. cbn [in_pvrow_height Simulation.day_inputs].
  apply (adjusted_row_height_bounded _ _ _ _ _ _ Hsnow Hlen Hzero Hdepths).
Qed.

(** X20. For a survey with at least one module, every pass of the
    optimizer gives pvfactors a finite row height, no higher than the
    greatest height of the summary and no lower than the least one minus the
    deepest recorded snow, in metres. *)
Theorem optimizer_heights_bounded
        pvtune summary w albedo_data plant fetched entropy snow lo hi deepest :
  Pvtune.process_pvtune_output pvtune = inr (summary, w) ->
  0 < Pvtune.total_modules summary ->
  Forall (fun row => (lo <= Pvtune.Max_Reveal_Height row <= hi)%Q) summary ->
  MonthlySnow.columns fetched !! "snow" = Some snow ->
  length snow = length (MonthlySnow.index fetched) ->
  (forall c q, c ∈ snow -> MonthlySnow.cell_value c = Some q -> (0 <= q <= deepest)%Q) ->
  (0 <= deepest)%Q ->
  Forall (fun r => exists a, in_pvrow_height (run_inputs r) = Finite a /\
                             (lo - deepest / 1000 <= a <= hi)%Q)
         (runs (Optimizer.optimize_axistilt pvtune albedo_data plant fetched entropy)).
Proof.
  intros Hproc Htotal Hheights Hsnow Hlen Hdepths Hdeep.
  destruct (weighted_average_bounds _ _ _ _ _ Hproc Htotal Hheights) as (h & -> & [Hlo Hhi] & _).
  rewrite optimize_axistilt_runs, (search_processed _ _ _ _ _ _ _ Hproc).
  apply (optimize_runs_Forall _ _ _ _ _ (fun _ => True)); [trivial |].
  intros axis_tilt _. eapply Forall_impl; [apply trial_energy_runs_shape |].
  intros r ->. cbn [in_pvrow_height Simulation.day_inputs].
  destruct (adjusted_row_height_bounded fetched snow h 0 deepest (run_start r) Hsnow Hlen)
    as (a & -> & Ha_lo & Ha_hi).
  - split; [apply Qle_refl | exact Hdeep].
  - exact Hdepths.
  - exists a. split; [reflexivity |].
    unfold Qdiv in *. change (/ 1000)%Q with (1 # 1000)%Q in *. split; lra.
Qed.

End HeightsOfPasses.

(** ** Examples of the properties above *)

Section ExtraExamples.
Import Optuna Conditions Examples Samples.

Lemma albedo_folder_table :
  MonthlyAlbedo.calculate_monthly_avg_albedo albedo_folder =
  inr (map (fun line => (fst line, Some (snd line))) albedo_of_folder).
Proof. vm_compute. reflexivity. Qed.

Lemma albedo_no_csv_raises_witness :
  MonthlyAlbedo.calculate_monthly_avg_albedo [notes] =
  inl (ValueError "No objects to concatenate").
Proof.
  apply (albedo_no_csv_raises [notes]). repeat constructor.
Defined.

Lemma albedo_months_ascending_witness :
  StronglySorted Z.lt (map fst (map (fun line : Z * Q => (fst line, Some (snd line)))
                                    albedo_of_folder)).
Proof.
  apply (albedo_months_ascending albedo_folder _ albedo_folder_table).
Defined.

Lemma albedo_folder_samples f l x :
  f ∈ albedo_folder -> l ∈ MonthlyAlbedo.lines f ->
  MonthlyAlbedo.Surface_Albedo l = Some x -> (0 <= x <= 1)%Q.
Proof.
  intros Hf Hl Hx. unfold albedo_folder in Hf.
  repeat (apply elem_of_cons in Hf as [-> | Hf]); try (inversion Hf; fail);
    cbn [MonthlyAlbedo.lines nsrdb_2019 nsrdb_2020 notes] in Hl;
    repeat (apply elem_of_cons in Hl as [-> | Hl]); try (inversion Hl; fail);
    cbn in Hx; try discriminate; injection Hx as <-; split; discriminate.
Qed.

Lemma albedo_within_sample_bounds_witness : (0 <= 1600 # 4000 <= 1)%Q.
Proof.
  apply (albedo_within_sample_bounds albedo_folder _ 1 (1600 # 4000) 0 1 albedo_folder_table).
  - intros f l x Hf _ Hl _ Hx. exact (albedo_folder_samples f l x Hf Hl Hx).
  - vm_compute. left.
Defined.

Lemma albedo_listing_order_irrelevant_witness :
  MonthlyAlbedo.calculate_monthly_avg_albedo [nsrdb_2019; notes; nsrdb_2020] =
  MonthlyAlbedo.calculate_monthly_avg_albedo [nsrdb_2020; nsrdb_2019; notes].
Proof.
  apply (albedo_listing_order_irrelevant [nsrdb_2019; notes; nsrdb_2020]
           [nsrdb_2020; nsrdb_2019; notes]).
  symmetry. apply (Permutation_cons_append [nsrdb_2019; notes] nsrdb_2020).
Defined.

Local Abbreviation stub := (constant_power 1).

(** The pass of 2021-01-01 is the first the estimator logs. *)
Lemma first_pass_logged height rows ext_or_int opt_tilt albedo_data plant fetched :
  n_pvrows_of ext_or_int = Some rows ->
  has_snow fetched ->
  year_localizes (tz plant) ->
  Simulation.run_of plant albedo_data (adjusted_heights fetched height) height rows opt_tilt
    (Calendar.Timestamp 2021 1 1)
  ∈ runs (@BasicPredictor.calculate_total_energy stub height ext_or_int opt_tilt albedo_data
            plant fetched).
Proof.
  intros Hclass Hsnow Hzone.
  rewrite (@calculate_total_energy_returns stub _ _ _ _ _ _ _ Hclass Hsnow Hzone).
  unfold runs. cbn [fst]. unfold sampled_2021. rewrite sample_dates_S. left.
Qed.

Lemma estimator_reads_albedo_table_witness :
  let r := Simulation.run_of plant_utc albedo_of_folder [] (Finite (3 # 2)) 2 30
             (Calendar.Timestamp 2021 1 1) in
  in_albedo (run_inputs r) !! 0%nat = Some (1600 # 4000)%Q.
Proof.
  intros r.
  apply (@estimator_reads_albedo_table stub albedo_folder (Finite (3 # 2)) "Ext" 30
           albedo_of_folder plant_utc no_snow_records r 0%nat (Calendar.Timestamp 2021 1 1)).
  - vm_compute. reflexivity.
  - apply (first_pass_logged (Finite (3 # 2)) 2 "Ext" 30 albedo_of_folder plant_utc
             no_snow_records eq_refl has_snow_no_snow_records year_localizes_utc).
  - vm_compute. reflexivity.
  - vm_compute. left.
Defined.

Lemma snow_records_returned :
  MonthlySnow.calculate_new_row_height snow_records (Finite 2) =
  inr {| MonthlySnow.printed := [];
         MonthlySnow.frame := adjusted_heights snow_records (Finite 2) |}.
Proof. vm_compute. reflexivity. Qed.

Lemma snow_records_depths c q :
  c ∈ [MonthlySnow.CFloat 300; MonthlySnow.CNaN; MonthlySnow.CInt 0] ->
  MonthlySnow.cell_value c = Some q -> (0 <= q <= 300)%Q.
Proof.
  intros Hc Hq.
  repeat (apply elem_of_cons in Hc as [-> | Hc]); try (inversion Hc; fail);
    vm_compute in Hq; try discriminate; injection Hq as <-; split; vm_compute; discriminate.
Qed.

Lemma snow_months_ascending_witness :
  StronglySorted Z.lt (map fst (adjusted_heights snow_records (Finite 2))).
Proof.
  apply (snow_months_ascending snow_records (Finite 2) _ snow_records_returned).
Defined.

Lemma snow_heights_finite_bounded_witness :
  exists a, Finite (3700 # 2000) = Finite a /\ (2 - 300 / 1000 <= a <= 2 - 0 / 1000)%Q.
Proof.
  apply (snow_heights_finite_bounded snow_records
           [MonthlySnow.CFloat 300; MonthlySnow.CNaN; MonthlySnow.CInt 0] 2 0 300
           {| MonthlySnow.printed := [];
              MonthlySnow.frame := adjusted_heights snow_records (Finite 2) |}
           eq_refl eq_refl) with (m := 1).
  - split; vm_compute; discriminate.
  - exact snow_records_depths.
  - exact snow_records_returned.
  - vm_compute. left.
Defined.

Lemma estimator_heights_bounded_witness :
  Forall (fun r => exists a, in_pvrow_height (run_inputs r) = Finite a /\
                             (2 - 300 / 1000 <= a <= 2 - 0 / 1000)%Q)
         (runs (@BasicPredictor.calculate_total_energy stub (Finite 2) "Ext" 30
                  constant_albedo plant_utc snow_records)).
Proof.
  apply (@estimator_heights_bounded stub 2 "Ext" 30 constant_albedo plant_utc snow_records
           [MonthlySnow.CFloat 300; MonthlySnow.CNaN; MonthlySnow.CInt 0] 0 300
           eq_refl eq_refl).
  - split; vm_compute; discriminate.
  - exact snow_records_depths.
Defined.

Lemma max_reveal_height_rounding_witness :
  exists x, (x + (3 # 4) <= 84 # 16)%Q /\ (84 # 16 < x + 1)%Q.
Proof.
  destruct (max_reveal_height_rounding layout 1 (84 # 16)) as (x & _ & _ & Hlo & Hhi & _).
  - vm_compute. reflexivity.
  - exists x. split; assumption.
Defined.

Lemma summary_lines_invariant_witness :
  Forall (fun row => 1 <= Pvtune.Number_of_Rows row /\
                     Pvtune.Number_of_Total_Modules row <= 104 * Pvtune.Number_of_Rows row)
         (fst layout_processed).
Proof.
  eapply Forall_impl.
  - apply (summary_lines_invariant layout _ _ layout_is_processed).
  - intros row (_ & Hrows & [_ Hmodules] & _). split; assumption.
Defined.

Lemma summary_counts_conserved_witness :
  Pvtune.sum_Z (map Pvtune.Number_of_Rows (fst layout_processed)) = 3 /\
  Pvtune.total_modules (fst layout_processed) = 286.
Proof.
  apply (summary_counts_conserved layout _ _ layout_is_processed).
Defined.

Lemma weighted_average_between_heights_witness :
  exists a, snd layout_processed = Finite a /\ (21 # 4 <= a <= 23 # 4)%Q.
Proof.
  apply (weighted_average_between_heights layout _ _ (21 # 4) (23 # 4) layout_is_processed).
  - vm_compute. reflexivity.
  - vm_compute. repeat constructor; discriminate.
Defined.

Lemma albedo_series_day_shape_witness :
  Forall (fun r => length (in_albedo (run_inputs r)) = 73%nat)
         (runs (@BasicPredictor.calculate_total_energy stub (Finite (3 # 2)) "Ext" 30
                  albedo_of_folder plant_utc no_snow_records)).
Proof.
  eapply Forall_impl.
  - apply (@albedo_series_day_shape stub 0 (Finite (3 # 2)) "Ext" 30 albedo_of_folder
             plant_utc no_snow_records). reflexivity.
  - intros r [Hlen _]. exact Hlen.
Defined.

(** The day that starts on 2021-01-31 reads the albedo of January on its
    first 72 samples and the albedo of February on the last. *)
Lemma last_sample_next_month :
  let r := Simulation.run_of plant_utc albedo_of_folder [] (Finite (3 # 2)) 2 30
             (Calendar.Timestamp 2021 1 31) in
  in_albedo (run_inputs r) !! 71%nat = Some (1600 # 4000)%Q /\
  in_albedo (run_inputs r) !! 72%nat = Some (2 # 10)%Q.
Proof. vm_compute. split; reflexivity. Qed.

Lemma missing_snow_column_stops_callers_witness :
  @BasicPredictor.calculate_total_energy stub (Finite (3 # 2)) "Int" 30 constant_albedo
    plant_utc no_snow_column = ([], inl (KeyError "snow")) /\
  @Optimizer.optimize_axistilt stub lcg_sampler layout constant_albedo plant_utc
    no_snow_column 1 = ([], inl (KeyError "snow")).
Proof.
  destruct (@missing_snow_column_stops_callers stub lcg_sampler (Finite (3 # 2)) 30
              constant_albedo plant_utc no_snow_column layout 1 eq_refl) as [Hest Hopt].
  split.
  - apply Hest. right. reflexivity.
  - apply (Hopt _ _ layout_is_processed).
Defined.

Lemma forallb_Forall_true {A} (f : A -> bool) l :
  forallb f l = true -> Forall (fun x => f x = true) l.
Proof. rewrite forallb_forall. intros Hall. apply List.Forall_forall. exact Hall. Qed.

Lemma estimator_stops_at_unlocalizable_day_witness :
  exists e,
    outcome (@BasicPredictor.calculate_total_energy stub (Finite (3 # 2)) "Ext" 30
               constant_albedo plant_midnight_change no_snow_records)
    = inl (LocalizeError e) /\
    length (runs (@BasicPredictor.calculate_total_energy stub (Finite (3 # 2)) "Ext" 30
                    constant_albedo plant_midnight_change no_snow_records)) = 8%nat.
Proof.
  destruct (@estimator_stops_at_unlocalizable_day stub (Finite (3 # 2)) "Ext" 2 30
              constant_albedo plant_midnight_change no_snow_records 8) as [e He].
  - reflexivity.
  - exact has_snow_no_snow_records.
  - lia.
  - apply forallb_Forall_true. vm_compute. reflexivity.
  - vm_compute. reflexivity.
  - exists e. rewrite He. unfold outcome, runs. cbn [fst snd].
    split; [reflexivity |]. rewrite length_map. apply length_sample_dates.
Defined.

Lemma optimizer_simulates_each_tilt_witness :
  length (runs (@Optimizer.optimize_axistilt stub lcg_sampler layout constant_albedo plant_utc
                  no_snow_records 1)) = 740%nat.
Proof.
  destruct (@optimizer_simulates_each_tilt stub lcg_sampler layout _ _ constant_albedo
              plant_utc no_snow_records 1 layout_is_processed has_snow_no_snow_records
              year_localizes_utc) as (st & _ & _ & _ & Hlen).
  exact Hlen.
Defined.

Lemma optimum_is_interior_estimate_witness :
  exists tilt energy,
    outcome (@Optimizer.optimize_axistilt stub lcg_sampler layout constant_albedo plant_utc
               no_snow_records 1) = inr (tilt, energy, fst layout_processed) /\
    outcome (@OptimizerNested.calculate_total_energy stub plant_utc constant_albedo
               no_snow_records (snd layout_processed) tilt) = inr energy /\
    outcome (@BasicPredictor.calculate_total_energy stub (snd layout_processed) "Int" tilt
               constant_albedo plant_utc no_snow_records) = inr energy.
Proof.
  destruct (example_returns 1) as (st & [[tilt energy] table] & _ & Hout & Htable).
  cbn [snd] in Htable. subst table. exists tilt, energy. split; [exact Hout |].
  destruct (@optimum_is_interior_estimate stub lcg_sampler layout _ _ constant_albedo plant_utc
              no_snow_records 1 tilt energy _ layout_is_processed Hout)
    as (_ & Hnested & Hsame).
  split; [exact Hnested |]. rewrite <- Hsame. exact Hnested.
Defined.

Lemma estimator_failure_modes_witness :
  ValueError "Invalid value for ext_or_int. Must be 'Ext' or 'Int'." =
    ValueError "Invalid value for ext_or_int. Must be 'Ext' or 'Int'." \/
  ValueError "Invalid value for ext_or_int. Must be 'Ext' or 'Int'." = KeyError "snow" \/
  exists le, ValueError "Invalid value for ext_or_int. Must be 'Ext' or 'Int'."
             = LocalizeError le.
Proof.
  apply (@estimator_failure_modes stub (Finite (3 # 2)) "Both" 30 constant_albedo plant_utc
           no_snow_records).
  reflexivity.
Defined.


Lemma optimizer_heights_bounded_witness :
  Forall (fun r => exists a, in_pvrow_height (run_inputs r) = Finite a /\
                             ((21 # 4) - 300 / 1000 <= a <= 23 # 4)%Q)
         (runs (@Optimizer.optimize_axistilt stub lcg_sampler layout constant_albedo plant_utc
                  snow_records 1)).
Proof.
  apply (@optimizer_heights_bounded stub lcg_sampler layout _ _ constant_albedo plant_utc
           snow_records 1 [MonthlySnow.CFloat 300; MonthlySnow.CNaN; MonthlySnow.CInt 0]
           (21 # 4) (23 # 4) 300 layout_is_processed).
  - vm_compute. reflexivity.
  - vm_compute. repeat constructor; discriminate.
  - reflexivity.
  - reflexivity.
  - exact snow_records_depths.
  - discriminate.
Defined.

End ExtraExamples.
